(** * The leave-balance request adapter ([lambda_function.py])

    A shallow embedding of the handler [lambda_handler] and of its helper
    [format_response], together with the parts of the Python run time they
    rest on (text predicates, [str], [int], [float], [json.dumps],
    [json.loads]) and an interface of the DynamoDB client.

    Conventions.
    - Python text is a Rocq [string]; every character is read as the code
      point of the same number, so the model covers texts over U+0000..U+00FF.
    - Python's [int] is [Z]; its [float] is the primitive binary64 [float].
    - A Python [dict] is an association list in insertion order; a lookup
      takes the first binding of a key.
    - The inbound event is any JSON value.  The handler is modelled on any
      event ([lambda_handler], [invoke_any]); an event that is a JSON object
      is a [dict] of values, and the statements about such events are made
      on the [dict] itself ([invoke_handler]).
    - Code that may raise returns a [res]; the calls made to the store are
      recorded in a log threaded through the handler.
    - The [print] statements are left out: what they format ([json.dumps] of
      the event, of the answers of the store with [default=str], of the
      decoded record) cannot raise on the values of this model.
    - [int] on a text and [json.loads] refuse a literal of more than 4300
      digits, as the interpreter does.  [str] and [json.dumps] of an [int]
      are modelled without that bound: the ints of an event, which a JSON
      parser made, and those of a decoded record are within it.
    - The interpreter's bound on the depth of recursion is not modelled. *)

From Stdlib Require Import ZArith NArith Lia Bool List String Ascii.
From Stdlib Require Import DecimalString DecimalN DecimalPos DecimalZ.
From Stdlib Require DecimalFacts.
From Stdlib Require Import Floats.
From Stdlib Require Import Permutation.
Import ListNotations.

Local Open Scope string_scope.
Local Open Scope Z_scope.

(** ** Exceptions and results *)

(** The exception classes the handler can meet.  The three named store
    classes are the ones the handler's [except] clauses select. *)
Inductive exn_class : Type :=
| TypeError
| AttributeError
| KeyError
| IndexError
| ValueError
| JSONDecodeError
| ResourceNotFoundException
| ProvisionedThroughputExceededException
| AccessDeniedException
| OtherException (name : string).

(** An exception: its class and the text [str(e)] gives. *)
Record exn : Type := Exn { exn_kind : exn_class; exn_text : string }.

Inductive res (A : Type) : Type :=
| Ok (a : A)
| Raise (e : exn).

Arguments Ok {A} a.
Arguments Raise {A} e.

Definition res_bind {A B : Type} (r : res A) (k : A -> res B) : res B :=
  match r with
  | Ok a => k a
  | Raise e => Raise e
  end.

Declare Scope res_scope.
Delimit Scope res_scope with res.
Notation "'let?' x ':=' r 'in' k" := (res_bind r (fun x => k))
  (at level 10, x name, r at level 100, k at level 200) : res_scope.
Local Open Scope res_scope.

(** ** Text *)

(** The double quote, U+0022. *)
Abbreviation dquote := (Ascii false true false false false true false false)
  (only parsing).

Definition code (c : ascii) : N := N_of_ascii c.

(** A text between double quotes. *)
Definition quoted (s : string) : string :=
  String dquote (s ++ String dquote EmptyString).

(** The JSON text of an error payload whose message needs no escape. *)
Definition error_text (msg : string) : string :=
  "{" ++ quoted "error" ++ ": " ++ quoted msg ++ "}".

Definition is_ascii_digit (c : ascii) : bool :=
  ((48 <=? code c) && (code c <=? 57))%N.

(** [c.isdigit()] for one character: the decimal digits and, in this range,
    the superscripts U+00B2, U+00B3 and U+00B9. *)
Definition isdigit_char (c : ascii) : bool :=
  is_ascii_digit c
  || (code c =? 178)%N || (code c =? 179)%N || (code c =? 185)%N.

Fixpoint string_forall (p : ascii -> bool) (s : string) : bool :=
  match s with
  | EmptyString => true
  | String c s' => p c && string_forall p s'
  end.

Fixpoint string_exists (p : ascii -> bool) (s : string) : bool :=
  match s with
  | EmptyString => false
  | String c s' => p c || string_exists p s'
  end.

(** [s.isdigit()]: at least one character, all of them digits. *)
Definition isdigit (s : string) : bool :=
  match s with
  | EmptyString => false
  | String _ _ => string_forall isdigit_char s
  end.

(** [needle in s] on two texts: [needle] occurs as a substring. *)
Fixpoint str_contains (needle s : string) : bool :=
  prefix needle s
  || match s with
     | EmptyString => false
     | String _ s' => str_contains needle s'
     end.

(** The characters [int] and [float] strip from both ends of a text. *)
Definition is_space (c : ascii) : bool :=
  (((9 <=? code c) && (code c <=? 13)) || (code c =? 32)
   || (code c =? 133) || (code c =? 160))%N.

Fixpoint lstrip (s : string) : string :=
  match s with
  | String c s' => if is_space c then lstrip s' else s
  | EmptyString => EmptyString
  end.

Fixpoint string_rev_onto (s acc : string) : string :=
  match s with
  | EmptyString => acc
  | String c s' => string_rev_onto s' (String c acc)
  end.

Definition string_rev (s : string) : string := string_rev_onto s EmptyString.

Definition strip (s : string) : string :=
  string_rev (lstrip (string_rev (lstrip s))).

Fixpoint repeat_char (c : ascii) (n : nat) : string :=
  match n with
  | O => EmptyString
  | S n' => String c (repeat_char c n')
  end.

Definition hex_digit (n : N) : ascii :=
  if (n <? 10)%N then ascii_of_N (48 + n) else ascii_of_N (87 + n).

(** Two lower-case hexadecimal digits of a character's code. *)
Definition hex2 (c : ascii) : string :=
  String (hex_digit (code c / 16)) (String (hex_digit (code c mod 16)) EmptyString).

(** The decimal numeral of a natural number and of an integer, as [str]
    prints them. *)
Definition str_of_N (n : N) : string := NilZero.string_of_uint (N.to_uint n).

Definition str_of_Z (z : Z) : string :=
  match z with
  | Zneg p => String "-" (str_of_N (Npos p))
  | _ => str_of_N (Z.to_N z)
  end.

(** The value of a run of decimal digits ([None] on any other text, and on
    the empty one). *)
Definition N_of_digits (s : string) : option N :=
  match s with
  | EmptyString => None
  | String _ _ =>
      match NilEmpty.uint_of_string s with
      | Some d => Some (N.of_uint d)
      | None => None
      end
  end.

Fixpoint span_digits (s : string) : string * string :=
  match s with
  | String c s' =>
      if is_ascii_digit c
      then let (d, r) := span_digits s' in (String c d, r)
      else (EmptyString, s)
  | EmptyString => (EmptyString, EmptyString)
  end.

(** The rule of [int] and [float] on underscores: one may stand between two
    digits and nowhere else.  [drop_underscores prev s] removes them, [prev]
    being the character before [s]. *)
Fixpoint drop_underscores (prev : ascii) (s : string) : option string :=
  match s with
  | EmptyString => if Ascii.eqb prev "_" then None else Some EmptyString
  | String c s' =>
      if Ascii.eqb c "_"
      then if is_ascii_digit prev then drop_underscores c s' else None
      else if Ascii.eqb prev "_" && negb (is_ascii_digit c) then None
           else option_map (String c) (drop_underscores c s')
  end.

Definition split_sign (s : string) : bool * string :=
  match s with
  | String "-" s' => (true, s')
  | String "+" s' => (false, s')
  | _ => (false, s)
  end.

(** [sys.int_info.default_max_str_digits]: the interpreter converts an
    [int] from and to a text of at most this many digits. *)
Definition max_str_digits : Z := 4300.

(** ** [int(s)] on a text, base ten; [None] stands for [ValueError].  The
    digits are counted with their leading zeros and without the sign, the
    underscores and the blanks around. *)
Definition py_int (s : string) : option Z :=
  match drop_underscores Ascii.zero (strip s) with
  | None => None
  | Some t =>
      let (neg, d) := split_sign t in
      if max_str_digits <? Z.of_nat (String.length d) then None
      else
        match N_of_digits d with
        | Some n => Some (if neg then - Z.of_N n else Z.of_N n)
        | None => None
        end
  end.

(** ** [float(s)] and [repr] of a float

    Both conversions are exact: [float_of_str] rounds the decimal it reads
    to the nearest binary64 value, ties to even; [float_repr] prints the
    shortest decimal that reads back as the same value and, of those, the
    one nearest to it. *)

Definition prec : Z := 53.
Definition emax : Z := 1024.

(** The binary64 value nearest to [m * 10 ^ e], [m] a natural number. *)
Definition SF_of_decimal (neg : bool) (m : N) (e : Z) : spec_float :=
  match m with
  | N0 => S754_zero neg
  | Npos p =>
      if 0 <=? e
      then binary_normalize prec emax
             (cond_Zopp neg (Zpos p * 10 ^ e)) 0 false
      else SFdiv prec emax (S754_finite neg p 0)
             (S754_finite false (Z.to_pos (10 ^ (- e))) 0)
  end.

Definition lower (c : ascii) : ascii :=
  if ((65 <=? code c) && (code c <=? 90))%N
  then ascii_of_N (code c + 32) else c.

Fixpoint string_map (f : ascii -> ascii) (s : string) : string :=
  match s with
  | EmptyString => EmptyString
  | String c s' => String (f c) (string_map f s')
  end.

(** The exponent part of a decimal literal: [e] or [E], a sign, digits.
    When no digit follows, the literal ends before the letter. *)
Definition read_exponent (s : string) : Z * string :=
  match s with
  | String c s' =>
      if Ascii.eqb (lower c) "e"
      then let (neg, t) := split_sign s' in
           let (d, r) := span_digits t in
           match N_of_digits d with
           | Some n => (if neg then - Z.of_N n else Z.of_N n, r)
           | None => (0, s)
           end
      else (0, s)
  | EmptyString => (0, s)
  end.

(** The unsigned part of a float literal: digits with an optional point and
    exponent, at least one digit before the exponent. *)
Definition read_decimal (neg : bool) (s : string) : option spec_float :=
  let (ip, r1) := span_digits s in
  let (fp, r2) :=
    match r1 with
    | String "." t => span_digits t
    | _ => (EmptyString, r1)
    end in
  match N_of_digits (ip ++ fp) with
  | None => None
  | Some m =>
      match read_exponent r2 with
      | (x, EmptyString) =>
          Some (SF_of_decimal neg m (x - Z.of_nat (String.length fp)))
      | (_, String _ _) => None
      end
  end.

Definition read_float (s : string) : option spec_float :=
  let (neg, t) := split_sign s in
  let w := string_map lower t in
  if String.eqb w "inf" || String.eqb w "infinity"
  then Some (S754_infinity neg)
  else if String.eqb w "nan" then Some S754_nan
  else read_decimal neg t.

(** [float(s)] on a text; [None] stands for [ValueError]. *)
Definition float_of_str (s : string) : option float :=
  match drop_underscores Ascii.zero (strip s) with
  | None => None
  | Some t => option_map SF2Prim (read_float t)
  end.

Definition SF_same (x y : spec_float) : bool :=
  match x, y with
  | S754_finite s m e, S754_finite s' m' e' =>
      Bool.eqb s s' && Pos.eqb m m' && Z.eqb e e'
  | _, _ => false
  end.

(** The least [k], at or above the start, with [num / den < 10 ^ k]. *)
Fixpoint decpt_from (fuel : nat) (num den k : Z) : Z :=
  match fuel with
  | O => k
  | S fuel' =>
      if (if 0 <=? k then num <? den * 10 ^ k else num * 10 ^ (- k) <? den)
      then k
      else decpt_from fuel' num den (k + 1)
  end.

Definition decpt_of (num den : Z) : Z :=
  decpt_from 8 num den
    (((Z.log2 num - Z.log2 den - 1) * 30103) / 100000 - 2).

(** The decimal of [p] digits chosen for the positive value [m * 2 ^ e],
    whose decimal point stands at [k]: of the two [p]-digit neighbours of
    the value, one that reads back as the value, the nearer if both do. *)
Definition digits_at (m : positive) (e : Z) (num den k : Z) (p : Z) : option Z :=
  let num' := if 0 <=? p - k then num * 10 ^ (p - k) else num in
  let den' := if 0 <=? p - k then den else den * 10 ^ (k - p) in
  let lo := num' / den' in
  let rm := num' mod den' in
  let back d := SF_same (SF_of_decimal false (Z.to_N d) (k - p))
                        (S754_finite false m e) in
  if rm =? 0 then (if back lo then Some lo else None)
  else
    match back lo, back (lo + 1) with
    | true, true =>
        if 2 * rm <? den' then Some lo
        else if den' <? 2 * rm then Some (lo + 1)
        else if Z.even lo then Some lo else Some (lo + 1)
    | true, false => Some lo
    | false, true => Some (lo + 1)
    | false, false => None
    end.

Fixpoint shortest_from (fuel : nat) (m : positive) (e : Z) (num den k p : Z) : Z * Z :=
  match fuel with
  | O => (num * 10 ^ (17 - k) / den, 17)
  | S fuel' =>
      match digits_at m e num den k p with
      | Some d => (d, p)
      | None => shortest_from fuel' m e num den k (p + 1)
      end
  end.

Fixpoint drop_zeros (fuel : nat) (d : Z) : Z :=
  match fuel with
  | O => d
  | S fuel' => if (d mod 10 =? 0) && negb (d =? 0) then drop_zeros fuel' (d / 10) else d
  end.

(** The digits of the shortest decimal of a positive finite value and the
    place of its decimal point: the value reads [0.digits * 10 ^ decpt]. *)
Definition shortest_digits (m : positive) (e : Z) : string * Z :=
  let num := if 0 <=? e then Zpos m * 2 ^ e else Zpos m in
  let den := if 0 <=? e then 1 else 2 ^ (- e) in
  let k := decpt_of num den in
  let (d, p) := shortest_from 17 m e num den k 1 in
  let full := str_of_Z d in
  (str_of_Z (drop_zeros 18 d), k + (Z.of_nat (String.length full) - p)).

Definition two_digits (z : Z) : string :=
  if z <? 10 then String "0" (str_of_Z z) else str_of_Z z.

(** [repr]'s layout of the digits: plain notation while the decimal point
    stands within [-4 < decpt <= 16], else with an exponent. *)
Definition format_short (ds : string) (decpt : Z) : string :=
  let n := Z.of_nat (String.length ds) in
  if (-4 <? decpt) && (decpt <=? 16) then
    if decpt <=? 0
    then "0." ++ repeat_char "0" (Z.to_nat (- decpt)) ++ ds
    else if n <=? decpt
    then ds ++ repeat_char "0" (Z.to_nat (decpt - n)) ++ ".0"
    else substring 0 (Z.to_nat decpt) ds ++ "."
         ++ substring (Z.to_nat decpt) (Z.to_nat (n - decpt)) ds
  else
    let x := decpt - 1 in
    substring 0 1 ds
    ++ (if 1 <? n then "." ++ substring 1 (Z.to_nat (n - 1)) ds else "")
    ++ "e" ++ (if x <? 0 then "-" else "+") ++ two_digits (Z.abs x).

(** [repr(f)], which is also [str(f)]. *)
Definition float_repr (f : float) : string :=
  match Prim2SF f with
  | S754_nan => "nan"
  | S754_infinity s => if s then "-inf" else "inf"
  | S754_zero s => if s then "-0.0" else "0.0"
  | S754_finite s m e =>
      let (ds, decpt) := shortest_digits m e in
      (if s then "-" else "") ++ format_short ds decpt
  end.

(** ** Values *)

#[local] Set Warnings "-register-all".

(** The values of a JSON document as Python holds them. *)
Inductive pyval : Type :=
| PNone
| PBool (b : bool)
| PInt (z : Z)
| PFloat (f : float)
| PStr (s : string)
| PList (l : list pyval)
| PDict (d : list (string * pyval)).

Definition dict (A : Type) : Type := list (string * A).

Fixpoint dict_get {A : Type} (k : string) (d : dict A) : option A :=
  match d with
  | [] => None
  | (k', v) :: d' => if String.eqb k k' then Some v else dict_get k d'
  end.

Definition dict_has {A : Type} (k : string) (d : dict A) : bool :=
  match dict_get k d with
  | Some _ => true
  | None => false
  end.

(** [d[k] = v]: the binding of [k] is replaced where it stands, a new key goes
    to the end. *)
Fixpoint dict_set {A : Type} (k : string) (v : A) (d : dict A) : dict A :=
  match d with
  | [] => [(k, v)]
  | (k', v') :: d' =>
      if String.eqb k k' then (k, v) :: d' else (k', v') :: dict_set k v d'
  end.

Definition keys {A : Type} (d : dict A) : list string := map fst d.

Definition type_name (v : pyval) : string :=
  match v with
  | PNone => "NoneType"
  | PBool _ => "bool"
  | PInt _ => "int"
  | PFloat _ => "float"
  | PStr _ => "str"
  | PList _ => "list"
  | PDict _ => "dict"
  end.

(** Truth value of a value, as [if v:] and [not v] take it. *)
Definition truthy (v : pyval) : bool :=
  match v with
  | PNone => false
  | PBool b => b
  | PInt z => negb (z =? 0)
  | PFloat f => negb (PrimFloat.eqb f 0%float)
  | PStr s => negb (String.eqb s "")
  | PList l => match l with [] => false | _ => true end
  | PDict d => match d with [] => false | _ => true end
  end.

(** Characters [repr] of a text prints as they are. *)
Definition is_printable (c : ascii) : bool :=
  (((32 <=? code c) && (code c <=? 126))
   || ((161 <=? code c) && negb (code c =? 173)))%N.

Definition repr_char (quote c : ascii) : string :=
  if Ascii.eqb c quote || Ascii.eqb c "\" then String "\" (String c EmptyString)
  else if (code c =? 9)%N then "\t"
  else if (code c =? 10)%N then "\n"
  else if (code c =? 13)%N then "\r"
  else if is_printable c then String c EmptyString
  else "\x" ++ hex2 c.

Fixpoint repr_chars (quote : ascii) (s : string) : string :=
  match s with
  | EmptyString => EmptyString
  | String c s' => repr_char quote c ++ repr_chars quote s'
  end.

(** [repr(s)] of a text: in double quotes when it holds a single quote and no
    double one, in single quotes otherwise. *)
Definition str_repr (s : string) : string :=
  let q : ascii :=
    if string_exists (Ascii.eqb "'") s && negb (string_exists (Ascii.eqb dquote) s)
    then dquote else "'"%char in
  String q (repr_chars q s ++ String q EmptyString).

(** [sep.join(l)]. *)
Fixpoint join (sep : string) (l : list string) : string :=
  match l with
  | [] => EmptyString
  | x :: l' =>
      match l' with
      | [] => x
      | _ :: _ => x ++ sep ++ join sep l'
      end
  end.

(** [repr(v)]. *)
Fixpoint py_repr (v : pyval) : string :=
  match v with
  | PNone => "None"
  | PBool b => if b then "True" else "False"
  | PInt z => str_of_Z z
  | PFloat f => float_repr f
  | PStr s => str_repr s
  | PList l => "[" ++ join ", " (map py_repr l) ++ "]"
  | PDict d =>
      "{" ++ join ", " (map (fun kv => str_repr (fst kv) ++ ": " ++ py_repr (snd kv)) d)
      ++ "}"
  end.

(** [str(v)]: a text is itself, every other value prints as [repr] does. *)
Definition py_str (v : pyval) : string :=
  match v with
  | PStr s => s
  | _ => py_repr v
  end.

(** [key in v], [key] a text: a key of a dict, a substring of a text, an
    element of a list; other values cannot be searched. *)
Definition py_in (key : string) (v : pyval) : res bool :=
  match v with
  | PDict d => Ok (dict_has key d)
  | PStr s => Ok (str_contains key s)
  | PList l =>
      Ok (existsb (fun x => match x with PStr s => String.eqb s key | _ => false end) l)
  | _ => Raise (Exn TypeError
                  ("argument of type '" ++ type_name v ++ "' is not iterable"))
  end.

(** [v[key]], [key] a text. *)
Definition py_getitem (v : pyval) (key : string) : res pyval :=
  match v with
  | PDict d =>
      match dict_get key d with
      | Some x => Ok x
      | None => Raise (Exn KeyError (str_repr key))
      end
  | PStr _ => Raise (Exn TypeError "string indices must be integers, not 'str'")
  | PList _ => Raise (Exn TypeError "list indices must be integers or slices, not str")
  | _ => Raise (Exn TypeError ("'" ++ type_name v ++ "' object is not subscriptable"))
  end.

(** [v.get(key, default)]: only a dict has the method. *)
Definition py_get (v : pyval) (key : string) (default : pyval) : res pyval :=
  match v with
  | PDict d =>
      match dict_get key d with
      | Some x => Ok x
      | None => Ok default
      end
  | _ => Raise (Exn AttributeError
                  ("'" ++ type_name v ++ "' object has no attribute 'get'"))
  end.

(** [len(v)]. *)
Definition py_len (v : pyval) : res Z :=
  match v with
  | PStr s => Ok (Z.of_nat (String.length s))
  | PList l => Ok (Z.of_nat (List.length l))
  | PDict d => Ok (Z.of_nat (List.length d))
  | _ => Raise (Exn TypeError ("object of type '" ++ type_name v ++ "' has no len()"))
  end.

(** [v[0]]. *)
Definition py_first (v : pyval) : res pyval :=
  match v with
  | PList (x :: _) => Ok x
  | PList [] => Raise (Exn IndexError "list index out of range")
  | PStr (String c _) => Ok (PStr (String c EmptyString))
  | PStr EmptyString => Raise (Exn IndexError "string index out of range")
  | PDict _ => Raise (Exn KeyError "0")
  | _ => Raise (Exn TypeError ("'" ++ type_name v ++ "' object is not subscriptable"))
  end.

(** ** [json.dumps]

    With its default settings: every character outside the printable ASCII
    range is escaped, items are separated by a comma and a space, keys from
    values by a colon and a space. *)

Definition json_char (c : ascii) : string :=
  if Ascii.eqb c dquote then String "\" (String dquote EmptyString)
  else if Ascii.eqb c "\" then "\\"
  else if (code c =? 10)%N then "\n"
  else if (code c =? 13)%N then "\r"
  else if (code c =? 9)%N then "\t"
  else if (code c =? 8)%N then "\b"
  else if (code c =? 12)%N then "\f"
  else if ((32 <=? code c) && (code c <=? 126))%N then String c EmptyString
  else "\u00" ++ hex2 c.

Fixpoint json_chars (s : string) : string :=
  match s with
  | EmptyString => EmptyString
  | String c s' => json_char c ++ json_chars s'
  end.

Definition json_string (s : string) : string :=
  String dquote (json_chars s ++ String dquote EmptyString).

Definition json_float (f : float) : string :=
  match Prim2SF f with
  | S754_nan => "NaN"
  | S754_infinity s => if s then "-Infinity" else "Infinity"
  | _ => float_repr f
  end.

Fixpoint json_dumps (v : pyval) : string :=
  match v with
  | PNone => "null"
  | PBool b => if b then "true" else "false"
  | PInt z => str_of_Z z
  | PFloat f => json_float f
  | PStr s => json_string s
  | PList l => "[" ++ join ", " (map json_dumps l) ++ "]"
  | PDict d =>
      "{" ++ join ", " (map (fun kv => json_string (fst kv) ++ ": " ++ json_dumps (snd kv)) d)
      ++ "}"
  end.

(** ** [json.loads] *)

(** The outcome of reading a prefix of a text: a value and the text left; a
    message and the number of characters left where reading stopped, of which
    [json.loads] makes a [JSONDecodeError]; or an exception of another class
    that ends the reading. *)
Inductive parse (A : Type) : Type :=
| Parsed (a : A) (rest : string)
| Failed (msg : string) (left : nat)
| Stopped (e : exn).

Arguments Parsed {A} a rest.
Arguments Failed {A} msg left.
Arguments Stopped {A} e.

Definition parse_map {A B : Type} (f : A -> B) (r : parse A) : parse B :=
  match r with
  | Parsed a rest => Parsed (f a) rest
  | Failed msg n => Failed msg n
  | Stopped e => Stopped e
  end.

(** A document that denotes a text with a code point above U+00FF, or that
    nests deeper than the interpreter's stack allows, is outside this model;
    reading it ends with a class of its own. *)
Definition unmodelled : exn :=
  Exn (OtherException "Unmodelled") "text outside U+0000..U+00FF".

(** The [ValueError] of [int] on a literal of [digits] digits, more than
    [max_str_digits]. *)
Definition int_limit_error (digits : nat) : exn :=
  Exn ValueError
    ("Exceeds the limit (4300 digits) for integer string conversion: value has "
     ++ str_of_N (N.of_nat digits)
     ++ " digits; use sys.set_int_max_str_digits() to increase the limit").

Definition is_json_space (c : ascii) : bool :=
  ((code c =? 32) || (code c =? 9) || (code c =? 10) || (code c =? 13))%N.

Fixpoint skip_ws (s : string) : string :=
  match s with
  | String c s' => if is_json_space c then skip_ws s' else s
  | EmptyString => EmptyString
  end.

Definition hex_value (c : ascii) : option N :=
  let n := code c in
  if ((48 <=? n) && (n <=? 57))%N then Some (n - 48)%N
  else if ((97 <=? n) && (n <=? 102))%N then Some (n - 87)%N
  else if ((65 <=? n) && (n <=? 70))%N then Some (n - 55)%N
  else None.

Definition hex4 (a b c d : ascii) : option N :=
  match hex_value a, hex_value b, hex_value c, hex_value d with
  | Some x, Some y, Some z, Some w => Some (((x * 16 + y) * 16 + z) * 16 + w)%N
  | _, _, _, _ => None
  end.

Definition simple_escape (c : ascii) : option ascii :=
  if Ascii.eqb c dquote then Some dquote
  else if Ascii.eqb c "\" then Some "\"%char
  else if Ascii.eqb c "/" then Some "/"%char
  else if Ascii.eqb c "b" then Some (ascii_of_N 8)
  else if Ascii.eqb c "f" then Some (ascii_of_N 12)
  else if Ascii.eqb c "n" then Some (ascii_of_N 10)
  else if Ascii.eqb c "r" then Some (ascii_of_N 13)
  else if Ascii.eqb c "t" then Some (ascii_of_N 9)
  else None.

(** The text of a JSON string, read from just after its opening quote;
    [start] is the number of characters left at that quote.  A [\u] escape
    needs its four digits and one more character after them.  An escape that
    names a code point above U+00FF has no text in this model. *)
Fixpoint scan_string (start : nat) (s : string) : parse string :=
  match s with
  | EmptyString => Failed "Unterminated string starting at" start
  | String c s' =>
      if Ascii.eqb c dquote then Parsed EmptyString s'
      else if Ascii.eqb c "\" then
        match s' with
        | EmptyString => Failed "Unterminated string starting at" start
        | String e s'' =>
            match simple_escape e with
            | Some ch => parse_map (String ch) (scan_string start s'')
            | None =>
                if Ascii.eqb e "u" then
                  match s'' with
                  | String h1 (String h2 (String h3 (String h4 (String _ _ as t)))) =>
                      match hex4 h1 h2 h3 h4 with
                      | Some n =>
                          if (n <? 256)%N
                          then parse_map (String (ascii_of_N n)) (scan_string start t)
                          else Stopped unmodelled
                      | None => Failed "Invalid \uXXXX escape" (String.length s')
                      end
                  | _ => Failed "Invalid \uXXXX escape" (String.length s')
                  end
                else Failed "Invalid \escape" (String.length s)
            end
        end
      else if (code c <? 32)%N
      then Failed "Invalid control character at" (String.length s)
      else parse_map (String c) (scan_string start s')
  end.

(** The integer part of a JSON number: a zero, or digits that start with a
    non-zero one. *)
Definition span_int (s : string) : string * string :=
  match s with
  | String c s' => if Ascii.eqb c "0" then ("0", s') else span_digits s
  | EmptyString => (EmptyString, EmptyString)
  end.

(** The fraction: a point and at least one digit. *)
Definition span_frac (s : string) : string * string :=
  match s with
  | String c t =>
      if Ascii.eqb c "." then
        match span_digits t with
        | (EmptyString, _) => (EmptyString, s)
        | (d, r) => (String "." d, r)
        end
      else (EmptyString, s)
  | EmptyString => (EmptyString, s)
  end.

Definition span_sign (s : string) : string * string :=
  match s with
  | String c t =>
      if Ascii.eqb c "-" || Ascii.eqb c "+"
      then (String c EmptyString, t) else (EmptyString, s)
  | EmptyString => (EmptyString, s)
  end.

(** The exponent: [e] or [E], an optional sign, at least one digit. *)
Definition span_exp (s : string) : string * string :=
  match s with
  | String c t =>
      if Ascii.eqb c "e" || Ascii.eqb c "E" then
        let (sg, u) := span_sign t in
        match span_digits u with
        | (EmptyString, _) => (EmptyString, s)
        | (d, r) => (String c (sg ++ d), r)
        end
      else (EmptyString, s)
  | EmptyString => (EmptyString, s)
  end.

Definition span_minus (s : string) : string * string :=
  match s with
  | String c t => if Ascii.eqb c "-" then ("-", t) else (EmptyString, s)
  | EmptyString => (EmptyString, s)
  end.

(** A JSON number at the head of [s]: an [int] when it has neither fraction
    nor exponent, a [float] otherwise.  The literal is handed to [int] or to
    [float]; [int] refuses one of more than [max_str_digits] digits. *)
Definition scan_number (s : string) : option (res pyval * string) :=
  let (sg, s0) := span_minus s in
  match span_int s0 with
  | (EmptyString, _) => None
  | (ip, r1) =>
      let (fp, r2) := span_frac r1 in
      let (xp, r3) := span_exp r2 in
      match fp, xp with
      | EmptyString, EmptyString =>
          match py_int (sg ++ ip) with
          | Some z => Some (Ok (PInt z), r3)
          | None => Some (Raise (int_limit_error (String.length ip)), r3)
          end
      | _, _ =>
          match float_of_str (sg ++ ip ++ fp ++ xp) with
          | Some f => Some (Ok (PFloat f), r3)
          | None => None
          end
      end
  end.

(** What follows [p] in [s], when [s] starts with [p]. *)
Fixpoint strip_prefix (p s : string) : option string :=
  match p with
  | EmptyString => Some s
  | String a p' =>
      match s with
      | String b s' => if Ascii.eqb a b then strip_prefix p' s' else None
      | EmptyString => None
      end
  end.

Definition scan_constant (s : string) : option (res pyval * string) :=
  match strip_prefix "null" s with Some r => Some (Ok PNone, r) | None =>
  match strip_prefix "true" s with Some r => Some (Ok (PBool true), r) | None =>
  match strip_prefix "false" s with Some r => Some (Ok (PBool false), r) | None =>
  match strip_prefix "NaN" s with Some r => Some (Ok (PFloat nan), r) | None =>
  match strip_prefix "Infinity" s with Some r => Some (Ok (PFloat infinity), r) | None =>
  match strip_prefix "-Infinity" s with
  | Some r => Some (Ok (PFloat neg_infinity), r)
  | None => scan_number s
  end end end end end end.

(** The items of an array: [s] stands at an item. *)
Fixpoint scan_items (fuel : nat) (value : string -> parse pyval)
  (acc : list pyval) (s : string) : parse pyval :=
  match fuel with
  | O => Stopped unmodelled
  | S fuel' =>
      match value s with
      | Parsed v r =>
          match skip_ws r with
          | String c r' =>
              if Ascii.eqb c "]" then Parsed (PList (acc ++ [v])) r'
              else if Ascii.eqb c ","
              then scan_items fuel' value (acc ++ [v]) (skip_ws r')
              else Failed "Expecting ',' delimiter" (S (String.length r'))
          | EmptyString => Failed "Expecting ',' delimiter" O
          end
      | Failed msg n => Failed msg n
      | Stopped e => Stopped e
      end
  end.

(** A member of an object after its key [k]: [s] stands after the key. *)
Definition scan_member_value (value : string -> parse pyval) (s : string)
  : parse pyval :=
  match skip_ws s with
  | String c r1 =>
      if Ascii.eqb c ":" then value (skip_ws r1)
      else Failed "Expecting ':' delimiter" (S (String.length r1))
  | EmptyString => Failed "Expecting ':' delimiter" O
  end.

(** The members of an object: [s] stands where a key must open. *)
Fixpoint scan_members (fuel : nat) (value : string -> parse pyval)
  (acc : dict pyval) (s : string) : parse pyval :=
  match fuel with
  | O => Stopped unmodelled
  | S fuel' =>
      match s with
      | String q t =>
          if Ascii.eqb q dquote then
            match scan_string (String.length s) t with
            | Parsed k r =>
                match scan_member_value value r with
                | Parsed v r2 =>
                    match skip_ws r2 with
                    | String c r' =>
                        if Ascii.eqb c "}" then Parsed (PDict (dict_set k v acc)) r'
                        else if Ascii.eqb c ","
                        then scan_members fuel' value (dict_set k v acc) (skip_ws r')
                        else Failed "Expecting ',' delimiter" (S (String.length r'))
                    | EmptyString => Failed "Expecting ',' delimiter" O
                    end
                | Failed msg n => Failed msg n
                | Stopped e => Stopped e
                end
            | Failed msg n => Failed msg n
            | Stopped e => Stopped e
            end
          else Failed "Expecting property name enclosed in double quotes"
                 (String.length s)
      | EmptyString =>
          Failed "Expecting property name enclosed in double quotes" O
      end
  end.

Definition starts_with (c : ascii) (s : string) : bool :=
  match s with
  | String a _ => Ascii.eqb a c
  | EmptyString => false
  end.

Definition tail (s : string) : string :=
  match s with
  | String _ t => t
  | EmptyString => EmptyString
  end.

(** One JSON value at the head of [s]; [fuel] bounds the nesting. *)
Fixpoint scan_once (fuel : nat) (s : string) : parse pyval :=
  match fuel with
  | O => Stopped unmodelled
  | S fuel' =>
      if starts_with dquote s
      then parse_map PStr (scan_string (String.length s) (tail s))
      else if starts_with "{" s then
        let t := skip_ws (tail s) in
        if starts_with "}" t then Parsed (PDict []) (tail t)
        else scan_members (S (String.length t)) (scan_once fuel') [] t
      else if starts_with "[" s then
        let t := skip_ws (tail s) in
        if starts_with "]" t then Parsed (PList []) (tail t)
        else scan_items (S (String.length t)) (scan_once fuel') [] t
      else
        match scan_constant s with
        | Some (Ok v, r) => Parsed v r
        | Some (Raise e, _) => Stopped e
        | None => Failed "Expecting value" (String.length s)
        end
  end.

Fixpoint count_newlines (s : string) : nat :=
  match s with
  | EmptyString => O
  | String c s' =>
      ((if (code c =? 10)%N then 1 else 0) + count_newlines s')%nat
  end.

(** The number of characters after the last newline of [s], and all of them
    when there is none. *)
Fixpoint after_last_newline (s : string) (n : nat) : nat :=
  match s with
  | EmptyString => n
  | String c s' =>
      if (code c =? 10)%N then after_last_newline s' O
      else after_last_newline s' (S n)
  end.

(** The text of a [JSONDecodeError] raised with [left] characters left. *)
Definition json_error (doc msg : string) (left : nat) : exn :=
  let pos := (String.length doc - left)%nat in
  let before := substring 0 pos doc in
  Exn JSONDecodeError
    (msg ++ ": line " ++ str_of_N (N.of_nat (S (count_newlines before)))
     ++ " column " ++ str_of_N (N.of_nat (S (after_last_newline before O)))
     ++ " (char " ++ str_of_N (N.of_nat pos) ++ ")").

(** [json.loads(doc)]. *)
Definition json_loads (doc : string) : res pyval :=
  match scan_once (S (String.length doc)) (skip_ws doc) with
  | Parsed v rest =>
      match skip_ws rest with
      | EmptyString => Ok v
      | r => Raise (json_error doc "Extra data" (String.length r))
      end
  | Failed msg n => Raise (json_error doc msg n)
  | Stopped e => Raise e
  end.

(** ** The store

    Modelled from the spec: the client of the store is not part of the
    repository.  A stored record maps a field name to a tagged value, a
    mapping from a wire tag to the payload in its string-serialized form; a
    point read answers with the item, with no item, or raises.  The client
    also carries the namespace [client.exceptions] of its exception classes:
    asking it for a name gives the class of that name, or raises the
    [AttributeError] of a namespace that has no such class. *)

Definition tagged : Type := dict string.

Definition StoredRecord : Type := dict tagged.

Record Client : Type := {
  describe_table : string -> res pyval;
  scan : string -> Z -> res pyval;
  get_item : string -> StoredRecord -> res (option StoredRecord);
  exceptions : string -> res exn_class
}.

Definition exn_class_eqb (a b : exn_class) : bool :=
  match a, b with
  | TypeError, TypeError
  | AttributeError, AttributeError
  | KeyError, KeyError
  | IndexError, IndexError
  | ValueError, ValueError
  | JSONDecodeError, JSONDecodeError
  | ResourceNotFoundException, ResourceNotFoundException
  | ProvisionedThroughputExceededException, ProvisionedThroughputExceededException
  | AccessDeniedException, AccessDeniedException => true
  | OtherException x, OtherException y => String.eqb x y
  | _, _ => false
  end.

(** [isinstance(e, cls)], as an [except cls:] clause tests it. *)
Definition isinstance (e : exn) (cls : exn_class) : bool :=
  exn_class_eqb (exn_kind e) cls.

(** The calls the handler makes to the store, in the order made. *)
Inductive call : Type :=
| DescribeTable (table : string)
| Scan (table : string) (limit : Z)
| GetItem (table : string) (key : StoredRecord).

(** A computation that may raise and that adds to the log of calls. *)
Definition M (A : Type) : Type := list call -> res A * list call.

Definition ret {A : Type} (a : A) : M A := fun log => (Ok a, log).

Definition lift {A : Type} (r : res A) : M A := fun log => (r, log).

Definition bind {A B : Type} (m : M A) (k : A -> M B) : M B :=
  fun log =>
    match m log with
    | (Ok a, log') => k a log'
    | (Raise e, log') => (Raise e, log')
    end.

(** [try: m except Exception as e: h e]. *)
Definition try_except {A : Type} (m : M A) (h : exn -> M A) : M A :=
  fun log =>
    match m log with
    | (Ok a, log') => (Ok a, log')
    | (Raise e, log') => h e log'
    end.

(** [try: m except Exception: pass], the value dropped. *)
Definition swallow {A : Type} (m : M A) : M unit :=
  try_except (bind m (fun _ => ret tt)) (fun _ => ret tt).

Definition invoke {A : Type} (c : call) (answer : res A) : M A :=
  fun log => (answer, (log ++ [c])%list).

Declare Scope M_scope.
Delimit Scope M_scope with M.
Notation "x <- m ;; k" := (bind m (fun x => k))
  (at level 61, m at next level, right associativity) : M_scope.
Notation "m ;;; k" := (bind m (fun _ => k))
  (at level 61, right associativity) : M_scope.

(** ** [format_response] *)

Definition get_default (event : dict pyval) (k : string) (default : pyval) : pyval :=
  match dict_get k event with
  | Some v => v
  | None => default
  end.

Definition format_response (event : dict pyval) (body_content : pyval)
  (status_code : Z) : pyval :=
  let response_body :=
    PDict [("application/json", PDict [("body", PStr (json_dumps body_content))])] in
  if dict_has "agent" event && dict_has "actionGroup" event then
    let action_response :=
      PDict [("actionGroup", get_default event "actionGroup" (PStr ""));
             ("apiPath", get_default event "apiPath" (PStr ""));
             ("httpMethod", get_default event "httpMethod" (PStr "GET"));
             ("httpStatusCode", PInt status_code);
             ("responseBody", response_body)] in
    PDict [("messageVersion", PStr "1.0");
           ("response", action_response);
           ("sessionAttributes", get_default event "sessionAttributes" (PDict []));
           ("promptSessionAttributes",
            get_default event "promptSessionAttributes" (PDict []))]
  else
    PDict [("statusCode", PInt status_code);
           ("headers", PDict [("Content-Type", PStr "application/json");
                              ("Access-Control-Allow-Origin", PStr "*")]);
           ("body", PStr (json_dumps body_content))].

(** [format_response] on any event.  The two membership tests raise on an
    event that is no container, and [event.get] raises on one that is no
    object; on an object the function is [format_response] above. *)
Definition format_response_any (event : pyval) (body_content : pyval)
  (status_code : Z) : res pyval :=
  let response_body :=
    PDict [("application/json", PDict [("body", PStr (json_dumps body_content))])] in
  let? has_agent := py_in "agent" event in
  let? has_both :=
    if has_agent : bool then py_in "actionGroup" event else Ok false in
  if has_both : bool then
    let? action_group := py_get event "actionGroup" (PStr "") in
    let? api_path := py_get event "apiPath" (PStr "") in
    let? http_method := py_get event "httpMethod" (PStr "GET") in
    let action_response :=
      PDict [("actionGroup", action_group);
             ("apiPath", api_path);
             ("httpMethod", http_method);
             ("httpStatusCode", PInt status_code);
             ("responseBody", response_body)] in
    let? session := py_get event "sessionAttributes" (PDict []) in
    let? prompt_session := py_get event "promptSessionAttributes" (PDict []) in
    Ok (PDict [("messageVersion", PStr "1.0");
               ("response", action_response);
               ("sessionAttributes", session);
               ("promptSessionAttributes", prompt_session)])
  else
    Ok (PDict [("statusCode", PInt status_code);
               ("headers", PDict [("Content-Type", PStr "application/json");
                                  ("Access-Control-Allow-Origin", PStr "*")]);
               ("body", PStr (json_dumps body_content))]).

(** ** [lambda_handler]

    The blocks of the handler are given twice: on any event, as the handler
    runs them, and on an event that is an object, where the event is the
    mapping itself and the formatter cannot raise. *)

Definition table_name : string := "leaveBalanceHRTable".

Definition error_body (msg : string) : pyval := PDict [("error", PStr msg)].

(** *** Extraction of the identifier, on any event *)

(** Line 18: the event has a [requestBody] with a [content]. *)
Definition has_agent_shape_any (event : pyval) : res bool :=
  let? has_request := py_in "requestBody" event in
  if has_request : bool
  then (let? rb := py_getitem event "requestBody" in py_in "content" rb)
  else Ok false.

(** Lines 19-22: the value of the first property, [PNone] when there is
    none. *)
Definition agent_value_any (event : pyval) : res pyval :=
  let? rb := py_getitem event "requestBody" in
  let? content := py_getitem rb "content" in
  let? has_json := py_in "application/json" content in
  if has_json : bool then
    let? media := py_getitem content "application/json" in
    let? properties := py_get media "properties" (PList []) in
    let? some :=
      if truthy properties
      then (let? n := py_len properties in Ok (0 <? n))
      else Ok false in
    if some : bool
    then (let? first := py_first properties in py_get first "value" PNone)
    else Ok PNone
  else Ok PNone.

(** Lines 26-27: the [empID] of the body, parsed first when it is a text. *)
Definition body_value_any (event : pyval) : res pyval :=
  let? body := py_getitem event "body" in
  let? body_content :=
    match body with
    | PStr s => json_loads s
    | _ => Ok body
    end in
  py_get body_content "empID" PNone.

(** Lines 15-31: the value of [user_input_data] before it is made a text,
    [PNone] when no branch gave one. *)
Definition extract_raw_any (event : pyval) : res pyval :=
  let? agent := has_agent_shape_any event in
  let? found :=
    if agent : bool then agent_value_any event
    else
      let? has_body := py_in "body" event in
      if has_body : bool then body_value_any event else Ok PNone in
  let? direct :=
    match found with
    | PNone => py_in "empID" event
    | _ => Ok false
    end in
  if direct : bool then py_getitem event "empID" else Ok found.

(** Lines 13-44: the identifier as a text, or the exception the block lets
    through. *)
Definition resolve_any (event : pyval) : res string :=
  let? raw := extract_raw_any event in
  let user_input_data :=
    match raw with
    | PNone => PNone
    | v => PStr (py_str v)
    end in
  match user_input_data with
  | PStr s =>
      if truthy user_input_data then Ok s
      else Raise (Exn ValueError "Employee ID not found in the request")
  | _ => Raise (Exn ValueError "Employee ID not found in the request")
  end.

(** *** Extraction of the identifier, on an object *)

(** Line 18: the event has a [requestBody] with a [content]. *)
Definition has_agent_shape (event : dict pyval) : res bool :=
  let ev := PDict event in
  let? has_request := py_in "requestBody" ev in
  if has_request : bool
  then (let? rb := py_getitem ev "requestBody" in py_in "content" rb)
  else Ok false.

(** Lines 19-22: the value of the first property, [PNone] when there is
    none. *)
Definition agent_value (event : dict pyval) : res pyval :=
  let ev := PDict event in
  let? rb := py_getitem ev "requestBody" in
  let? content := py_getitem rb "content" in
  let? has_json := py_in "application/json" content in
  if has_json : bool then
    let? media := py_getitem content "application/json" in
    let? properties := py_get media "properties" (PList []) in
    let? some :=
      if truthy properties
      then (let? n := py_len properties in Ok (0 <? n))
      else Ok false in
    if some : bool
    then (let? first := py_first properties in py_get first "value" PNone)
    else Ok PNone
  else Ok PNone.

(** Lines 26-27: the [empID] of the body, parsed first when it is a text. *)
Definition body_value (event : dict pyval) : res pyval :=
  let? body := py_getitem (PDict event) "body" in
  let? body_content :=
    match body with
    | PStr s => json_loads s
    | _ => Ok body
    end in
  py_get body_content "empID" PNone.

(** Lines 15-31: the value of [user_input_data] before it is made a text,
    [PNone] when no branch gave one. *)
Definition extract_raw (event : dict pyval) : res pyval :=
  let ev := PDict event in
  let? agent := has_agent_shape event in
  let? found :=
    if agent : bool then agent_value event
    else
      let? has_body := py_in "body" ev in
      if has_body : bool then body_value event else Ok PNone in
  let? direct :=
    match found with
    | PNone => py_in "empID" ev
    | _ => Ok false
    end in
  if direct : bool then py_getitem ev "empID" else Ok found.

(** Lines 13-44: the identifier as a text, or the exception the block lets
    through. *)
Definition resolve (event : dict pyval) : res string :=
  let? raw := extract_raw event in
  let user_input_data :=
    match raw with
    | PNone => PNone
    | v => PStr (py_str v)
    end in
  match user_input_data with
  | PStr s =>
      if truthy user_input_data then Ok s
      else Raise (Exn ValueError "Employee ID not found in the request")
  | _ => Raise (Exn ValueError "Employee ID not found in the request")
  end.

(** A block of the handler either returns the response or hands a value to
    the code after it. *)
Inductive stage (A : Type) : Type :=
| Return (response : pyval)
| Next (a : A).

Arguments Return {A} response.
Arguments Next {A} a.

(** *** The lookup *)

(** Lines 96-125: the [except] clauses of the lookup block.  Each clause
    names its class in the namespace of the client when it is reached, in
    order, and answers when the exception is of that class; a name the
    namespace has not raises there, out of the block. *)
Definition store_except (client : Client) (event : pyval) (e : exn) : res pyval :=
  let? not_found := exceptions client "ResourceNotFoundException" in
  if isinstance e not_found then
    format_response_any event
      (error_body "DynamoDB table leaveBalanceHRTable not found") 404
  else
    let? throttled := exceptions client "ProvisionedThroughputExceededException" in
    if isinstance e throttled then
      format_response_any event
        (error_body "Database is currently experiencing high traffic. Please try again later.")
        429
    else
      let? denied := exceptions client "AccessDeniedException" in
      if isinstance e denied then
        format_response_any event
          (error_body "The function does not have permission to access the leave balance database")
          403
      else
        format_response_any event
          (error_body ("Failed to retrieve employee data: " ++ exn_text e)) 500.

Definition lookup_key (user_input_data : string) : StoredRecord :=
  [("empID", [("N", user_input_data)])].

(** Lines 47-125: validation, the two probes, the point read, and the
    [except] clauses of the block. *)
Definition lookup (client : Client) (event : pyval) (user_input_data : string)
  : M (stage StoredRecord) :=
  try_except
    (if negb (isdigit user_input_data) then
       (response <- lift (format_response_any event
                            (error_body ("Invalid employee ID format: "
                                         ++ user_input_data
                                         ++ ". Employee ID must be numeric.")) 400) ;;
        ret (Return response))%M
     else
       (swallow (invoke (DescribeTable table_name)
                   (describe_table client table_name)) ;;;
        swallow (invoke (Scan table_name 5) (scan client table_name 5)) ;;;
        response <- invoke (GetItem table_name (lookup_key user_input_data))
                      (get_item client table_name (lookup_key user_input_data)) ;;
        match response with
        | None =>
            answer <- lift (format_response_any event
                              (error_body ("Employee with ID " ++ user_input_data
                                           ++ " not found in the leave balance database"))
                              404) ;;
            ret (Return answer)
        | Some leave_balance => ret (Next leave_balance)
        end)%M)
    (fun e => (answer <- lift (store_except client event e) ;;
               ret (Return answer))%M).

(** *** The decoder *)

(** Lines 138-148: the native value of a payload under its tag. *)
Definition native_value (value_type raw_value : string) : pyval :=
  if String.eqb value_type "N" then
    if negb (str_contains "." raw_value) then
      match py_int raw_value with
      | Some z => PInt z
      | None => PStr raw_value
      end
    else
      match float_of_str raw_value with
      | Some f => PFloat f
      | None => PStr raw_value
      end
  else PStr raw_value.

(** Lines 134-148: one field of the record; [list(value_dict.keys())[0]]
    raises on a mapping without a tag. *)
Definition decode_value (value_dict : tagged) : res pyval :=
  match keys value_dict with
  | [] => Raise (Exn IndexError "list index out of range")
  | value_type :: _ =>
      match dict_get value_type value_dict with
      | None => Raise (Exn KeyError (str_repr value_type))
      | Some raw_value => Ok (native_value value_type raw_value)
      end
  end.

(** Lines 130-148: the loop over the fields, [readable] the dict built so
    far. *)
Fixpoint decode_fields (items : StoredRecord) (readable : dict pyval)
  : res (dict pyval) :=
  match items with
  | [] => Ok readable
  | (key, value_dict) :: rest =>
      let? v := decode_value value_dict in
      decode_fields rest (dict_set key v readable)
  end.

Definition decode (leave_balance : StoredRecord) : res (dict pyval) :=
  decode_fields leave_balance [].

(** *** The handler *)

(** Lines 8-158: the body of the outer [try]. *)
Definition handler_body (client : Client) (event : pyval) : M pyval :=
  (user_input_data <- lift (resolve_any event) ;;
   found <- lookup client event user_input_data ;;
   match found with
   | Return response => ret response
   | Next leave_balance =>
       match leave_balance with
       | _ :: _ =>
           readable_leave_balance <- lift (decode leave_balance) ;;
           lift (format_response_any event (PDict readable_leave_balance) 200)
       | [] =>
           lift (format_response_any event
                   (error_body "An unexpected error occurred while processing the leave balance data")
                   500)
       end
   end)%M.

(** The handler: the body, and the outer [except] clause of lines 160-166,
    whose own call of the formatter is outside every [try]. *)
Definition lambda_handler (client : Client) (event : pyval) : M pyval :=
  try_except (handler_body client event)
    (fun e =>
       lift (format_response_any event
               (error_body ("Internal server error: " ++ exn_text e)) 500)).

(** One invocation on any event: the handler run from an empty log. *)
Definition invoke_any (client : Client) (event : pyval)
  : res pyval * list call :=
  lambda_handler client event [].

(** One invocation on an event that is an object. *)
Definition invoke_handler (client : Client) (event : dict pyval)
  : res pyval * list call :=
  invoke_any client (PDict event).

(** ** Reading a response *)

Fixpoint at_path (path : list string) (v : pyval) : option pyval :=
  match path with
  | [] => Some v
  | k :: path' =>
      match v with
      | PDict d =>
          match dict_get k d with
          | Some x => at_path path' x
          | None => None
          end
      | _ => None
      end
  end.

(** The status code of an envelope of either kind. *)
Definition status_of (response : pyval) : option Z :=
  match at_path ["statusCode"] response with
  | Some (PInt z) => Some z
  | _ =>
      match at_path ["response"; "httpStatusCode"] response with
      | Some (PInt z) => Some z
      | _ => None
      end
  end.

(** The JSON text an envelope of either kind carries. *)
Definition payload_of (response : pyval) : option string :=
  match at_path ["body"] response with
  | Some (PStr s) => Some s
  | _ =>
      match at_path ["response"; "responseBody"; "application/json"; "body"] response with
      | Some (PStr s) => Some s
      | _ => None
      end
  end.

Definition is_agent_envelope (response : pyval) : bool :=
  match at_path ["messageVersion"] response,
        at_path ["response"; "actionGroup"] response,
        at_path ["response"; "apiPath"] response,
        at_path ["response"; "httpMethod"] response,
        at_path ["response"; "httpStatusCode"] response,
        at_path ["response"; "responseBody"; "application/json"; "body"] response,
        at_path ["sessionAttributes"] response,
        at_path ["promptSessionAttributes"] response with
  | Some (PStr "1.0"), Some _, Some _, Some _, Some (PInt _), Some (PStr _),
    Some _, Some _ => true
  | _, _, _, _, _, _, _, _ => false
  end.

Definition is_gateway_envelope (response : pyval) : bool :=
  match at_path ["statusCode"] response,
        at_path ["headers"; "Content-Type"] response,
        at_path ["headers"; "Access-Control-Allow-Origin"] response,
        at_path ["body"] response with
  | Some (PInt _), Some (PStr "application/json"), Some (PStr "*"), Some (PStr _) =>
      true
  | _, _, _, _ => false
  end.

(** A well-formed envelope is of exactly one of the two kinds. *)
Definition well_formed (response : pyval) : bool :=
  xorb (is_agent_envelope response) (is_gateway_envelope response).

(** The event asks for the agent action envelope. *)
Definition agent_event (event : dict pyval) : bool :=
  dict_has "agent" event && dict_has "actionGroup" event.

(** ** Sample invocations

    Events, records and clients the examples below run the handler on. *)

(** A namespace with the two classes of the store that the handler names
    and that the store has, and with no other: any other name raises. *)
Definition store_exceptions (name : string) : res exn_class :=
  if String.eqb name "ResourceNotFoundException"
  then Ok ResourceNotFoundException
  else if String.eqb name "ProvisionedThroughputExceededException"
  then Ok ProvisionedThroughputExceededException
  else Raise (Exn AttributeError
                ("DynamoDBExceptions object has no attribute " ++ name)).

(** A client whose probes succeed and whose point read gives [reply]. *)
Definition client_replying (reply : res (option StoredRecord)) : Client :=
  {| describe_table := fun _ => Ok (PDict []);
     scan := fun _ _ => Ok (PDict []);
     get_item := fun _ _ => reply;
     exceptions := store_exceptions |}.

(** A client whose probes raise and whose point read gives [reply]. *)
Definition client_without_probes (reply : res (option StoredRecord)) : Client :=
  {| describe_table := fun _ => Raise (Exn AccessDeniedException "describe refused");
     scan := fun _ _ => Raise (Exn AccessDeniedException "scan refused");
     get_item := fun _ _ => reply;
     exceptions := store_exceptions |}.

Definition event_direct (v : pyval) : dict pyval := [("empID", v)].

Definition event_body (v : pyval) : dict pyval :=
  [("body", PDict [("empID", v)])].

Definition event_agent (v : pyval) : dict pyval :=
  [("requestBody",
    PDict [("content",
            PDict [("application/json",
                    PDict [("properties",
                            PList [PDict [("name", PStr "empID");
                                          ("value", v)]])])])])].

Definition ana_item : StoredRecord :=
  [("empID", [("N", "12345")]); ("balance", [("N", "15")]);
   ("name", [("S", "Ana")])].

Definition ana_record : dict pyval :=
  [("empID", PInt 12345); ("balance", PInt 15); ("name", PStr "Ana")].

(** The superscript two, U+00B2. *)
Definition superscript_two : string := String (ascii_of_N 178) EmptyString.

(** An invocation by an agent, with its markers and its method. *)
Definition event_from_agent : dict pyval :=
  [("agent", PDict [("name", PStr "hr")]);
   ("actionGroup", PStr "leave");
   ("apiPath", PStr "/balance");
   ("httpMethod", PStr "POST");
   ("empID", PStr "12345")].

(** An event whose request body is a number. *)
Definition event_malformed : dict pyval := [("requestBody", PInt 5)].

(** A decoded record with a float in it. *)
Definition record_with_float : dict pyval :=
  [("empID", PInt 12345); ("balance", PFloat 3.5); ("name", PStr "Ana")].

(** A stored record with a field that carries no tag. *)
Definition item_without_tag : StoredRecord :=
  [("empID", [("N", "1")]); ("balance", [])].

(** ** Three statements of the specification, as they are worded *)

(** The last clause of the classification of a lookup: every found item is
    answered with status 200. *)
Definition found_item_yields_200 : Prop :=
  forall client event uid item,
    resolve event = Ok uid ->
    isdigit uid = true ->
    get_item client table_name (lookup_key uid) = Ok (Some item) ->
    exists response calls,
      invoke_handler client event = (Ok response, calls)
      /\ status_of response = Some 200.

(** An event from which no branch extracts an identifier is answered with
    status 400. *)
Definition missing_identifier_yields_400 : Prop :=
  forall client event,
    extract_raw event = Ok PNone ->
    exists response calls,
      invoke_handler client event = (Ok response, calls)
      /\ status_of response = Some 400.

(** The three shapes tried one after the other, each on its own, the first
    value found taken. *)
Module InOrder.

Definition present (v : option pyval) : option pyval :=
  match v with
  | Some PNone => None
  | _ => v
  end.

Definition from_properties (event : dict pyval) : option pyval :=
  match at_path ["requestBody"; "content"; "application/json"; "properties"]
          (PDict event) with
  | Some (PList (PDict first :: _)) => present (dict_get "value" first)
  | _ => None
  end.

Definition from_body (event : dict pyval) : option pyval :=
  match dict_get "body" event with
  | Some (PStr s) =>
      match json_loads s with
      | Ok (PDict doc) => present (dict_get "empID" doc)
      | _ => None
      end
  | Some (PDict doc) => present (dict_get "empID" doc)
  | _ => None
  end.

Definition from_top_level (event : dict pyval) : option pyval :=
  present (dict_get "empID" event).

Definition first_value (event : dict pyval) : option pyval :=
  match from_properties event with
  | Some v => Some v
  | None =>
      match from_body event with
      | Some v => Some v
      | None => from_top_level event
      end
  end.

Definition resolve (event : dict pyval) : option string :=
  match first_value event with
  | Some v => if String.eqb (py_str v) "" then None else Some (py_str v)
  | None => None
  end.

End InOrder.

(** Resolution in the priority order of the three shapes: what the shapes
    tried in order give, the handler resolves. *)
Definition resolves_in_priority_order : Prop :=
  forall event uid,
    InOrder.resolve event = Some uid -> resolve event = Ok uid.

(** An event with a request body that carries no property, and a body
    that carries an identifier. *)
Definition event_empty_agent_and_body : dict pyval :=
  [("requestBody", PDict [("content", PDict [])]);
   ("body", PDict [("empID", PStr "7")])].

(** ** Decoded records *)

(** The scalars a decoded record holds. *)
Definition is_scalar (v : pyval) : bool :=
  match v with
  | PInt _ | PFloat _ | PStr _ => true
  | _ => false
  end.

(** A float that is neither a zero, an infinity nor a NaN. *)
Definition is_finite_nonzero (f : float) : bool :=
  match Prim2SF f with
  | S754_finite _ _ _ => true
  | _ => false
  end.

(** A float that is a zero or an infinity. *)
Definition is_zero_or_infinity (f : float) : bool :=
  match Prim2SF f with
  | S754_zero _ | S754_infinity _ => true
  | _ => false
  end.

(** The text of one member of an object, as [json_dumps] writes it. *)
Definition member_text (kv : string * pyval) : string :=
  json_string (fst kv) ++ ": " ++ json_dumps (snd kv).

(** ** The responses and calls of the stages *)

Definition calls_of_lookup (user_input_data : string) : list call :=
  [DescribeTable table_name; Scan table_name 5;
   GetItem table_name (lookup_key user_input_data)].

Definition invalid_format_response (event : dict pyval) (uid : string) : pyval :=
  format_response event
    (error_body ("Invalid employee ID format: " ++ uid
                 ++ ". Employee ID must be numeric.")) 400.

Definition not_found_response (event : dict pyval) (uid : string) : pyval :=
  format_response event
    (error_body ("Employee with ID " ++ uid
                 ++ " not found in the leave balance database")) 404.

Definition internal_error_response (event : dict pyval) (e : exn) : pyval :=
  format_response event
    (error_body ("Internal server error: " ++ exn_text e)) 500.

Definition empty_item_response (event : dict pyval) : pyval :=
  format_response event
    (error_body "An unexpected error occurred while processing the leave balance data")
    500.

(** What the [except] clauses of the lookup block make of [e] on an object:
    the answer of the first clause whose class [e] has, or the exception that
    naming a class raises. *)
Definition store_error_response (client : Client) (event : dict pyval) (e : exn)
  : res pyval :=
  let? not_found := exceptions client "ResourceNotFoundException" in
  if isinstance e not_found then
    Ok (format_response event
          (error_body "DynamoDB table leaveBalanceHRTable not found") 404)
  else
    let? throttled := exceptions client "ProvisionedThroughputExceededException" in
    if isinstance e throttled then
      Ok (format_response event
            (error_body "Database is currently experiencing high traffic. Please try again later.")
            429)
    else
      let? denied := exceptions client "AccessDeniedException" in
      if isinstance e denied then
        Ok (format_response event
              (error_body "The function does not have permission to access the leave balance database")
              403)
      else
        Ok (format_response event
              (error_body ("Failed to retrieve employee data: " ++ exn_text e)) 500).

(** The answer of the handler, on an object, when the point read raises [e]:
    the answer of the clause, or the internal error that the outer clause
    makes of what the clauses raise. *)
Definition store_failure_response (client : Client) (event : dict pyval) (e : exn)
  : pyval :=
  match store_error_response client event e with
  | Ok response => response
  | Raise e' => internal_error_response event e'
  end.

(** An event that is an object. *)
Definition is_object (event : pyval) : bool :=
  match event with
  | PDict _ => true
  | _ => false
  end.

(** Line 180 on any event: both markers are in it. *)
Definition asks_agent (event : pyval) : bool :=
  match py_in "agent" event, py_in "actionGroup" event with
  | Ok true, Ok true => true
  | _, _ => false
  end.

(** Field by field: the decoded fields follow the fields of the record, one
    for one and in their order. *)
Definition decodes_to (field : string * tagged) (native : string * pyval) : Prop :=
  fst field = fst native /\ decode_value (snd field) = Ok (snd native).

(** After the branch taken: a value found stands, and only when none was
    found is the top-level [empID] read. *)
Definition or_top_level (event : dict pyval) (found : pyval) : pyval :=
  match found with
  | PNone =>
      match dict_get "empID" event with
      | Some v => v
      | None => PNone
      end
  | _ => found
  end.

(** What follows a member's value in the text of an object. *)
Definition is_delimiter (c : ascii) : bool :=
  Ascii.eqb c "," || Ascii.eqb c "}".

Definition store_member (acc : dict pyval) (kv : string * pyval) : dict pyval :=
  dict_set (fst kv) (snd kv) acc.

(** ** Notions of the further properties *)

(** The status codes the handler writes. *)
Definition status_codes : list Z := [200; 400; 403; 404; 429; 500].

(** A printable ASCII character, U+0020..U+007E. *)
Definition is_plain_ascii (c : ascii) : bool :=
  ((32 <=? code c) && (code c <=? 126))%N.

(** An identifier that is no number, and one that the store does not hold. *)
Definition event_12a : dict pyval := [("empID", PStr "12a")].

(** The values other than a text and a natural number that [str] turns into
    a text [isdigit] refuses. *)
Definition refused_value (v : pyval) : Prop :=
  match v with
  | PInt z => - 10 ^ max_str_digits < z < 0
  | PBool _ | PFloat _ | PList _ | PDict _ => True
  | PNone | PStr _ => False
  end.

(** * Properties *)

(** ** The envelope *)

Lemma status_format_response (event : dict pyval) (body : pyval) (status : Z) :
  status_of (format_response event body status) = Some status.
Proof.
  unfold format_response.
  destruct (dict_has "agent" event && dict_has "actionGroup" event); reflexivity.
Qed.

Lemma payload_format_response (event : dict pyval) (body : pyval) (status : Z) :
  payload_of (format_response event body status) = Some (json_dumps body).
Proof.
  unfold format_response.
  destruct (dict_has "agent" event && dict_has "actionGroup" event); reflexivity.
Qed.

Lemma agent_format_response (event : dict pyval) (body : pyval) (status : Z) :
  is_agent_envelope (format_response event body status) = agent_event event.
Proof.
  unfold format_response, agent_event.
  destruct (dict_has "agent" event && dict_has "actionGroup" event); reflexivity.
Qed.

Lemma gateway_format_response (event : dict pyval) (body : pyval) (status : Z) :
  is_gateway_envelope (format_response event body status) = negb (agent_event event).
Proof.
  unfold format_response, agent_event.
  destruct (dict_has "agent" event && dict_has "actionGroup" event); reflexivity.
Qed.

Lemma well_formed_format_response (event : dict pyval) (body : pyval) (status : Z) :
  well_formed (format_response event body status) = true.
Proof.
  unfold well_formed.
  rewrite agent_format_response, gateway_format_response.
  now destruct (agent_event event).
Qed.

(** ** The handler, stage by stage *)

(** On an object the blocks on any event are the blocks on the mapping. *)
Lemma format_response_any_object (event : dict pyval) (body : pyval) (status : Z) :
  format_response_any (PDict event) body status
  = Ok (format_response event body status).
Proof.
  unfold format_response_any, format_response, py_in, py_get, get_default.
  cbn [res_bind].
  destruct (dict_has "agent" event); cbn [andb res_bind]; [|reflexivity].
  destruct (dict_has "actionGroup" event); cbn [res_bind]; [|reflexivity].
  destruct (dict_get "actionGroup" event), (dict_get "apiPath" event),
    (dict_get "httpMethod" event), (dict_get "sessionAttributes" event),
    (dict_get "promptSessionAttributes" event); reflexivity.
Qed.

Lemma extract_raw_any_object (event : dict pyval) :
  extract_raw_any (PDict event) = extract_raw event.
Proof. reflexivity. Qed.

Lemma resolve_any_object (event : dict pyval) :
  resolve_any (PDict event) = resolve event.
Proof. reflexivity. Qed.

Lemma store_except_object (client : Client) (event : dict pyval) (e : exn) :
  store_except client (PDict event) e = store_error_response client event e.
Proof.
  unfold store_except, store_error_response.
  now rewrite !format_response_any_object.
Qed.

Lemma lookup_invalid (client : Client) (event : dict pyval) (uid : string)
  (log : list call) :
  isdigit uid = false ->
  lookup client (PDict event) uid log
  = (Ok (Return (invalid_format_response event uid)), log).
Proof.
  intros H. unfold lookup, try_except, bind, lift, ret.
  now rewrite H, format_response_any_object.
Qed.

Lemma lookup_valid (client : Client) (event : dict pyval) (uid : string)
  (log : list call) :
  isdigit uid = true ->
  lookup client (PDict event) uid log =
  (match get_item client table_name (lookup_key uid) with
   | Ok None => Ok (Return (not_found_response event uid))
   | Ok (Some item) => Ok (Next item)
   | Raise e =>
       match store_error_response client event e with
       | Ok response => Ok (Return response)
       | Raise e' => Raise e'
       end
   end,
   (log ++ calls_of_lookup uid)%list).
Proof.
  intros H.
  unfold lookup, try_except, bind, swallow, try_except, bind, invoke, lift, ret.
  rewrite H. cbn [negb]. rewrite format_response_any_object.
  destruct (describe_table client table_name);
    destruct (scan client table_name 5);
    destruct (get_item client table_name (lookup_key uid)) as [[item|]|err];
    rewrite ?store_except_object;
    try destruct (store_error_response client event err);
    unfold calls_of_lookup, not_found_response;
    repeat rewrite <- app_assoc; reflexivity.
Qed.

(** The outcome of the body of the outer [try], by cases on the stages. *)
Lemma handler_body_cases (client : Client) (event : dict pyval) :
  handler_body client (PDict event) [] =
  match resolve event with
  | Raise e => (Raise e, [])
  | Ok uid =>
      if isdigit uid then
        (match get_item client table_name (lookup_key uid) with
         | Ok None => Ok (not_found_response event uid)
         | Raise e => store_error_response client event e
         | Ok (Some []) => Ok (empty_item_response event)
         | Ok (Some (f :: fs)) =>
             match decode (f :: fs) with
             | Ok readable => Ok (format_response event (PDict readable) 200)
             | Raise e => Raise e
             end
         end,
         calls_of_lookup uid)
      else (Ok (invalid_format_response event uid), [])
  end.
Proof.
  unfold handler_body, bind, lift, ret. rewrite resolve_any_object.
  destruct (resolve event) as [uid|e]; [|reflexivity].
  destruct (isdigit uid) eqn:D.
  - rewrite (lookup_valid _ _ _ _ D). cbn [app].
    destruct (get_item client table_name (lookup_key uid)) as [[[|f fs]|]|err];
      rewrite ?format_response_any_object; try reflexivity.
    + destruct (decode (f :: fs)); rewrite ?format_response_any_object;
        reflexivity.
    + destruct (store_error_response client event err); reflexivity.
  - rewrite (lookup_invalid _ _ _ _ D). reflexivity.
Qed.

(** The outcome of one invocation on an object, by cases on the stages. *)
Lemma invoke_handler_cases (client : Client) (event : dict pyval) :
  invoke_handler client event =
  match resolve event with
  | Raise e => (Ok (internal_error_response event e), [])
  | Ok uid =>
      if isdigit uid then
        (Ok match get_item client table_name (lookup_key uid) with
            | Ok None => not_found_response event uid
            | Raise e => store_failure_response client event e
            | Ok (Some []) => empty_item_response event
            | Ok (Some (f :: fs)) =>
                match decode (f :: fs) with
                | Ok readable => format_response event (PDict readable) 200
                | Raise e => internal_error_response event e
                end
            end,
         calls_of_lookup uid)
      else (Ok (invalid_format_response event uid), [])
  end.
Proof.
  unfold invoke_handler, invoke_any, lambda_handler, try_except, lift.
  rewrite handler_body_cases.
  destruct (resolve event) as [uid|e];
    [|now rewrite format_response_any_object].
  destruct (isdigit uid); [|reflexivity].
  destruct (get_item client table_name (lookup_key uid)) as [[[|f fs]|]|err];
    try reflexivity.
  - destruct (decode (f :: fs)); [reflexivity|].
    now rewrite format_response_any_object.
  - unfold store_failure_response.
    destruct (store_error_response client event err); [reflexivity|].
    now rewrite format_response_any_object.
Qed.

(** The answer to a failure of the point read is an error body under one of
    four status codes. *)
Lemma store_failure_cases (client : Client) (event : dict pyval) (e : exn) :
  exists msg st,
    store_failure_response client event e
    = format_response event (error_body msg) st
    /\ In st [404; 429; 403; 500].
Proof.
  unfold store_failure_response, store_error_response, internal_error_response.
  destruct (exceptions client "ResourceNotFoundException") as [c1|e1];
    cbn [res_bind]; [|eexists; exists 500; split; [reflexivity|cbn; auto]].
  destruct (isinstance e c1);
    [eexists; exists 404; split; [reflexivity|cbn; auto]|].
  destruct (exceptions client "ProvisionedThroughputExceededException") as [c2|e2];
    cbn [res_bind]; [|eexists; exists 500; split; [reflexivity|cbn; auto]].
  destruct (isinstance e c2);
    [eexists; exists 429; split; [reflexivity|cbn; auto]|].
  destruct (exceptions client "AccessDeniedException") as [c3|e3];
    cbn [res_bind]; [|eexists; exists 500; split; [reflexivity|cbn; auto]].
  destruct (isinstance e c3);
    eexists; [exists 403|exists 500]; split; try reflexivity; cbn; auto.
Qed.

Lemma well_formed_store_failure (client : Client) (event : dict pyval) (e : exn) :
  well_formed (store_failure_response client event e) = true.
Proof.
  destruct (store_failure_cases client event e) as [msg [st [-> _]]].
  apply well_formed_format_response.
Qed.

(** *** Events that are no object *)

(** No identifier is extracted from an event that is no object: the
    membership tests raise on a value that is no container, and a text or an
    array has no field to read. *)
Lemma resolve_any_non_object (event : pyval) :
  is_object event = false -> exists e, resolve_any event = Raise e.
Proof.
  unfold resolve_any, extract_raw_any, has_agent_shape_any, body_value_any.
  destruct event as [|b|z|f|s|l|d]; try discriminate; intros _;
    try (eexists; reflexivity).
  - cbn [py_in res_bind].
    destruct (str_contains "requestBody" s); [eexists; reflexivity|].
    cbn [res_bind].
    destruct (str_contains "body" s); [eexists; reflexivity|].
    cbn [res_bind].
    destruct (str_contains "empID" s); eexists; reflexivity.
  - cbn [py_in res_bind].
    destruct (existsb _ l); [eexists; reflexivity|].
    cbn [res_bind].
    destruct (existsb _ l); [eexists; reflexivity|].
    cbn [res_bind].
    destruct (existsb _ l); eexists; reflexivity.
Qed.

(** When extraction raises, the store is not called and the invocation ends
    as the formatter of the outer clause ends. *)
Lemma invoke_any_unresolved (client : Client) (event : pyval) (e : exn) :
  resolve_any event = Raise e ->
  invoke_any client event
  = (format_response_any event
       (error_body ("Internal server error: " ++ exn_text e)) 500, []).
Proof.
  intros R.
  unfold invoke_any, lambda_handler, try_except, handler_body, bind, lift.
  now rewrite R.
Qed.

(** The formatter on an event that is no object: it raises on a value that
    is no container and on a text or an array that holds both markers, and
    gives the gateway envelope on any other text or array. *)
Lemma format_response_any_non_object (event : pyval) (body : pyval) (status : Z) :
  is_object event = false ->
  match format_response_any event body status with
  | Ok response => response = format_response [] body status
                   /\ asks_agent event = false
  | Raise e =>
      match event with
      | PStr _ | PList _ =>
          asks_agent event = true
          /\ e = Exn AttributeError
                  ("'" ++ type_name event ++ "' object has no attribute 'get'")
      | _ => e = Exn TypeError
                   ("argument of type '" ++ type_name event ++ "' is not iterable")
      end
  end.
Proof.
  unfold format_response_any, asks_agent.
  destruct event as [|b|z|f|s|l|d]; try discriminate; intros _;
    try reflexivity; cbn [py_in res_bind].
  - destruct (str_contains "agent" s); cbn [res_bind]; [|now split].
    destruct (str_contains "actionGroup" s); cbn [res_bind]; now split.
  - destruct (existsb _ l); cbn [res_bind]; [|now split].
    destruct (existsb _ l); cbn [res_bind]; now split.
Qed.

(** C1, where the code departs from it.  On every event that is an object
    the handler does what the claim says: it returns a well-formed envelope,
    and an exception of a stage becomes the envelope of status 500 with the
    single error string.  On an event that is no object the extraction
    raises, the outer clause calls the formatter on the same event, outside
    every [try], and what the formatter raises leaves the handler: a
    [TypeError] on null, a boolean or a number, an [AttributeError] on a text
    or an array that holds both marker names.  The store is not called. *)
Theorem non_object_event_escapes_handler (client : Client) :
  (forall event : dict pyval,
     exists response calls,
       invoke_any client (PDict event) = (Ok response, calls)
       /\ well_formed response = true
       /\ (forall e calls',
             handler_body client (PDict event) [] = (Raise e, calls') ->
             status_of response = Some 500
             /\ payload_of response =
                Some (json_dumps
                        (PDict [("error",
                                 PStr ("Internal server error: " ++ exn_text e))]))))
  /\ (forall event : pyval,
        is_object event = false ->
        exists e,
          resolve_any event = Raise e
          /\ invoke_any client event
             = (format_response_any event
                  (error_body ("Internal server error: " ++ exn_text e)) 500, []))
  /\ (forall event : pyval,
        match event with
        | PNone | PBool _ | PInt _ | PFloat _ =>
            invoke_any client event
            = (Raise (Exn TypeError
                        ("argument of type '" ++ type_name event
                         ++ "' is not iterable")), [])
        | PStr _ | PList _ =>
            asks_agent event = true ->
            invoke_any client event
            = (Raise (Exn AttributeError
                        ("'" ++ type_name event
                         ++ "' object has no attribute 'get'")), [])
        | PDict _ => True
        end)
  /\ invoke_any client (PInt 5)
     = (Raise (Exn TypeError "argument of type 'int' is not iterable"), []).
Proof.
  split; [|split; [|split]].
  - intros event. fold (invoke_handler client event).
    pose proof (invoke_handler_cases client event) as Hi.
    pose proof (handler_body_cases client event) as Hb.
    destruct (resolve event) as [uid|e].
    + destruct (isdigit uid).
      * eexists. eexists. split; [exact Hi|]. split.
        -- destruct (get_item client table_name (lookup_key uid))
             as [[[|f fs]|]|err];
             try apply well_formed_format_response.
           ++ destruct (decode (f :: fs)); apply well_formed_format_response.
           ++ apply well_formed_store_failure.
        -- intros e calls' H. rewrite Hb in H. injection H as H _.
           destruct (get_item client table_name (lookup_key uid))
             as [[[|f fs]|]|err]; try discriminate.
           ++ destruct (decode (f :: fs)) as [readable|e0]; [discriminate|].
              injection H as ->. unfold internal_error_response.
              now rewrite status_format_response, payload_format_response.
           ++ unfold store_failure_response. rewrite H.
              unfold internal_error_response.
              now rewrite status_format_response, payload_format_response.
      * eexists. eexists. split; [exact Hi|]. split.
        -- apply well_formed_format_response.
        -- intros e calls' H. rewrite Hb in H. discriminate.
    + eexists. eexists. split; [exact Hi|]. split.
      * apply well_formed_format_response.
      * intros e' calls' H. rewrite Hb in H. injection H as <- _.
        unfold internal_error_response.
        now rewrite status_format_response, payload_format_response.
  - intros event O. destruct (resolve_any_non_object event O) as [e R].
    exists e. split; [exact R|]. now apply invoke_any_unresolved.
  - intros event.
    destruct event as [|b|z|f|s|l|d]; try exact I;
      try reflexivity; intros A.
    + destruct (resolve_any_non_object (PStr s) eq_refl) as [e R].
      rewrite (invoke_any_unresolved client _ e R).
      pose proof (format_response_any_non_object (PStr s)
                    (error_body ("Internal server error: " ++ exn_text e))
                    500 eq_refl) as F.
      destruct (format_response_any (PStr s) _ 500) as [response|e'].
      * destruct F as [_ F]. congruence.
      * destruct F as [_ ->]. reflexivity.
    + destruct (resolve_any_non_object (PList l) eq_refl) as [e R].
      rewrite (invoke_any_unresolved client _ e R).
      pose proof (format_response_any_non_object (PList l)
                    (error_body ("Internal server error: " ++ exn_text e))
                    500 eq_refl) as F.
      destruct (format_response_any (PList l) _ 500) as [response|e'].
      * destruct F as [_ F]. congruence.
      * destruct F as [_ ->]. reflexivity.
  - reflexivity.
Qed.

(** ** The envelope formatter *)

(** C7: for every event and every outcome, an event that carries both an
    [agent] and an [actionGroup] field gets the agent action envelope
    (message version 1.0, the method copied from the event and GET by
    default, the session attributes empty mappings by default, the JSON text
    of the payload under responseBody / application/json / body); any other
    event gets the gateway envelope (status code, the content type, the open
    cross-origin header, the JSON text as body).  The kind of envelope is
    fixed by the event alone. *)
Theorem format_response_by_event_shape (event : dict pyval) (body : pyval)
  (status : Z) :
  let response := format_response event body status in
  (dict_has "agent" event = true /\ dict_has "actionGroup" event = true ->
   is_agent_envelope response = true
   /\ at_path ["messageVersion"] response = Some (PStr "1.0")
   /\ at_path ["response"; "actionGroup"] response = dict_get "actionGroup" event
   /\ at_path ["response"; "apiPath"] response
      = Some match dict_get "apiPath" event with Some p => p | None => PStr "" end
   /\ at_path ["response"; "httpMethod"] response
      = Some match dict_get "httpMethod" event with Some m => m | None => PStr "GET" end
   /\ at_path ["response"; "httpStatusCode"] response = Some (PInt status)
   /\ at_path ["response"; "responseBody"; "application/json"; "body"] response
      = Some (PStr (json_dumps body))
   /\ at_path ["sessionAttributes"] response
      = Some match dict_get "sessionAttributes" event with
             | Some a => a | None => PDict [] end
   /\ at_path ["promptSessionAttributes"] response
      = Some match dict_get "promptSessionAttributes" event with
             | Some a => a | None => PDict [] end)
  /\ (dict_has "agent" event = false \/ dict_has "actionGroup" event = false ->
      response
      = PDict [("statusCode", PInt status);
               ("headers", PDict [("Content-Type", PStr "application/json");
                                  ("Access-Control-Allow-Origin", PStr "*")]);
               ("body", PStr (json_dumps body))])
  /\ (forall body' status',
        is_agent_envelope (format_response event body' status')
        = is_agent_envelope response
        /\ is_gateway_envelope (format_response event body' status')
           = is_gateway_envelope response).
Proof.
  cbv zeta. split; [|split].
  - intros [Ha Hg]. unfold format_response. rewrite Ha, Hg. cbn [andb].
    unfold dict_has in Hg.
    destruct (dict_get "actionGroup" event) as [g|] eqn:G; [|discriminate].
    repeat split; try reflexivity.
    cbn. unfold get_default. now rewrite G.
  - intros H. unfold format_response.
    destruct H as [H|H]; rewrite H; [|rewrite andb_false_r]; reflexivity.
  - intros body' status'.
    now rewrite !agent_format_response, !gateway_format_response.
Qed.

(** ** The probes *)

(** C8: for every event and every answer of the point read, the handler
    returns the same envelope (and makes the same calls) whatever the two
    probes, [describe_table] and [scan], answer or raise. *)
Theorem probes_never_affect_response (event : dict pyval)
  (describe1 describe2 : string -> res pyval)
  (scan1 scan2 : string -> Z -> res pyval)
  (read : string -> StoredRecord -> res (option StoredRecord))
  (classes : string -> res exn_class) :
  invoke_handler
    {| describe_table := describe1; scan := scan1; get_item := read;
       exceptions := classes |} event
  = invoke_handler
      {| describe_table := describe2; scan := scan2; get_item := read;
         exceptions := classes |} event.
Proof.
  now rewrite !invoke_handler_cases.
Qed.

(** ** Dicts *)

Lemma dict_get_head {A : Type} (k : string) (v : A) (d : dict A) :
  dict_get k ((k, v) :: d) = Some v.
Proof. cbn. now rewrite String.eqb_refl. Qed.

Lemma dict_get_not_key {A : Type} (k : string) (d : dict A) :
  ~ In k (keys d) -> dict_get k d = None.
Proof.
  induction d as [|[k' v] d IH]; cbn; [reflexivity|].
  intros H. destruct (String.eqb_spec k k') as [->|_].
  - exfalso. apply H. now left.
  - apply IH. intros Hin. apply H. now right.
Qed.

Lemma dict_get_In {A : Type} (k : string) (v : A) (d : dict A) :
  NoDup (keys d) -> (dict_get k d = Some v <-> In (k, v) d).
Proof.
  induction d as [|[k' v'] d IH]; cbn; intros N.
  - split; [discriminate|tauto].
  - inversion N as [|? ? Hk N']; subst.
    destruct (String.eqb_spec k k') as [->|Hne].
    + split.
      * intros [= ->]. now left.
      * intros [[= ->]|Hin]; [reflexivity|].
        exfalso. apply Hk. unfold keys.
        change k' with (fst (k', v)). now apply in_map.
    + rewrite (IH N'). split; [tauto|].
      intros [[= <- <-]|Hin]; [congruence|assumption].
Qed.

Lemma dict_get_Permutation {A : Type} (k : string) (d d' : dict A) :
  NoDup (keys d) -> Permutation d d' -> dict_get k d = dict_get k d'.
Proof.
  intros N P.
  assert (N' : NoDup (keys d')).
  { apply (Permutation_NoDup (l := keys d)); [|assumption].
    unfold keys. now apply Permutation_map. }
  destruct (dict_get k d) as [v|] eqn:G.
  - symmetry. apply (dict_get_In _ _ _ N').
    apply (Permutation_in _ P). now apply (dict_get_In _ _ _ N).
  - destruct (dict_get k d') as [v'|] eqn:G'; [|reflexivity].
    apply (dict_get_In _ _ _ N') in G'.
    apply (Permutation_in _ (Permutation_sym P)) in G'.
    apply (dict_get_In _ _ _ N) in G'. congruence.
Qed.

Lemma dict_set_fresh {A : Type} (k : string) (v : A) (d : dict A) :
  ~ In k (keys d) -> dict_set k v d = (d ++ [(k, v)])%list.
Proof.
  induction d as [|[k' v'] d IH]; cbn; intros H; [reflexivity|].
  destruct (String.eqb_spec k k') as [->|_].
  - exfalso. apply H. now left.
  - f_equal. apply IH. intros Hin. apply H. now right.
Qed.

(** ** The value decoder *)

Lemma decode_value_cons (tag raw : string) (others : tagged) :
  decode_value ((tag, raw) :: others) = Ok (native_value tag raw).
Proof.
  unfold decode_value. cbn [keys map fst]. now rewrite dict_get_head.
Qed.

Lemma decode_value_tagged (tv : tagged) :
  tv <> [] -> exists v, decode_value tv = Ok v.
Proof.
  destruct tv as [|[tag raw] others]; [congruence|].
  intros _. eexists. apply decode_value_cons.
Qed.

Lemma decode_value_raises (tv : tagged) (e : exn) :
  decode_value tv = Raise e ->
  tv = [] /\ e = Exn IndexError "list index out of range".
Proof.
  destruct tv as [|[tag raw] others].
  - cbn. now intros [= <-].
  - rewrite decode_value_cons. discriminate.
Qed.

Lemma decode_fields_untagged (items : StoredRecord) (acc : dict pyval) :
  (exists k, In (k, []) items) ->
  decode_fields items acc = Raise (Exn IndexError "list index out of range").
Proof.
  revert acc. induction items as [|[k tv] items IH]; intros acc [k0 Hin].
  - destruct Hin.
  - cbn. destruct tv as [|[tag raw] others]; [reflexivity|].
    rewrite decode_value_cons. cbn.
    apply IH. exists k0. destruct Hin as [H|H]; [discriminate|assumption].
Qed.

Lemma decode_fields_fresh (items : StoredRecord) (acc : dict pyval) :
  NoDup (keys acc ++ keys items) ->
  (forall k tv, In (k, tv) items -> tv <> []) ->
  exists fields,
    Forall2 decodes_to items fields
    /\ decode_fields items acc = Ok (acc ++ fields)%list.
Proof.
  revert acc. induction items as [|[k tv] items IH]; intros acc N T.
  - exists []. split; [constructor|]. cbn. now rewrite app_nil_r.
  - destruct (decode_value_tagged tv) as [v Hv].
    { apply (T k). now left. }
    cbn. rewrite Hv. cbn.
    assert (Hk : ~ In k (keys acc)).
    { cbn in N. apply NoDup_remove_2 in N.
      intros Hin. apply N. apply in_or_app. now left. }
    rewrite (dict_set_fresh _ _ _ Hk).
    destruct (IH (acc ++ [(k, v)])%list) as [fields [F D]].
    + unfold keys. rewrite map_app. cbn. rewrite <- app_assoc. exact N.
    + intros k' tv' Hin. apply (T k'). now right.
    + exists ((k, v) :: fields). split.
      * constructor; [split; [reflexivity|exact Hv]|exact F].
      * rewrite D. now rewrite <- app_assoc.
Qed.

Lemma Forall2_decodes_keys (items : StoredRecord) (fields : dict pyval) :
  Forall2 decodes_to items fields -> keys fields = keys items.
Proof.
  induction 1 as [|[k tv] [k' v] items fields [H _] _ IH]; [reflexivity|].
  cbn in H. subst k'. unfold keys in *. cbn. now rewrite IH.
Qed.

Lemma Forall2_decodes_get (items : StoredRecord) (fields : dict pyval) (k : string) :
  Forall2 decodes_to items fields ->
  dict_get k fields
  = match dict_get k items with
    | Some tv => match decode_value tv with Ok v => Some v | Raise _ => None end
    | None => None
    end.
Proof.
  induction 1 as [|[k1 tv] [k2 v] items fields [H1 H2] _ IH]; cbn in *;
    [reflexivity|].
  subst k2. destruct (String.eqb k k1); [now rewrite H2|exact IH].
Qed.

(** C4: for every stored record the decoder works field by field, each
    field's value fixed by that field alone and so by no order of the
    fields: under the numeric tag a payload without a decimal point goes
    through the integer parse, one with a decimal point through the float
    parse, and a payload that fails its parse stays the text it was; under
    any other tag the payload passes through as text.  So ["10"] gives the
    integer 10, ["3.5"] the float 3.5 and ["abc"] the text ["abc"]. *)
Theorem decode_field_by_field (record : StoredRecord) :
  NoDup (keys record) ->
  (forall k tv, In (k, tv) record -> tv <> []) ->
  (exists readable,
     decode record = Ok readable
     /\ keys readable = keys record
     /\ (forall k tag raw others,
           dict_get k record = Some ((tag, raw) :: others) ->
           dict_get k readable = Some (native_value tag raw))
     /\ (forall record', Permutation record record' ->
           exists readable',
             decode record' = Ok readable'
             /\ forall k, dict_get k readable' = dict_get k readable))
  /\ (forall raw, str_contains "." raw = false ->
        native_value "N" raw
        = match py_int raw with Some z => PInt z | None => PStr raw end)
  /\ (forall raw, str_contains "." raw = true ->
        native_value "N" raw
        = match float_of_str raw with Some f => PFloat f | None => PStr raw end)
  /\ (forall tag raw, tag <> "N" -> native_value tag raw = PStr raw)
  /\ native_value "N" "10" = PInt 10
  /\ native_value "N" "3.5" = PFloat 3.5
  /\ native_value "N" "abc" = PStr "abc".
Proof.
  intros N T.
  split; [|split; [|split; [|split; [|split; [|split]]]]].
  - destruct (decode_fields_fresh record [] N T) as [readable [F D]].
    exists readable. split; [exact D|]. split; [now apply Forall2_decodes_keys|].
    split.
    + intros k tag raw others G.
      rewrite (Forall2_decodes_get _ _ k F), G. now rewrite decode_value_cons.
    + intros record' P.
      assert (N' : NoDup (keys record')).
      { apply (Permutation_NoDup (l := keys record)); [|assumption].
        unfold keys. now apply Permutation_map. }
      assert (T' : forall k tv, In (k, tv) record' -> tv <> []).
      { intros k tv Hin. apply (T k).
        now apply (Permutation_in _ (Permutation_sym P)). }
      destruct (decode_fields_fresh record' [] N' T') as [readable' [F' D']].
      exists readable'. split; [exact D'|].
      intros k. rewrite (Forall2_decodes_get _ _ k F'), (Forall2_decodes_get _ _ k F).
      now rewrite (dict_get_Permutation k _ _ N P).
  - intros raw H. unfold native_value. now rewrite H.
  - intros raw H. unfold native_value. now rewrite H.
  - intros tag raw H. unfold native_value.
    destruct (String.eqb_spec tag "N"); [contradiction|reflexivity].
  - reflexivity.
  - vm_compute. reflexivity.
  - reflexivity.
Qed.

(** C10: of a field's tagged-value mapping the decoder reads the first tag
    and its payload, and nothing else: the value is the native value of that
    payload under that tag (the payload itself when the tag is not the
    numeric one), whatever other tags follow, and so the same as that of the
    first tag alone; on a mapping without a tag decoding raises, and the
    handler answers with the internal-error envelope of status 500 in place
    of the decoded record. *)
Theorem decode_reads_first_tag :
  (forall tag raw others,
     decode_value ((tag, raw) :: others) = Ok (native_value tag raw)
     /\ (String.eqb tag "N" = false ->
         decode_value ((tag, raw) :: others) = Ok (PStr raw))
     /\ decode_value ((tag, raw) :: others) = decode_value [(tag, raw)])
  /\ (forall client event uid item,
        resolve event = Ok uid ->
        isdigit uid = true ->
        get_item client table_name (lookup_key uid) = Ok (Some item) ->
        (exists k, In (k, []) item) ->
        exists response,
          invoke_handler client event = (Ok response, calls_of_lookup uid)
          /\ response
             = internal_error_response event
                 (Exn IndexError "list index out of range")
          /\ status_of response = Some 500
          /\ payload_of response
             = Some (error_text "Internal server error: list index out of range")).
Proof.
  split.
  - intros tag raw others. rewrite !decode_value_cons.
    split; [reflexivity|]. split; [|reflexivity].
    intros T. unfold native_value. now rewrite T.
  - intros client event uid item R D G U.
    eexists. rewrite invoke_handler_cases, R, D, G.
    destruct item as [|f fs]; [destruct U as [k []]|].
    unfold decode. rewrite (decode_fields_untagged _ _ U).
    split; [reflexivity|]. split; [reflexivity|].
    unfold internal_error_response.
    now rewrite status_format_response, payload_format_response.
Qed.

Lemma decode_fields_tagged (items : StoredRecord) (acc : dict pyval) :
  (forall k tv, In (k, tv) items -> tv <> []) ->
  exists readable, decode_fields items acc = Ok readable.
Proof.
  revert acc. induction items as [|[k tv] items IH]; intros acc T.
  - now exists acc.
  - destruct (decode_value_tagged tv) as [v Hv].
    { apply (T k). now left. }
    cbn. rewrite Hv. cbn. apply IH.
    intros k' tv' Hin. apply (T k'). now right.
Qed.

(** ** Validation *)

(** An identifier that [isdigit] refuses is answered with status 400, and
    the store is not called. *)
Lemma refused_identifier_rejected (client : Client) (event : dict pyval)
  (uid : string) :
  resolve event = Ok uid ->
  isdigit uid = false ->
  invoke_handler client event = (Ok (invalid_format_response event uid), [])
  /\ status_of (invalid_format_response event uid) = Some 400.
Proof.
  intros R D. rewrite invoke_handler_cases, R, D. split; [reflexivity|].
  apply status_format_response.
Qed.

(** C3, at the identifier made of the superscript two: it holds a character
    that is no decimal digit, [isdigit] accepts it, and the handler goes on
    to the point read; when the store has no such item the answer is 404,
    not 400. *)
Theorem superscript_identifier_reaches_store (client : Client) :
  string_forall is_ascii_digit superscript_two = false
  /\ isdigit superscript_two = true
  /\ resolve (event_direct (PStr superscript_two)) = Ok superscript_two
  /\ (exists response,
        invoke_handler client (event_direct (PStr superscript_two))
        = (Ok response,
           [DescribeTable table_name; Scan table_name 5;
            GetItem table_name [("empID", [("N", superscript_two)])]]))
  /\ (exists response calls,
        invoke_handler (client_replying (Ok None))
          (event_direct (PStr superscript_two)) = (Ok response, calls)
        /\ status_of response = Some 404).
Proof.
  split; [reflexivity|]. split; [reflexivity|]. split; [reflexivity|]. split.
  - rewrite invoke_handler_cases.
    change (resolve (event_direct (PStr superscript_two))) with (@Ok string superscript_two).
    change (isdigit superscript_two) with true. cbv iota.
    eexists. reflexivity.
  - eexists. eexists. split; [vm_compute; reflexivity|reflexivity].
Qed.

(** ** The lookup *)

(** C2, the counterexample: the store finds an item without a field, and the
    handler answers 500. *)
Lemma found_item_yields_200_fails : ~ found_item_yields_200.
Proof.
  intros H.
  destruct (H (client_replying (Ok (Some []))) (event_direct (PStr "12345"))
              "12345" [] eq_refl eq_refl eq_refl) as [response [calls [E S]]].
  vm_compute in E. injection E as <- <-. vm_compute in S. discriminate.
Qed.

(** C2, amended: for every validated identifier the handler makes the two
    probes and the point read and classifies the answer.  No item: status
    404 and the not-found message that names the identifier.  A missing
    table, raised as the class of that name in the namespace of the client:
    404 with its own message; throughput exhaustion, likewise: 429.  A found
    item that has a field, and whose every field carries a tag (with a text
    as payload): status 200 with the decoded record.  Nothing is said here of
    an access denial or of any other failure of the store. *)
Theorem lookup_outcomes (client : Client) (event : dict pyval) (uid : string) :
  resolve event = Ok uid ->
  isdigit uid = true ->
  exists response,
    invoke_handler client event = (Ok response, calls_of_lookup uid)
    /\ (get_item client table_name (lookup_key uid) = Ok None ->
        status_of response = Some 404
        /\ payload_of response
           = Some (json_dumps
                     (PDict [("error",
                              PStr ("Employee with ID " ++ uid
                                    ++ " not found in the leave balance database"))])))
    /\ (forall e, get_item client table_name (lookup_key uid) = Raise e ->
        exceptions client "ResourceNotFoundException"
        = Ok ResourceNotFoundException ->
        exn_kind e = ResourceNotFoundException ->
        status_of response = Some 404
        /\ payload_of response
           = Some (error_text "DynamoDB table leaveBalanceHRTable not found"))
    /\ (forall e, get_item client table_name (lookup_key uid) = Raise e ->
        exceptions client "ResourceNotFoundException"
        = Ok ResourceNotFoundException ->
        exceptions client "ProvisionedThroughputExceededException"
        = Ok ProvisionedThroughputExceededException ->
        exn_kind e = ProvisionedThroughputExceededException ->
        status_of response = Some 429
        /\ payload_of response
           = Some (error_text "Database is currently experiencing high traffic. Please try again later."))
    /\ (forall item, get_item client table_name (lookup_key uid) = Ok (Some item) ->
        item <> [] ->
        (forall k tv, In (k, tv) item -> tv <> []) ->
        exists readable,
          decode item = Ok readable
          /\ status_of response = Some 200
          /\ payload_of response = Some (json_dumps (PDict readable))).
Proof.
  intros R D. eexists. rewrite invoke_handler_cases, R, D.
  split; [reflexivity|].
  destruct (get_item client table_name (lookup_key uid)) as [[item|]|err].
  - split; [discriminate|]. split; [discriminate|]. split; [discriminate|].
    intros item' [= <-] Hne T.
    destruct item as [|f fs]; [congruence|].
    destruct (decode_fields_tagged (f :: fs) [] T) as [readable Hd].
    exists readable. unfold decode at 1. rewrite Hd. split; [reflexivity|].
    unfold decode. rewrite Hd.
    now rewrite status_format_response, payload_format_response.
  - split.
    + intros _. unfold not_found_response.
      now rewrite status_format_response, payload_format_response.
    + split; [discriminate|]. split; discriminate.
  - split; [discriminate|]. split; [|split; [|discriminate]].
    + intros e [= <-] N K.
      unfold store_failure_response, store_error_response, isinstance.
      rewrite N, K. cbn [res_bind exn_class_eqb].
      now rewrite status_format_response, payload_format_response.
    + intros e [= <-] N T K.
      unfold store_failure_response, store_error_response, isinstance.
      rewrite N, T, K. cbn [res_bind exn_class_eqb].
      now rewrite status_format_response, payload_format_response.
Qed.

(** ** A missing identifier *)

(** C5, the counterexample: the empty event carries no identifier, and the
    answer is 500. *)
Lemma missing_identifier_yields_400_fails : ~ missing_identifier_yields_400.
Proof.
  intros H.
  destruct (H (client_replying (Ok None)) [] eq_refl) as [response [calls [E S]]].
  vm_compute in E. injection E as <- <-. vm_compute in S. discriminate.
Qed.

(** C5, amended: for every event from which no branch extracts an
    identifier (none found, or an empty text), resolution raises, the store
    is not called, and the handler answers with the internal-error envelope
    of status 500. *)
Theorem missing_identifier_yields_500 (client : Client) (event : dict pyval) :
  extract_raw event = Ok PNone \/ extract_raw event = Ok (PStr "") ->
  resolve event = Raise (Exn ValueError "Employee ID not found in the request")
  /\ exists response,
       invoke_handler client event = (Ok response, [])
       /\ status_of response = Some 500
       /\ payload_of response
          = Some (error_text "Internal server error: Employee ID not found in the request").
Proof.
  intros H.
  assert (R : resolve event
              = Raise (Exn ValueError "Employee ID not found in the request")).
  { unfold resolve. destruct H as [-> | ->]; reflexivity. }
  split; [exact R|].
  eexists. rewrite invoke_handler_cases, R. split; [reflexivity|].
  unfold internal_error_response.
  now rewrite status_format_response, payload_format_response.
Qed.

(** ** Resolution of the identifier *)

Lemma top_level_step (event : dict pyval) (found : pyval) :
  (let? direct :=
     match found with
     | PNone => py_in "empID" (PDict event)
     | _ => Ok false
     end in
   if direct : bool then py_getitem (PDict event) "empID" else Ok found)
  = Ok (or_top_level event found).
Proof.
  unfold or_top_level, py_in, py_getitem, dict_has.
  destruct found; try reflexivity.
  cbn. now destruct (dict_get "empID" event).
Qed.

Lemma extract_raw_agent (event : dict pyval) (v : pyval) :
  has_agent_shape event = Ok true ->
  agent_value event = Ok v ->
  extract_raw event = Ok (or_top_level event v).
Proof.
  intros S V. unfold extract_raw. rewrite S. cbn [res_bind]. rewrite V.
  cbn [res_bind]. apply top_level_step.
Qed.

Lemma extract_raw_body (event : dict pyval) (v : pyval) :
  has_agent_shape event = Ok false ->
  dict_has "body" event = true ->
  body_value event = Ok v ->
  extract_raw event = Ok (or_top_level event v).
Proof.
  intros S B V. unfold extract_raw. rewrite S. cbn [res_bind py_in].
  rewrite B. cbn [res_bind]. rewrite V. cbn [res_bind]. apply top_level_step.
Qed.

Lemma extract_raw_direct (event : dict pyval) :
  has_agent_shape event = Ok false ->
  dict_has "body" event = false ->
  extract_raw event = Ok (or_top_level event PNone).
Proof.
  intros S B. unfold extract_raw. rewrite S. cbn [res_bind py_in].
  rewrite B. apply (top_level_step event PNone).
Qed.

Lemma resolve_of_raw (event : dict pyval) (v : pyval) :
  extract_raw event = Ok v ->
  resolve event
  = match v with
    | PNone => Raise (Exn ValueError "Employee ID not found in the request")
    | _ =>
        if String.eqb (py_str v) ""
        then Raise (Exn ValueError "Employee ID not found in the request")
        else Ok (py_str v)
    end.
Proof.
  intros H. unfold resolve. rewrite H. cbn [res_bind].
  destruct v; try reflexivity;
    cbn [truthy]; now destruct (String.eqb _ "").
Qed.

Lemma extract_raw_event_agent (v : pyval) : extract_raw (event_agent v) = Ok v.
Proof. now destruct v. Qed.

Lemma extract_raw_event_body (v : pyval) : extract_raw (event_body v) = Ok v.
Proof. now destruct v. Qed.

Lemma extract_raw_event_direct (v : pyval) : extract_raw (event_direct v) = Ok v.
Proof. now destruct v. Qed.

Lemma extract_raw_json_body (s : string) (v : pyval) :
  json_loads s = Ok (PDict [("empID", v)]) ->
  extract_raw [("body", PStr s)] = Ok v.
Proof.
  intros H. unfold extract_raw, body_value.
  change (has_agent_shape [("body", PStr s)]) with (@Ok bool false).
  cbn [res_bind py_in dict_has dict_get String.eqb Ascii.eqb Bool.eqb py_getitem].
  rewrite H. now destruct v.
Qed.

(** C6, the counterexample: the request body is there and carries no
    property, the body carries the identifier 7; tried in order the shapes
    give 7, the handler finds no identifier. *)
Lemma resolves_in_priority_order_fails : ~ resolves_in_priority_order.
Proof.
  intros H.
  specialize (H event_empty_agent_and_body "7" eq_refl).
  vm_compute in H. discriminate.
Qed.

(** C6, amended: resolution reads the properties of the agent request body
    when the event has a [requestBody] with a [content], and the [empID] of
    the [body] field (parsed when it is a text) only when it has not; the
    top-level [empID] is read whenever the branch taken gave no value, and a
    value found is never replaced.  A value that is not a text is made one
    by [str], so the three shapes that carry the same value resolve to the
    same identifier. *)
Theorem resolution_order (event : dict pyval) :
  (forall v, has_agent_shape event = Ok true -> agent_value event = Ok v ->
     extract_raw event = Ok (or_top_level event v))
  /\ (forall v, has_agent_shape event = Ok false -> dict_has "body" event = true ->
        body_value event = Ok v ->
        extract_raw event = Ok (or_top_level event v))
  /\ (has_agent_shape event = Ok false -> dict_has "body" event = false ->
        extract_raw event = Ok (or_top_level event PNone))
  /\ (forall rb content media first more,
        dict_get "requestBody" event = Some (PDict rb) ->
        dict_get "content" rb = Some (PDict content) ->
        dict_get "application/json" content = Some (PDict media) ->
        dict_get "properties" media = Some (PList (PDict first :: more)) ->
        has_agent_shape event = Ok true
        /\ agent_value event
           = Ok match dict_get "value" first with Some v => v | None => PNone end)
  /\ (forall doc,
        dict_get "requestBody" event = None ->
        dict_get "body" event = Some (PDict doc)
        \/ (exists s, dict_get "body" event = Some (PStr s)
                      /\ json_loads s = Ok (PDict doc)) ->
        has_agent_shape event = Ok false
        /\ dict_has "body" event = true
        /\ body_value event
           = Ok match dict_get "empID" doc with Some v => v | None => PNone end)
  /\ (forall v, extract_raw event = Ok v ->
        resolve event
        = match v with
          | PNone => Raise (Exn ValueError "Employee ID not found in the request")
          | _ =>
              if String.eqb (py_str v) ""
              then Raise (Exn ValueError "Employee ID not found in the request")
              else Ok (py_str v)
          end)
  /\ (forall s, py_str (PStr s) = s)
  /\ (forall v,
        resolve (event_agent v) = resolve (event_direct v)
        /\ resolve (event_body v) = resolve (event_direct v)
        /\ forall s, json_loads s = Ok (PDict [("empID", v)]) ->
                     resolve [("body", PStr s)] = resolve (event_direct v)).
Proof.
  split; [intros v; apply extract_raw_agent|].
  split; [intros v; apply extract_raw_body|].
  split; [apply extract_raw_direct|].
  split.
  { intros rb content media first more Hrb Hc Hm Hp.
    unfold has_agent_shape, agent_value, py_in, py_getitem, dict_has.
    rewrite Hrb. cbn [res_bind]. rewrite Hc. cbn [res_bind].
    split; [reflexivity|].
    unfold py_in, py_getitem, dict_has. rewrite Hm. cbn [res_bind py_get].
    rewrite Hp. cbn. now destruct (dict_get "value" first). }
  split.
  { intros doc Hrb Hb.
    unfold has_agent_shape, body_value, py_in, py_getitem, dict_has.
    rewrite Hrb. cbn [res_bind].
    destruct Hb as [Hb|[s [Hb Hs]]]; rewrite Hb; cbn [res_bind]; try rewrite Hs;
      (split; [reflexivity|]); (split; [reflexivity|]);
      cbn; now destruct (dict_get "empID" doc). }
  split; [intros v; apply resolve_of_raw|].
  split; [reflexivity|].
  intros v.
  rewrite (resolve_of_raw _ _ (extract_raw_event_agent v)).
  rewrite (resolve_of_raw _ _ (extract_raw_event_body v)).
  rewrite (resolve_of_raw _ _ (extract_raw_event_direct v)).
  split; [reflexivity|]. split; [reflexivity|].
  intros s H. now rewrite (resolve_of_raw _ _ (extract_raw_json_body s v H)).
Qed.

(** ** The JSON round trip *)

Lemma append_assoc (a b c : string) : (a ++ b) ++ c = a ++ (b ++ c).
Proof. induction a as [|x a IH]; cbn; [reflexivity|now rewrite IH]. Qed.

Lemma append_nil_r (a : string) : a ++ "" = a.
Proof. induction a as [|x a IH]; cbn; [reflexivity|now rewrite IH]. Qed.

Lemma append_cons_nonempty (a : string) (c : ascii) (r : string) :
  exists x t, a ++ String c r = String x t.
Proof. destruct a as [|x a]; cbn; eauto. Qed.

(** One character of a JSON string reads back as itself. *)
Lemma scan_string_char (n : nat) (c a : ascii) (t : string) :
  scan_string n (json_char c ++ String a t)
  = parse_map (String c) (scan_string n (String a t)).
Proof.
  destruct c as [[] [] [] [] [] [] [] []]; reflexivity.
Qed.

Lemma scan_string_chars (n : nat) (s rest : string) :
  scan_string n (json_chars s ++ String dquote rest) = Parsed s rest.
Proof.
  induction s as [|c s IH]; [reflexivity|].
  cbn [json_chars]. rewrite append_assoc.
  destruct (append_cons_nonempty (json_chars s) dquote rest) as [x [t E]].
  rewrite E, scan_string_char, <- E, IH. reflexivity.
Qed.

Lemma json_string_app (s rest : string) :
  json_string s ++ rest = String dquote (json_chars s ++ String dquote rest).
Proof.
  unfold json_string. cbn. now rewrite append_assoc.
Qed.

(** *** Decimal numerals *)

Lemma nzhead_not_D0 (d d' : Decimal.uint) : Decimal.nzhead d <> Decimal.D0 d'.
Proof.
  induction d; cbn; try discriminate. exact IHd.
Qed.

Lemma unorm_D0_inv (d d' : Decimal.uint) :
  Decimal.unorm d = Decimal.D0 d' -> d' = Decimal.Nil.
Proof.
  unfold Decimal.unorm. destruct (Decimal.nzhead d) eqn:E;
    try discriminate.
  - now intros [= <-].
  - intros _. exfalso. exact (nzhead_not_D0 _ _ E).
Qed.

Lemma to_uint_normal (p : positive) :
  Decimal.unorm (Pos.to_uint p) = Pos.to_uint p.
Proof.
  rewrite <- (DecimalPos.Unsigned.to_of (Pos.to_uint p)).
  now rewrite DecimalPos.Unsigned.of_to.
Qed.

Lemma string_of_uint_digits (d : Decimal.uint) :
  string_forall is_ascii_digit (NilEmpty.string_of_uint d) = true.
Proof.
  induction d; cbn [NilEmpty.string_of_uint string_forall];
    try rewrite IHd; reflexivity.
Qed.

(** The numeral of a natural number: it has a first digit, holds digits
    only, starts with a zero only when it is the zero alone, and its value
    is the number. *)
Lemma str_of_N_shape (n : N) :
  exists d0 ds,
    str_of_N n = String d0 ds
    /\ is_ascii_digit d0 = true
    /\ string_forall is_ascii_digit ds = true
    /\ (Ascii.eqb d0 "0" = true -> ds = "")
    /\ N_of_digits (str_of_N n) = Some n.
Proof.
  destruct n as [|p].
  - exists "0"%char, "". repeat split; reflexivity.
  - unfold str_of_N. cbn [N.to_uint].
    pose proof (DecimalPos.Unsigned.to_uint_nonnil p) as Hnil.
    pose proof (DecimalPos.Unsigned.to_uint_nonzero p) as Hzero.
    pose proof (to_uint_normal p) as Hnorm.
    pose proof (string_of_uint_digits (Pos.to_uint p)) as Hdig.
    pose proof (NilEmpty.usu (Pos.to_uint p)) as Husu.
    pose proof (DecimalPos.Unsigned.of_to p) as Hval.
    assert (Hs : NilZero.string_of_uint (Pos.to_uint p)
                 = NilEmpty.string_of_uint (Pos.to_uint p)).
    { unfold NilZero.string_of_uint. destruct (Pos.to_uint p); congruence. }
    rewrite Hs.
    assert (Hv : N_of_digits (NilEmpty.string_of_uint (Pos.to_uint p)) = Some (Npos p)).
    { unfold N_of_digits. rewrite Husu. unfold N.of_uint. rewrite Hval.
      destruct (Pos.to_uint p); [congruence|reflexivity..]. }
    destruct (Pos.to_uint p) as [|d|d|d|d|d|d|d|d|d|d] eqn:E;
      [congruence| |
       eexists; eexists; cbn [NilEmpty.string_of_uint];
       (split; [reflexivity|]); (split; [reflexivity|]);
       (split; [exact Hdig|]); (split; [discriminate|exact Hv]) ..].
    exfalso. apply Hzero. apply unorm_D0_inv in Hnorm. now subst d.
Qed.

Lemma string_forall_impl (p q : ascii -> bool) (s : string) :
  (forall c, p c = true -> q c = true) ->
  string_forall p s = true -> string_forall q s = true.
Proof.
  intros H. induction s as [|c s IH]; cbn; [reflexivity|].
  intros E. apply andb_true_iff in E as [E1 E2].
  now rewrite (H _ E1), (IH E2).
Qed.

Lemma string_forall_app (p : ascii -> bool) (a b : string) :
  string_forall p (a ++ b) = string_forall p a && string_forall p b.
Proof.
  induction a as [|c a IH]; cbn; [reflexivity|].
  now rewrite IH, andb_assoc.
Qed.

Lemma string_rev_onto_app (s acc : string) :
  string_rev_onto s acc = string_rev s ++ acc.
Proof.
  unfold string_rev. revert acc.
  induction s as [|c s IH]; intros acc; cbn; [reflexivity|].
  rewrite IH, (IH (String c "")), append_assoc. reflexivity.
Qed.

Lemma string_rev_cons (c : ascii) (s : string) :
  string_rev (String c s) = string_rev s ++ String c "".
Proof.
  unfold string_rev at 1. cbn. apply string_rev_onto_app.
Qed.

Lemma string_rev_app (a b : string) :
  string_rev (a ++ b) = string_rev b ++ string_rev a.
Proof.
  induction a as [|c a IH]; cbn [append].
  - change (string_rev "") with "". now rewrite append_nil_r.
  - now rewrite !string_rev_cons, IH, append_assoc.
Qed.

Lemma string_rev_involutive (s : string) : string_rev (string_rev s) = s.
Proof.
  induction s as [|c s IH]; [reflexivity|].
  now rewrite string_rev_cons, string_rev_app, IH.
Qed.

Lemma string_forall_rev (p : ascii -> bool) (s : string) :
  string_forall p (string_rev s) = string_forall p s.
Proof.
  induction s as [|c s IH]; [reflexivity|].
  rewrite string_rev_cons, string_forall_app, IH. cbn [string_forall].
  now rewrite andb_true_r, andb_comm.
Qed.

Lemma lstrip_no_space (s : string) :
  string_forall (fun c => negb (is_space c)) s = true -> lstrip s = s.
Proof.
  destruct s as [|c s]; cbn; [reflexivity|].
  intros E. apply andb_true_iff in E as [E _].
  apply negb_true_iff in E. now rewrite E.
Qed.

Lemma strip_no_space (s : string) :
  string_forall (fun c => negb (is_space c)) s = true -> strip s = s.
Proof.
  intros E. unfold strip. rewrite (lstrip_no_space s E).
  rewrite lstrip_no_space; [apply string_rev_involutive|].
  now rewrite string_forall_rev.
Qed.

Lemma drop_underscores_none (prev : ascii) (s : string) :
  Ascii.eqb prev "_" = false ->
  string_forall (fun c => negb (Ascii.eqb c "_")) s = true ->
  drop_underscores prev s = Some s.
Proof.
  revert prev. induction s as [|c s IH]; intros prev P E; cbn.
  - now rewrite P.
  - cbn in E. apply andb_true_iff in E as [E1 E2].
    apply negb_true_iff in E1. rewrite E1, P. cbn.
    now rewrite (IH c E1 E2).
Qed.

Lemma digit_plain (c : ascii) :
  is_ascii_digit c = true ->
  negb (is_space c) = true
  /\ negb (Ascii.eqb c "_") = true
  /\ split_sign (String c "") = (false, String c "").
Proof.
  destruct c as [[] [] [] [] [] [] [] []]; try discriminate; now intros _.
Qed.

Lemma split_sign_digit (c : ascii) (s : string) :
  is_ascii_digit c = true -> split_sign (String c s) = (false, String c s).
Proof.
  destruct c as [[] [] [] [] [] [] [] []]; try discriminate; now intros _.
Qed.

(** *** The number of digits of a numeral *)

Lemma of_lu_lower (d : Decimal.uint) :
  DecimalFacts.nztail d = d -> d <> Decimal.Nil ->
  (10 ^ N.of_nat (Decimal.nb_digits d - 1) <= DecimalPos.Unsigned.of_lu d)%N.
Proof.
  induction d as [|d IH|d IH|d IH|d IH|d IH|d IH|d IH|d IH|d IH|d IH];
    intros Hn Hd; [congruence|..];
    cbn [DecimalFacts.nztail] in Hn;
    cbn [Decimal.nb_digits DecimalPos.Unsigned.of_lu];
    rewrite Nat.sub_succ, Nat.sub_0_r.
  1: { assert (Hn' : DecimalFacts.nztail d = d /\ d <> Decimal.Nil).
       { clear IH. destruct (DecimalFacts.nztail d) eqn:E; [discriminate|..];
           injection Hn as Hn; (split; [congruence|intros ->; discriminate]). }
       destruct Hn' as [Hn' Hd'].
       specialize (IH Hn' Hd').
       destruct (Decimal.nb_digits d) as [|k] eqn:K;
         [now apply DecimalFacts.nb_digits_0 in K|].
       rewrite Nat2N.inj_succ, N.pow_succ_r' by lia.
       cbn [Nat.sub] in IH. rewrite Nat.sub_0_r in IH.
       apply N.mul_le_mono_l. exact IH. }
  all: injection Hn as Hn;
    destruct (Decimal.nb_digits d) as [|k] eqn:K;
    [change (N.of_nat 0) with 0%N; rewrite N.pow_0_r; lia|];
    (assert (Hd' : d <> Decimal.Nil) by (intros ->; discriminate));
    specialize (IH Hn Hd');
    rewrite Nat2N.inj_succ, N.pow_succ_r' by lia;
    cbn [Nat.sub] in IH; rewrite Nat.sub_0_r in IH;
    (etransitivity; [apply N.mul_le_mono_l; exact IH|]);
    apply N.le_add_l.
Qed.

Lemma string_of_uint_length (d : Decimal.uint) :
  String.length (NilEmpty.string_of_uint d) = Decimal.nb_digits d.
Proof. induction d; cbn; congruence. Qed.

Lemma little_uint_normal (p : positive) :
  DecimalFacts.nztail (Pos.to_little_uint p) = Pos.to_little_uint p
  /\ DecimalPos.Unsigned.of_lu (Pos.to_little_uint p) = Npos p.
Proof.
  assert (V : DecimalPos.Unsigned.of_lu (Pos.to_little_uint p) = Npos p).
  { pose proof (DecimalPos.Unsigned.of_to p) as H.
    rewrite DecimalPos.Unsigned.of_uint_alt in H. unfold Pos.to_uint in H.
    now rewrite DecimalFacts.rev_rev in H. }
  split; [|exact V].
  pose proof (DecimalPos.Unsigned.to_of_lu (Pos.to_little_uint p)) as H.
  rewrite V in H. cbn [DecimalPos.Unsigned.to_lu] in H.
  unfold DecimalFacts.lnorm in H.
  destruct (DecimalFacts.nztail (Pos.to_little_uint p)) eqn:E; try congruence.
  apply DecimalPos.Unsigned.of_lu_0 in E. rewrite V in E. discriminate.
Qed.

(** A natural number below [10 ^ k] is written with at most [k] digits. *)
Lemma str_of_N_length (n : N) (k : nat) :
  (1 <= k)%nat -> (n < 10 ^ N.of_nat k)%N ->
  (String.length (str_of_N n) <= k)%nat.
Proof.
  intros Hk Hn. destruct n as [|p]; [exact Hk|].
  unfold str_of_N. cbn [N.to_uint].
  pose proof (DecimalPos.Unsigned.to_uint_nonnil p) as Hnil.
  assert (Hs : NilZero.string_of_uint (Pos.to_uint p)
               = NilEmpty.string_of_uint (Pos.to_uint p)).
  { unfold NilZero.string_of_uint. destruct (Pos.to_uint p); congruence. }
  rewrite Hs, string_of_uint_length. unfold Pos.to_uint.
  rewrite DecimalFacts.nb_digits_rev.
  destruct (little_uint_normal p) as [Hnz Hv].
  assert (Hd : Pos.to_little_uint p <> Decimal.Nil).
  { intros E. rewrite E in Hv. discriminate. }
  pose proof (of_lu_lower _ Hnz Hd) as L. rewrite Hv in L.
  destruct (Nat.le_gt_cases (Decimal.nb_digits (Pos.to_little_uint p)) k)
    as [|G]; [assumption|exfalso].
  assert (10 ^ N.of_nat k
          <= 10 ^ N.of_nat (Decimal.nb_digits (Pos.to_little_uint p) - 1))%N.
  { apply N.pow_le_mono_r; lia. }
  lia.
Qed.

Lemma numeral_within_limit (n : N) :
  Z.of_N n < 10 ^ max_str_digits ->
  Z.of_nat (String.length (str_of_N n)) <= max_str_digits.
Proof.
  intros H.
  assert (K : (String.length (str_of_N n) <= Z.to_nat max_str_digits)%nat).
  { apply str_of_N_length.
    - apply Nat2Z.inj_le. rewrite Z2Nat.id by (unfold max_str_digits; lia).
      unfold max_str_digits. lia.
    - apply N2Z.inj_lt. rewrite N2Z.inj_pow.
      rewrite nat_N_Z, Z2Nat.id by (unfold max_str_digits; lia).
      exact H. }
  apply Nat2Z.inj_le in K.
  now rewrite Z2Nat.id in K by (unfold max_str_digits; lia).
Qed.

Lemma of_lu_upper (d : Decimal.uint) :
  (DecimalPos.Unsigned.of_lu d < 10 ^ N.of_nat (Decimal.nb_digits d))%N.
Proof.
  induction d as [|d IH|d IH|d IH|d IH|d IH|d IH|d IH|d IH|d IH|d IH];
    [cbn; lia|..];
    cbn [Decimal.nb_digits DecimalPos.Unsigned.of_lu];
    rewrite Nat2N.inj_succ, N.pow_succ_r' ;
    set (x := (10 ^ N.of_nat (Decimal.nb_digits d))%N) in *; lia.
Qed.

Lemma N_of_digits_upper (s : string) (n : N) :
  N_of_digits s = Some n -> (n < 10 ^ N.of_nat (String.length s))%N.
Proof.
  unfold N_of_digits. destruct s as [|c s]; [discriminate|].
  destruct (NilEmpty.uint_of_string (String c s)) as [u|] eqn:E; [|discriminate].
  intros [= <-]. apply NilEmpty.sus in E. rewrite <- E.
  rewrite string_of_uint_length. unfold N.of_uint.
  rewrite DecimalPos.Unsigned.of_uint_alt, <- DecimalFacts.nb_digits_rev.
  apply of_lu_upper.
Qed.

(** What [int] reads has at most [max_str_digits] digits. *)
Lemma py_int_bound (s : string) (z : Z) :
  py_int s = Some z -> Z.abs z < 10 ^ max_str_digits.
Proof.
  unfold py_int.
  destruct (drop_underscores Ascii.zero (strip s)) as [t|]; [|discriminate].
  destruct (split_sign t) as [neg d].
  destruct (max_str_digits <? Z.of_nat (String.length d)) eqn:L; [discriminate|].
  destruct (N_of_digits d) as [n|] eqn:E; [|discriminate].
  intros [= <-]. apply Z.ltb_ge in L. apply N_of_digits_upper in E.
  assert (A : Z.abs (if neg then - Z.of_N n else Z.of_N n) = Z.of_N n).
  { destruct neg; lia. }
  rewrite A. apply N2Z.inj_lt in E. rewrite N2Z.inj_pow, nat_N_Z in E.
  change (Z.of_N 10) with 10 in E.
  eapply Z.lt_le_trans; [exact E|].
  apply Z.pow_le_mono_r; lia.
Qed.

(** [int] reads a signed run of digits as its value. *)
Lemma py_int_digits (neg : bool) (d0 : ascii) (ds : string) (n : N) :
  is_ascii_digit d0 = true ->
  string_forall is_ascii_digit ds = true ->
  N_of_digits (String d0 ds) = Some n ->
  Z.of_nat (String.length (String d0 ds)) <= max_str_digits ->
  py_int ((if neg then "-" else "") ++ String d0 ds)
  = Some (if neg then - Z.of_N n else Z.of_N n).
Proof.
  intros H0 Hs Hn Hlen.
  apply Z.ltb_ge in Hlen.
  assert (Hall : string_forall is_ascii_digit (String d0 ds) = true).
  { cbn. now rewrite H0, Hs. }
  assert (Hsp : string_forall (fun c => negb (is_space c))
                  ((if neg then "-" else "") ++ String d0 ds) = true).
  { rewrite string_forall_app.
    rewrite (string_forall_impl _ _ _ (fun c H => proj1 (digit_plain c H)) Hall).
    now destruct neg. }
  assert (Hus : string_forall (fun c => negb (Ascii.eqb c "_"))
                  ((if neg then "-" else "") ++ String d0 ds) = true).
  { rewrite string_forall_app.
    rewrite (string_forall_impl _ _ _
               (fun c H => proj1 (proj2 (digit_plain c H))) Hall).
    now destruct neg. }
  unfold py_int. rewrite (strip_no_space _ Hsp).
  rewrite (drop_underscores_none Ascii.zero _ eq_refl Hus).
  destruct neg; cbn [append].
  - cbn [split_sign]. now rewrite Hlen, Hn.
  - rewrite (split_sign_digit _ _ H0). now rewrite Hlen, Hn.
Qed.

(** [int] reads the numeral of an integer of at most [max_str_digits]
    digits as that integer. *)
Lemma py_int_numeral (z : Z) :
  Z.abs z < 10 ^ max_str_digits -> py_int (str_of_Z z) = Some z.
Proof.
  intros B. destruct z as [|p|p]; unfold str_of_Z.
  - reflexivity.
  - pose proof (numeral_within_limit (Z.to_N (Zpos p)) B) as L.
    destruct (str_of_N_shape (Z.to_N (Zpos p))) as [d0 [ds [E [H0 [Hs [_ Hn]]]]]].
    rewrite E in *. exact (py_int_digits false d0 ds _ H0 Hs Hn L).
  - pose proof (numeral_within_limit (Npos p) B) as L.
    destruct (str_of_N_shape (Npos p)) as [d0 [ds [E [H0 [Hs [_ Hn]]]]]].
    rewrite E in *. exact (py_int_digits true d0 ds _ H0 Hs Hn L).
Qed.

(** *** A token followed by a delimiter *)

Lemma delimiter_cases (c : ascii) :
  is_delimiter c = true -> c = ","%char \/ c = "}"%char.
Proof.
  unfold is_delimiter. intros H. apply orb_true_iff in H as [H|H];
    apply Ascii.eqb_eq in H; auto.
Qed.

Lemma span_digits_app (s : string) (c : ascii) (rest : string) :
  is_ascii_digit c = false ->
  span_digits (s ++ String c rest)
  = (fst (span_digits s), snd (span_digits s) ++ String c rest).
Proof.
  intros H. induction s as [|a s IH]; cbn.
  - now rewrite H.
  - destruct (is_ascii_digit a); [|reflexivity].
    rewrite IH. now destruct (span_digits s).
Qed.

Lemma span_int_app (s : string) (c : ascii) (rest : string) :
  is_ascii_digit c = false ->
  s <> "" ->
  span_int (s ++ String c rest)
  = (fst (span_int s), snd (span_int s) ++ String c rest).
Proof.
  intros H Hs. destruct s as [|a s]; [congruence|].
  unfold span_int. cbn [append].
  destruct (Ascii.eqb a "0"); [reflexivity|].
  exact (span_digits_app (String a s) c rest H).
Qed.

Lemma span_frac_app (s : string) (c : ascii) (rest : string) :
  is_delimiter c = true ->
  span_frac (s ++ String c rest)
  = (fst (span_frac s), snd (span_frac s) ++ String c rest).
Proof.
  intros H. apply delimiter_cases in H.
  assert (Hd : is_ascii_digit c = false) by (destruct H; now subst).
  assert (Hp : Ascii.eqb c "." = false) by (destruct H; now subst).
  destruct s as [|a s]; cbn [append span_frac].
  - now rewrite Hp.
  - destruct (Ascii.eqb a "."); [|reflexivity].
    rewrite (span_digits_app s c rest Hd).
    destruct (span_digits s) as [[|d0 d] r]; reflexivity.
Qed.

Lemma span_sign_app (s : string) (c : ascii) (rest : string) :
  is_delimiter c = true ->
  span_sign (s ++ String c rest)
  = (fst (span_sign s), snd (span_sign s) ++ String c rest).
Proof.
  intros H. apply delimiter_cases in H.
  assert (Hp : Ascii.eqb c "-" || Ascii.eqb c "+" = false)
    by (destruct H; now subst).
  destruct s as [|a s]; cbn [append span_sign].
  - now rewrite Hp.
  - now destruct (Ascii.eqb a "-" || Ascii.eqb a "+").
Qed.

Lemma span_exp_app (s : string) (c : ascii) (rest : string) :
  is_delimiter c = true ->
  span_exp (s ++ String c rest)
  = (fst (span_exp s), snd (span_exp s) ++ String c rest).
Proof.
  intros H. pose proof (delimiter_cases c H) as H'.
  assert (Hd : is_ascii_digit c = false) by (destruct H'; now subst).
  assert (He : Ascii.eqb c "e" || Ascii.eqb c "E" = false)
    by (destruct H'; now subst).
  destruct s as [|a s]; cbn [append span_exp].
  - now rewrite He.
  - destruct (Ascii.eqb a "e" || Ascii.eqb a "E"); [|reflexivity].
    rewrite (span_sign_app s c rest H).
    destruct (span_sign s) as [sg u]. cbn [fst snd].
    rewrite (span_digits_app u c rest Hd).
    destruct (span_digits u) as [[|d0 d] r]; reflexivity.
Qed.

Lemma span_minus_app (s : string) (c : ascii) (rest : string) :
  is_delimiter c = true ->
  span_minus (s ++ String c rest)
  = (fst (span_minus s), snd (span_minus s) ++ String c rest).
Proof.
  intros H. apply delimiter_cases in H.
  assert (Hp : Ascii.eqb c "-" = false) by (destruct H; now subst).
  destruct s as [|a s]; cbn [append span_minus].
  - now rewrite Hp.
  - now destruct (Ascii.eqb a "-").
Qed.

Lemma span_int_nil (c : ascii) (rest : string) :
  is_delimiter c = true -> span_int (String c rest) = ("", String c rest).
Proof.
  intros H. apply delimiter_cases in H. destruct H; now subst.
Qed.

(** A number read from a text is read the same when a delimiter follows
    the text. *)
Lemma scan_number_app (s : string) (c : ascii) (rest : string)
  (v : res pyval) (r : string) :
  is_delimiter c = true ->
  scan_number s = Some (v, r) ->
  scan_number (s ++ String c rest) = Some (v, r ++ String c rest).
Proof.
  intros H. pose proof (delimiter_cases c H) as H'.
  assert (Hd : is_ascii_digit c = false) by (destruct H'; now subst).
  unfold scan_number. rewrite (span_minus_app s c rest H).
  destruct (span_minus s) as [sg s0]. cbn [fst snd].
  destruct s0 as [|a0 s0].
  - cbn [append]. rewrite (span_int_nil c rest H). discriminate.
  - rewrite (span_int_app (String a0 s0) c rest Hd) by discriminate.
    destruct (span_int (String a0 s0)) as [[|i0 ip] r1]; [discriminate|].
    cbn [fst snd]. rewrite (span_frac_app r1 c rest H).
    destruct (span_frac r1) as [fp r2]. cbn [fst snd].
    rewrite (span_exp_app r2 c rest H).
    destruct (span_exp r2) as [xp r3]. cbn [fst snd].
    destruct fp, xp;
      [destruct (py_int (sg ++ String i0 ip))
      |destruct (float_of_str _)..];
      now intros [= <- <-].
Qed.

Lemma strip_prefix_app_some (p s r x : string) :
  strip_prefix p s = Some r -> strip_prefix p (s ++ x) = Some (r ++ x).
Proof.
  revert s. induction p as [|a p IH]; intros s; cbn.
  - now intros [= ->].
  - destruct s as [|b s]; [discriminate|]. cbn.
    destruct (Ascii.eqb a b); [apply IH|discriminate].
Qed.

Lemma strip_prefix_app_none (p s : string) (c : ascii) (rest : string) :
  string_forall (fun a => negb (Ascii.eqb a c)) p = true ->
  strip_prefix p s = None ->
  strip_prefix p (s ++ String c rest) = None.
Proof.
  revert s. induction p as [|a p IH]; intros s F; cbn; [discriminate|].
  cbn in F. apply andb_true_iff in F as [F1 F2]. apply negb_true_iff in F1.
  destruct s as [|b s]; cbn.
  - now rewrite F1.
  - destruct (Ascii.eqb a b); [now apply IH|reflexivity].
Qed.

(** A constant or number read from a text is read the same when a
    delimiter follows the text. *)
Lemma scan_constant_app (s : string) (c : ascii) (rest : string)
  (v : res pyval) (r : string) :
  is_delimiter c = true ->
  scan_constant s = Some (v, r) ->
  scan_constant (s ++ String c rest) = Some (v, r ++ String c rest).
Proof.
  intros H. pose proof (delimiter_cases c H) as H'.
  unfold scan_constant.
  repeat match goal with
  | |- match strip_prefix ?p s with _ => _ end = _ -> _ =>
      let E := fresh "E" in
      destruct (strip_prefix p s) as [r'|] eqn:E;
      [rewrite (strip_prefix_app_some p s r' _ E); now intros [= <- <-]
      |rewrite (strip_prefix_app_none p s c rest) by
         (try assumption; destruct H'; now subst)]
  end.
  apply (scan_number_app s c rest v r H).
Qed.

Lemma skip_ws_app (a b : string) :
  skip_ws a <> "" -> skip_ws (a ++ b) = skip_ws a ++ b.
Proof.
  induction a as [|c a IH]; cbn; [congruence|].
  destruct (is_json_space c); [exact IH|reflexivity].
Qed.

Lemma skip_ws_app_blank (a b : string) :
  skip_ws a = "" -> skip_ws (a ++ b) = skip_ws b.
Proof.
  induction a as [|c a IH]; cbn; [reflexivity|].
  destruct (is_json_space c); [exact IH|discriminate].
Qed.

Lemma skip_ws_delimiter (c : ascii) (rest : string) :
  is_delimiter c = true -> skip_ws (String c rest) = String c rest.
Proof.
  intros H. apply delimiter_cases in H. destruct H; now subst.
Qed.

Lemma scan_members_value (fuel : nat) (value : string -> parse pyval)
  (acc : dict pyval) (s : string) (v : pyval) (r : string) :
  scan_members fuel value acc s = Parsed v r -> exists d, v = PDict d.
Proof.
  revert acc s. induction fuel as [|fuel IH]; intros acc s; cbn; [discriminate|].
  destruct s as [|q t]; [discriminate|].
  destruct (Ascii.eqb q dquote); [|discriminate].
  destruct (scan_string _ t) as [k r0| |]; try discriminate.
  destruct (scan_member_value value r0) as [v0 r2| |]; try discriminate.
  destruct (skip_ws r2) as [|c r']; [discriminate|].
  destruct (Ascii.eqb c "}"); [intros [= <- _]; eauto|].
  destruct (Ascii.eqb c ","); [apply IH|discriminate].
Qed.

Lemma scan_items_value (fuel : nat) (value : string -> parse pyval)
  (acc : list pyval) (s : string) (v : pyval) (r : string) :
  scan_items fuel value acc s = Parsed v r -> exists l, v = PList l.
Proof.
  revert acc s. induction fuel as [|fuel IH]; intros acc s; cbn; [discriminate|].
  destruct (value s) as [v0 r0| |]; try discriminate.
  destruct (skip_ws r0) as [|c r']; [discriminate|].
  destruct (Ascii.eqb c "]"); [intros [= <- _]; eauto|].
  destruct (Ascii.eqb c ","); [apply IH|discriminate].
Qed.

(** A float comes from the constants and numbers only. *)
Lemma scan_once_float (n : nat) (s : string) (f : float) (r : string) :
  scan_once (S n) s = Parsed (PFloat f) r ->
  starts_with dquote s = false
  /\ starts_with "{" s = false
  /\ starts_with "[" s = false
  /\ scan_constant s = Some (Ok (PFloat f), r).
Proof.
  cbn [scan_once].
  destruct (starts_with dquote s).
  { destruct (scan_string _ _); cbn; discriminate. }
  destruct (starts_with "{" s).
  { cbv zeta. destruct (starts_with "}" _); [discriminate|].
    intros H. apply scan_members_value in H as [d H]. discriminate. }
  destruct (starts_with "[" s).
  { cbv zeta. destruct (starts_with "]" _); [discriminate|].
    intros H. apply scan_items_value in H as [d H]. discriminate. }
  destruct (scan_constant s) as [[[v|e] r']|]; try discriminate.
  now intros [= -> ->].
Qed.

Lemma starts_with_app (c : ascii) (s x : string) :
  s <> "" -> starts_with c (s ++ x) = starts_with c s.
Proof. destruct s; [congruence|reflexivity]. Qed.

(** A float that reads back from its own JSON text reads back from that
    text followed by a delimiter. *)
Lemma scan_float_value (n : nat) (f : float) (c : ascii) (rest : string) :
  json_loads (json_dumps (PFloat f)) = Ok (PFloat f) ->
  is_delimiter c = true ->
  exists r,
    scan_once (S n) (skip_ws (json_dumps (PFloat f) ++ String c rest))
    = Parsed (PFloat f) r
    /\ skip_ws r = String c rest.
Proof.
  intros H D. unfold json_loads in H. cbn [json_dumps] in *.
  set (doc := json_float f) in *.
  destruct (scan_once (S (String.length doc)) (skip_ws doc)) as [v r| |] eqn:E;
    [|discriminate..].
  destruct (skip_ws r) eqn:Er; [|discriminate].
  injection H as ->.
  apply scan_once_float in E as [Hq [Ho [Ha Hc]]].
  assert (Hne : skip_ws doc <> "").
  { intros Z. rewrite Z in Hc. discriminate. }
  exists (r ++ String c rest). split.
  - rewrite (skip_ws_app _ _ Hne). cbn [scan_once].
    rewrite !(starts_with_app _ _ _ Hne), Hq, Ho, Ha.
    now rewrite (scan_constant_app _ c rest _ _ D Hc).
  - rewrite (skip_ws_app_blank _ _ Er). now apply skip_ws_delimiter.
Qed.

Lemma span_digits_all (s : string) :
  string_forall is_ascii_digit s = true -> span_digits s = (s, "").
Proof.
  induction s as [|a s IH]; cbn; [reflexivity|].
  intros E. apply andb_true_iff in E as [E1 E2].
  now rewrite E1, (IH E2).
Qed.

Lemma strip_prefix_head_ne (p0 : ascii) (p : string) (a : ascii) (s : string) :
  Ascii.eqb p0 a = false -> strip_prefix (String p0 p) (String a s) = None.
Proof. intros H. cbn. now rewrite H. Qed.

Lemma strip_prefix_cons_eq (a : ascii) (p s : string) :
  strip_prefix (String a p) (String a s) = strip_prefix p s.
Proof. cbn. now rewrite Ascii.eqb_refl. Qed.

Lemma digit_head (a : ascii) :
  is_ascii_digit a = true ->
  is_json_space a = false
  /\ Ascii.eqb a dquote = false
  /\ Ascii.eqb a "{" = false
  /\ Ascii.eqb a "[" = false
  /\ Ascii.eqb a "-" = false
  /\ Ascii.eqb "n" a = false
  /\ Ascii.eqb "t" a = false
  /\ Ascii.eqb "f" a = false
  /\ Ascii.eqb "N" a = false
  /\ Ascii.eqb "I" a = false
  /\ Ascii.eqb "-" a = false.
Proof.
  destruct a as [[] [] [] [] [] [] [] []]; try discriminate;
    intros _; repeat split.
Qed.

(** The numeral of an integer of at most [max_str_digits] digits is read as
    that integer. *)
Lemma scan_constant_numeral (z : Z) :
  Z.abs z < 10 ^ max_str_digits ->
  scan_constant (str_of_Z z) = Some (Ok (PInt z), "").
Proof.
  intros B.
  assert (G : forall neg d0 ds n,
             is_ascii_digit d0 = true ->
             string_forall is_ascii_digit ds = true ->
             (Ascii.eqb d0 "0" = true -> ds = "") ->
             N_of_digits (String d0 ds) = Some n ->
             Z.of_nat (String.length (String d0 ds)) <= max_str_digits ->
             scan_constant ((if neg : bool then "-" else "") ++ String d0 ds)
             = Some (Ok (PInt (if neg then - Z.of_N n else Z.of_N n)), "")).
  { intros neg d0 ds n H0 Hs Hz Hn Hlen.
    destruct (digit_head d0 H0)
      as [_ [_ [_ [_ [Hm [Hn' [Ht [Hf [HN [HI Hm']]]]]]]]]].
    pose proof (py_int_digits neg d0 ds n H0 Hs Hn Hlen) as Hp.
    assert (Hi : span_int (String d0 ds) = (String d0 ds, "")).
    { unfold span_int. destruct (Ascii.eqb d0 "0") eqn:E0.
      - rewrite (Hz eq_refl). apply Ascii.eqb_eq in E0. now subst d0.
      - apply span_digits_all. cbn. now rewrite H0, Hs. }
    unfold scan_constant, scan_number.
    destruct neg; cbn [append] in *.
    - rewrite !(strip_prefix_head_ne _ _ "-") by reflexivity.
      rewrite strip_prefix_cons_eq, (strip_prefix_head_ne _ _ _ _ HI).
      unfold span_minus. rewrite Ascii.eqb_refl, Hi. cbn [span_frac span_exp append].
      now rewrite Hp.
    - rewrite !(strip_prefix_head_ne _ _ d0) by assumption.
      unfold span_minus. rewrite Hm, Hi. cbn [span_frac span_exp append].
      now rewrite Hp. }
  destruct z as [|p|p]; unfold str_of_Z.
  - reflexivity.
  - pose proof (numeral_within_limit (Z.to_N (Zpos p)) B) as L.
    destruct (str_of_N_shape (Z.to_N (Zpos p))) as [d0 [ds [E [H0 [Hs [Hz Hn]]]]]].
    rewrite E in *. exact (G false d0 ds _ H0 Hs Hz Hn L).
  - pose proof (numeral_within_limit (Npos p) B) as L.
    destruct (str_of_N_shape (Npos p)) as [d0 [ds [E [H0 [Hs [Hz Hn]]]]]].
    rewrite E in *. exact (G true d0 ds _ H0 Hs Hz Hn L).
Qed.

Lemma numeral_head (z : Z) :
  exists a t,
    str_of_Z z = String a t
    /\ is_json_space a = false
    /\ Ascii.eqb a dquote = false
    /\ Ascii.eqb a "{" = false
    /\ Ascii.eqb a "[" = false.
Proof.
  destruct z as [|p|p]; unfold str_of_Z.
  - exists "0"%char, "". repeat split.
  - destruct (str_of_N_shape (Z.to_N (Zpos p))) as [d0 [ds [E [H0 _]]]].
    exists d0, ds. split; [exact E|].
    destruct (digit_head d0 H0) as [? [? [? [? _]]]]. auto.
  - eexists. eexists. split; [reflexivity|]. repeat split.
Qed.

Lemma scan_int_value (n : nat) (z : Z) (c : ascii) (rest : string) :
  Z.abs z < 10 ^ max_str_digits ->
  is_delimiter c = true ->
  scan_once (S n) (skip_ws (json_dumps (PInt z) ++ String c rest))
  = Parsed (PInt z) (String c rest).
Proof.
  intros B D. cbn [json_dumps].
  pose proof (scan_constant_app _ c rest _ _ D (scan_constant_numeral z B)) as Hc.
  destruct (numeral_head z) as [a [t [E [Hs [Hq [Ho Ha]]]]]].
  rewrite E in *. cbn [append skip_ws] in *. rewrite Hs.
  cbn [scan_once starts_with]. rewrite Hq, Ho, Ha. now rewrite Hc.
Qed.

Lemma scan_str_value (n : nat) (s : string) (c : ascii) (rest : string) :
  scan_once (S n) (skip_ws (json_dumps (PStr s) ++ String c rest))
  = Parsed (PStr s) (String c rest).
Proof.
  cbn [json_dumps]. rewrite json_string_app.
  cbn [skip_ws is_json_space code N_of_ascii N_of_digits].
  change (is_json_space dquote) with false. cbv iota.
  cbn [scan_once starts_with tail].
  change (Ascii.eqb dquote dquote) with true. cbv iota.
  now rewrite scan_string_chars.
Qed.

(** A scalar is read back from its JSON text followed by a delimiter. *)
Lemma scan_scalar_value (n : nat) (v : pyval) (c : ascii) (rest : string) :
  is_scalar v = true ->
  (forall z, v = PInt z -> Z.abs z < 10 ^ max_str_digits) ->
  (forall f, v = PFloat f -> json_loads (json_dumps (PFloat f)) = Ok (PFloat f)) ->
  is_delimiter c = true ->
  exists r,
    scan_once (S n) (skip_ws (json_dumps v ++ String c rest)) = Parsed v r
    /\ skip_ws r = String c rest.
Proof.
  intros Sv B F D. destruct v; try discriminate.
  - exists (String c rest). split; [apply scan_int_value; auto|].
    now apply skip_ws_delimiter.
  - apply scan_float_value; auto.
  - exists (String c rest). split; [apply scan_str_value|].
    now apply skip_ws_delimiter.
Qed.

(** *** Objects *)

Lemma length_append (a b : string) :
  String.length (a ++ b) = (String.length a + String.length b)%nat.
Proof. induction a as [|c a IH]; cbn; [reflexivity|now rewrite IH]. Qed.

(** One member, followed by a delimiter: the member is stored, and the scan
    ends at a closing brace and goes on after a comma. *)
Lemma scan_member (fuel n : nat) (acc : dict pyval) (k : string) (v : pyval)
  (c : ascii) (rest : string) :
  is_scalar v = true ->
  (forall z, v = PInt z -> Z.abs z < 10 ^ max_str_digits) ->
  (forall f, v = PFloat f -> json_loads (json_dumps (PFloat f)) = Ok (PFloat f)) ->
  is_delimiter c = true ->
  scan_members (S fuel) (scan_once (S n)) acc
    (member_text (k, v) ++ String c rest)
  = if Ascii.eqb c "}" then Parsed (PDict (dict_set k v acc)) rest
    else scan_members fuel (scan_once (S n)) (dict_set k v acc) (skip_ws rest).
Proof.
  intros Sv B F D. unfold member_text. cbn [fst snd].
  rewrite append_assoc, json_string_app.
  cbn [scan_members]. rewrite Ascii.eqb_refl.
  rewrite scan_string_chars. unfold scan_member_value.
  rewrite append_assoc. cbn [append skip_ws].
  change (is_json_space ":") with false. cbv iota.
  rewrite Ascii.eqb_refl. cbn [skip_ws].
  change (is_json_space " ") with true. cbv iota.
  destruct (scan_scalar_value n v c rest Sv B F D) as [r [E Er]].
  rewrite E, Er.
  destruct (Ascii.eqb c "}") eqn:Ec; [reflexivity|].
  apply delimiter_cases in D. destruct D as [->| ->]; [reflexivity|discriminate].
Qed.

Lemma member_text_head (kv : string * pyval) (x : string) :
  exists t, member_text kv ++ x = String dquote t.
Proof.
  unfold member_text. rewrite append_assoc, json_string_app. eauto.
Qed.

Lemma join_members_head (kv : string * pyval) (record : dict pyval) (x : string) :
  exists t, join ", " (map member_text (kv :: record)) ++ x = String dquote t.
Proof.
  cbn [map join]. destruct (map member_text record).
  - apply member_text_head.
  - rewrite append_assoc. apply member_text_head.
Qed.

(** The members of a record of scalars, closed by a brace, are read back
    one by one. *)
Lemma scan_members_record (record : dict pyval) :
  forall (fuel n : nat) (acc : dict pyval) (rest : string),
    record <> [] ->
    (List.length record <= fuel)%nat ->
    (forall k v, In (k, v) record -> is_scalar v = true) ->
    (forall k z, In (k, PInt z) record -> Z.abs z < 10 ^ max_str_digits) ->
    (forall k f, In (k, PFloat f) record ->
                 json_loads (json_dumps (PFloat f)) = Ok (PFloat f)) ->
    scan_members fuel (scan_once (S n)) acc
      (join ", " (map member_text record) ++ String "}" rest)
    = Parsed (PDict (fold_left store_member record acc)) rest.
Proof.
  induction record as [|[k v] record IH];
    intros fuel n acc rest Hne Hf Hs Hb Hfl; [congruence|].
  destruct fuel as [|fuel]; [cbn in Hf; lia|].
  assert (Sv : is_scalar v = true) by (apply (Hs k); now left).
  assert (Bv : forall z, v = PInt z -> Z.abs z < 10 ^ max_str_digits).
  { intros z ->. apply (Hb k). now left. }
  assert (Fv : forall f, v = PFloat f ->
                         json_loads (json_dumps (PFloat f)) = Ok (PFloat f)).
  { intros f ->. apply (Hfl k). now left. }
  destruct record as [|kv' record].
  - cbn [map join fold_left].
    rewrite (scan_member fuel n acc k v "}" rest Sv Bv Fv eq_refl).
    reflexivity.
  - change (join ", " (map member_text ((k, v) :: kv' :: record)))
      with (member_text (k, v) ++ ", " ++ join ", " (map member_text (kv' :: record))).
    rewrite !append_assoc. cbn [append].
    rewrite (scan_member fuel n acc k v "," _ Sv Bv Fv eq_refl).
    change (Ascii.eqb "," "}") with false. cbv iota.
    cbn [skip_ws]. change (is_json_space " ") with true. cbv iota.
    destruct (join_members_head kv' record (String "}" rest)) as [t Et].
    rewrite Et. cbn [skip_ws]. change (is_json_space dquote) with false. cbv iota.
    rewrite <- Et.
    rewrite (IH fuel n (dict_set k v acc) rest).
    + reflexivity.
    + discriminate.
    + cbn in Hf |- *. lia.
    + intros k0 v0 Hin. apply (Hs k0). now right.
    + intros k0 z Hin. apply (Hb k0). now right.
    + intros k0 f Hin. apply (Hfl k0). now right.
Qed.

Lemma fold_store_fresh (record acc : dict pyval) :
  NoDup (keys acc ++ keys record) ->
  fold_left store_member record acc = (acc ++ record)%list.
Proof.
  revert acc. induction record as [|[k v] record IH]; intros acc N; cbn.
  - now rewrite app_nil_r.
  - unfold store_member at 2. cbn [fst snd].
    assert (Hk : ~ In k (keys acc)).
    { cbn in N. apply NoDup_remove_2 in N.
      intros Hin. apply N. apply in_or_app. now left. }
    rewrite (dict_set_fresh _ _ _ Hk), IH.
    + now rewrite <- app_assoc.
    + unfold keys. rewrite map_app. cbn. rewrite <- app_assoc. exact N.
Qed.

Lemma members_length (record : dict pyval) :
  (List.length record <= String.length (join ", " (map member_text record)))%nat.
Proof.
  induction record as [|kv record IH]; [cbn; lia|].
  destruct (member_text_head kv "") as [t Et]. rewrite append_nil_r in Et.
  cbn [map join List.length]. destruct record as [|kv' record].
  - cbn [map]. rewrite Et. cbn. lia.
  - cbn [map] in *. rewrite !length_append, Et. cbn in *. lia.
Qed.

Lemma scan_once_object (n : nat) (t : string) :
  scan_once (S n) (String "{" t)
  = if starts_with "}" (skip_ws t) then Parsed (PDict []) (tail (skip_ws t))
    else scan_members (S (String.length (skip_ws t))) (scan_once n) []
           (skip_ws t).
Proof. reflexivity. Qed.

Lemma zero_or_infinity_special (f : float) :
  is_zero_or_infinity f = true -> is_finite_nonzero f = false.
Proof.
  unfold is_zero_or_infinity, is_finite_nonzero.
  now destruct (Prim2SF f).
Qed.

(** The zeros, the infinities and NaN read back from their JSON text. *)
Lemma special_float_reads_back (f : float) :
  is_finite_nonzero f = false ->
  json_loads (json_dumps (PFloat f)) = Ok (PFloat f).
Proof.
  unfold is_finite_nonzero. intros H.
  rewrite <- (SF2Prim_Prim2SF f) at 2.
  cbn [json_dumps]. unfold json_float, float_repr.
  destruct (Prim2SF f) as [[]|[]| |]; try discriminate; reflexivity.
Qed.

(** A flat record reads back as a whole as soon as each of its values does:
    its texts do, its ints of at most [max_str_digits] digits do, and its
    floats are asked to. *)
Lemma loads_dumps_flat (record : dict pyval) :
  NoDup (keys record) ->
  (forall k v, In (k, v) record -> is_scalar v = true) ->
  (forall k z, In (k, PInt z) record -> Z.abs z < 10 ^ max_str_digits) ->
  (forall k f, In (k, PFloat f) record ->
               json_loads (json_dumps (PFloat f)) = Ok (PFloat f)) ->
  json_loads (json_dumps (PDict record)) = Ok (PDict record).
Proof.
  intros N Hs Hb Hf.
  destruct record as [|kv record]; [reflexivity|].
  assert (E : json_dumps (PDict (kv :: record))
              = String "{" (join ", " (map member_text (kv :: record))
                            ++ String "}" "")).
  { reflexivity. }
  rewrite E. clear E.
  destruct (join_members_head kv record (String "}" "")) as [t Et].
  unfold json_loads. cbn [skip_ws String.length].
  change (is_json_space "{") with false. cbv iota.
  rewrite scan_once_object, Et. cbn [skip_ws].
  change (is_json_space dquote) with false. cbv iota.
  cbn [starts_with]. change (Ascii.eqb dquote "}") with false. cbv iota.
  rewrite <- Et.
  rewrite (scan_members_record (kv :: record)); try assumption.
  - rewrite (fold_store_fresh (kv :: record) [] N). reflexivity.
  - discriminate.
  - pose proof (members_length (kv :: record)) as L.
    rewrite length_append. cbn [String.length]. lia.
Qed.

(** ** The scenarios of the specification *)

Example scenario_not_found :
  invoke_handler (client_replying (Ok None)) (event_direct (PStr "12345"))
  = (Ok (PDict [("statusCode", PInt 404);
                ("headers", PDict [("Content-Type", PStr "application/json");
                                   ("Access-Control-Allow-Origin", PStr "*")]);
                ("body",
                 PStr (error_text
                         "Employee with ID 12345 not found in the leave balance database"))]),
     [DescribeTable "leaveBalanceHRTable"; Scan "leaveBalanceHRTable" 5;
      GetItem "leaveBalanceHRTable" [("empID", [("N", "12345")])]]).
Proof. vm_compute. reflexivity. Qed.

Example scenario_invalid_format :
  invoke_handler (client_replying (Ok None)) (event_direct (PStr "12a"))
  = (Ok (PDict [("statusCode", PInt 400);
                ("headers", PDict [("Content-Type", PStr "application/json");
                                   ("Access-Control-Allow-Origin", PStr "*")]);
                ("body",
                 PStr (error_text
                         "Invalid employee ID format: 12a. Employee ID must be numeric."))]),
     []).
Proof. vm_compute. reflexivity. Qed.

Example scenario_throttled :
  invoke_handler
    (client_replying (Raise (Exn ProvisionedThroughputExceededException "slow down")))
    (event_direct (PStr "12345"))
  = (Ok (PDict [("statusCode", PInt 429);
                ("headers", PDict [("Content-Type", PStr "application/json");
                                   ("Access-Control-Allow-Origin", PStr "*")]);
                ("body",
                 PStr (error_text
                         "Database is currently experiencing high traffic. Please try again later."))]),
     calls_of_lookup "12345").
Proof. vm_compute. reflexivity. Qed.

Example scenario_success :
  decode ana_item = Ok ana_record
  /\ invoke_handler (client_replying (Ok (Some ana_item)))
       (event_direct (PStr "12345"))
     = (Ok (PDict [("statusCode", PInt 200);
                   ("headers", PDict [("Content-Type", PStr "application/json");
                                      ("Access-Control-Allow-Origin", PStr "*")]);
                   ("body",
                    PStr ("{" ++ quoted "empID" ++ ": 12345, " ++ quoted "balance"
                          ++ ": 15, " ++ quoted "name" ++ ": " ++ quoted "Ana"
                          ++ "}"))]),
        calls_of_lookup "12345").
Proof. split; vm_compute; reflexivity. Qed.

(** An identifier given as a number, in the body of an agent's call: the
    number is made a text, and the answer is the agent action envelope. *)
Example scenario_agent_body :
  resolve [("body", PStr ("{" ++ quoted "empID" ++ ": 77}"))] = Ok "77"
  /\ status_of
       (format_response event_from_agent (error_body "none") 403)
     = Some 403
  /\ is_agent_envelope
       (format_response event_from_agent (error_body "none") 403)
     = true.
Proof. repeat split; vm_compute; reflexivity. Qed.

(** * The theorems at work

    Each theorem above that has a premise is applied here to a concrete
    invocation. *)

(** The identifier 12345, absent from the store. *)
Lemma lookup_outcomes_witness :
  resolve (event_direct (PStr "12345")) = Ok "12345"
  /\ isdigit "12345" = true
  /\ exists response,
       invoke_handler (client_replying (Ok None)) (event_direct (PStr "12345"))
       = (Ok response, calls_of_lookup "12345")
       /\ status_of response = Some 404
       /\ payload_of response
          = Some (error_text "Employee with ID 12345 not found in the leave balance database").
Proof.
  split; [reflexivity|]. split; [reflexivity|].
  destruct (lookup_outcomes (client_replying (Ok None))
              (event_direct (PStr "12345")) "12345" eq_refl eq_refl)
    as [response [E [Hnone _]]].
  exists response. split; [exact E|]. exact (Hnone eq_refl).
Defined.

(** The record of the success scenario. *)
Lemma decode_field_by_field_witness :
  NoDup (keys ana_item)
  /\ exists readable,
       decode ana_item = Ok readable
       /\ keys readable = ["empID"; "balance"; "name"]
       /\ dict_get "empID" readable = Some (PInt 12345)
       /\ dict_get "balance" readable = Some (PInt 15)
       /\ dict_get "name" readable = Some (PStr "Ana").
Proof.
  assert (N : NoDup (keys ana_item)).
  { cbn. repeat constructor; cbn; intros H;
      repeat (destruct H as [H|H]; [discriminate H|]); exact H. }
  assert (T : forall k tv, In (k, tv) ana_item -> tv <> []).
  { intros k tv H. cbn in H.
    repeat (destruct H as [H|H]; [injection H as _ <-; discriminate|]).
    destruct H. }
  split; [exact N|].
  destruct (decode_field_by_field ana_item N T) as [[readable [D [K [G _]]]] _].
  exists readable. split; [exact D|]. split; [exact K|].
  split; [exact (G "empID" "N" "12345" [] eq_refl)|].
  split; [exact (G "balance" "N" "15" [] eq_refl)|].
  exact (G "name" "S" "Ana" [] eq_refl).
Defined.

(** The empty event. *)
Lemma missing_identifier_yields_500_witness :
  extract_raw [] = Ok PNone
  /\ exists response,
       invoke_handler (client_replying (Ok None)) [] = (Ok response, [])
       /\ status_of response = Some 500
       /\ payload_of response
          = Some (error_text "Internal server error: Employee ID not found in the request").
Proof.
  split; [reflexivity|].
  exact (proj2 (missing_identifier_yields_500 (client_replying (Ok None)) []
                  (or_introl eq_refl))).
Defined.

(** A request body without a property hides the body field. *)
Lemma resolution_order_witness :
  has_agent_shape event_empty_agent_and_body = Ok true
  /\ agent_value event_empty_agent_and_body = Ok PNone
  /\ extract_raw event_empty_agent_and_body = Ok PNone.
Proof.
  split; [reflexivity|]. split; [reflexivity|].
  exact (proj1 (resolution_order event_empty_agent_and_body) PNone
           eq_refl eq_refl).
Defined.

(** An agent's invocation by POST. *)
Lemma format_response_by_event_shape_witness :
  dict_has "agent" event_from_agent = true
  /\ dict_has "actionGroup" event_from_agent = true
  /\ at_path ["messageVersion"]
       (format_response event_from_agent (error_body "none") 404)
     = Some (PStr "1.0")
  /\ at_path ["response"; "httpMethod"]
       (format_response event_from_agent (error_body "none") 404)
     = Some (PStr "POST").
Proof.
  split; [reflexivity|]. split; [reflexivity|].
  destruct (proj1 (format_response_by_event_shape event_from_agent
                     (error_body "none") 404) (conj eq_refl eq_refl))
    as [_ [V [_ [_ [M _]]]]].
  split; [exact V|exact M].
Defined.

(** A field with two tags, and a found item with a field without a tag. *)
Lemma decode_reads_first_tag_witness :
  decode_value [("N", "15"); ("S", "fifteen")] = Ok (PInt 15)
  /\ exists response,
       invoke_handler (client_replying (Ok (Some item_without_tag)))
         (event_direct (PStr "1"))
       = (Ok response, calls_of_lookup "1")
       /\ status_of response = Some 500.
Proof.
  split.
  - rewrite (proj1 (proj1 decode_reads_first_tag "N" "15" [("S", "fifteen")])).
    reflexivity.
  - destruct (proj2 decode_reads_first_tag
                (client_replying (Ok (Some item_without_tag)))
                (event_direct (PStr "1")) "1" item_without_tag
                eq_refl eq_refl eq_refl
                (ex_intro _ "balance" (or_intror (or_introl eq_refl))))
      as [response [E [_ [S _]]]].
    exists response. split; [exact E|exact S].
Defined.

(** The probes answering and the probes raising, for the success scenario. *)
Lemma probes_never_affect_response_witness :
  invoke_handler (client_replying (Ok (Some ana_item)))
    (event_direct (PStr "12345"))
  = invoke_handler (client_without_probes (Ok (Some ana_item)))
      (event_direct (PStr "12345")).
Proof.
  exact (probes_never_affect_response (event_direct (PStr "12345"))
           (fun _ => Ok (PDict []))
           (fun _ => Raise (Exn AccessDeniedException "describe refused"))
           (fun _ _ => Ok (PDict []))
           (fun _ _ => Raise (Exn AccessDeniedException "scan refused"))
           (fun _ _ => Ok (Some ana_item))
           store_exceptions).
Defined.

(** * Further properties of the handler *)

(** ** Calls to the store *)

(** X1: an identifier that [isdigit] refuses (a letter, a sign, a separator
    or a space in it) is answered with status 400 and the message that names
    the identifier, and the store is not called. *)
Theorem invalid_identifier_answered_400 (client : Client) (event : dict pyval)
  (uid : string) :
  resolve event = Ok uid ->
  isdigit uid = false ->
  exists response,
    invoke_handler client event = (Ok response, [])
    /\ status_of response = Some 400
    /\ payload_of response
       = Some (json_dumps
                 (PDict [("error",
                          PStr ("Invalid employee ID format: " ++ uid
                                ++ ". Employee ID must be numeric."))])).
Proof.
  intros R D. eexists. rewrite invoke_handler_cases, R, D.
  split; [reflexivity|]. unfold invalid_format_response.
  now rewrite status_format_response, payload_format_response.
Qed.

Lemma invalid_identifier_answered_400_witness :
  resolve event_12a = Ok "12a"
  /\ isdigit "12a" = false
  /\ exists response,
       invoke_handler (client_replying (Ok None)) event_12a = (Ok response, [])
       /\ status_of response = Some 400
       /\ payload_of response
          = Some (error_text
                    "Invalid employee ID format: 12a. Employee ID must be numeric.").
Proof.
  split; [reflexivity|]. split; [reflexivity|].
  exact (invalid_identifier_answered_400 (client_replying (Ok None))
           event_12a "12a" eq_refl eq_refl).
Defined.

(** X2: in one invocation the handler calls the store not at all, or makes
    exactly the probe of the table, the scan of five items and one point
    read, in this order and on the table leaveBalanceHRTable; the key of the
    point read is the resolved identifier under the numeric tag, a text that
    is not empty and that [isdigit] accepts. *)
Theorem store_called_once_or_never (client : Client) (event : dict pyval) :
  snd (invoke_handler client event) = []
  \/ exists uid,
       resolve event = Ok uid
       /\ isdigit uid = true
       /\ uid <> ""
       /\ snd (invoke_handler client event)
          = [DescribeTable "leaveBalanceHRTable";
             Scan "leaveBalanceHRTable" 5;
             GetItem "leaveBalanceHRTable" [("empID", [("N", uid)])]].
Proof.
  rewrite invoke_handler_cases.
  destruct (resolve event) as [uid|e]; [|now left].
  destruct (isdigit uid) eqn:D; [|now left].
  right. exists uid. repeat split; try assumption.
  intros ->. discriminate.
Qed.

(** X13: whatever exception the extraction of the identifier raises (a
    malformed request body, a body that is no JSON, a body that is no object),
    the handler answers with the internal-error envelope of status 500 that
    carries the text of the exception, and the store is not called. *)
Theorem extraction_failure_never_reaches_store (client : Client)
  (event : dict pyval) (e : exn) :
  resolve event = Raise e ->
  exists response,
    invoke_handler client event = (Ok response, [])
    /\ status_of response = Some 500
    /\ payload_of response
       = Some (json_dumps
                 (PDict [("error", PStr ("Internal server error: " ++ exn_text e))])).
Proof.
  intros R. eexists. rewrite invoke_handler_cases, R.
  split; [reflexivity|]. unfold internal_error_response.
  now rewrite status_format_response, payload_format_response.
Qed.

Lemma extraction_failure_never_reaches_store_witness :
  resolve [("body", PStr "{")]
  = Raise (Exn JSONDecodeError
             "Expecting property name enclosed in double quotes: line 1 column 2 (char 1)")
  /\ exists response,
       invoke_handler (client_replying (Ok None)) [("body", PStr "{")]
       = (Ok response, [])
       /\ status_of response = Some 500.
Proof.
  split; [vm_compute; reflexivity|].
  destruct (extraction_failure_never_reaches_store (client_replying (Ok None))
              [("body", PStr "{")] _ eq_refl) as [response [E [S _]]].
  exists response. split; [exact E|exact S].
Defined.

(** ** The status and the kind of the answer *)

(** X3: the handler returns on every event that is an object, whatever the
    store does; and whenever it returns, on any event at all, the status of
    the envelope is one of 200, 400, 403, 404, 429 and 500. *)
Theorem status_is_one_of_six (client : Client) (event : pyval) :
  (is_object event = true ->
   exists response, fst (invoke_any client event) = Ok response)
  /\ (forall response,
        fst (invoke_any client event) = Ok response ->
        exists st, status_of response = Some st /\ In st status_codes).
Proof.
  assert (K : forall (d : dict pyval) body st,
             In st status_codes ->
             exists st', status_of (format_response d body st) = Some st'
                         /\ In st' status_codes).
  { intros d body st Hin. exists st. split; [apply status_format_response|exact Hin]. }
  destruct event as [|b|z|f|s|l|d].
  7: { fold (invoke_handler client d). rewrite invoke_handler_cases.
       split.
       - intros _. destruct (resolve d) as [uid|e]; [|eexists; reflexivity].
         destruct (isdigit uid); eexists; reflexivity.
       - intros response.
         destruct (resolve d) as [uid|e];
           [|intros [= <-]; apply K; cbn; auto 10].
         destruct (isdigit uid);
           [|intros [= <-]; apply K; cbn; auto 10].
         cbn [fst]. intros [= <-].
         destruct (get_item client table_name (lookup_key uid))
           as [[[|f fs]|]|err]; try (apply K; cbn; auto 10).
         + destruct (decode (f :: fs)); apply K; cbn; auto 10.
         + destruct (store_failure_cases client d err) as [msg [st [-> Hin]]].
           apply K. cbn in Hin |- *. intuition. }
  all: split; [discriminate|]; intros response;
    match goal with
    | |- fst (invoke_any ?c ?ev) = _ -> _ =>
        destruct (resolve_any_non_object ev eq_refl) as [e R];
        rewrite (invoke_any_unresolved c ev e R); cbn [fst];
        pose proof (format_response_any_non_object ev
                      (error_body ("Internal server error: " ++ exn_text e))
                      500 eq_refl) as F;
        destruct (format_response_any ev _ 500) as [r|e']; [|discriminate];
        destruct F as [-> _]; intros [= <-]; apply K; cbn; auto 10
    end.
Qed.

(** X6: whenever the handler returns, on any event and whatever the outcome,
    the envelope is the agent action envelope when both markers are in the
    event, and the gateway envelope when they are not. *)
Theorem handler_envelope_kind (client : Client) (event : pyval)
  (response : pyval) :
  fst (invoke_any client event) = Ok response ->
  is_agent_envelope response = asks_agent event
  /\ is_gateway_envelope response = negb (asks_agent event).
Proof.
  assert (K : forall (d : dict pyval) body st,
             is_agent_envelope (format_response d body st) = agent_event d
             /\ is_gateway_envelope (format_response d body st)
                = negb (agent_event d)).
  { intros. split; [apply agent_format_response|apply gateway_format_response]. }
  destruct event as [|b|z|f|s|l|d].
  7: { assert (A : asks_agent (PDict d) = agent_event d).
       { unfold asks_agent, agent_event. cbn [py_in].
         now destruct (dict_has "agent" d), (dict_has "actionGroup" d). }
       rewrite A. fold (invoke_handler client d). rewrite invoke_handler_cases.
       destruct (resolve d) as [uid|e]; [|intros [= <-]; apply K].
       destruct (isdigit uid); [|intros [= <-]; apply K].
       cbn [fst]. intros [= <-].
       destruct (get_item client table_name (lookup_key uid))
         as [[[|f fs]|]|err]; try apply K.
       - destruct (decode (f :: fs)); apply K.
       - destruct (store_failure_cases client d err) as [msg [st [-> _]]].
         apply K. }
  all: match goal with
    | |- fst (invoke_any ?c ?ev) = _ -> _ =>
        destruct (resolve_any_non_object ev eq_refl) as [e R];
        rewrite (invoke_any_unresolved c ev e R); cbn [fst];
        pose proof (format_response_any_non_object ev
                      (error_body ("Internal server error: " ++ exn_text e))
                      500 eq_refl) as F;
        destruct (format_response_any ev _ 500) as [r|e']; [|discriminate];
        destruct F as [-> ->]; intros [= <-]; split; reflexivity
    end.
Qed.

Lemma handler_envelope_kind_witness :
  fst (invoke_any (client_replying (Ok None)) (PStr "12345"))
  = Ok (format_response []
          (error_body "Internal server error: Employee ID not found in the request")
          500)
  /\ asks_agent (PStr "12345") = false
  /\ is_gateway_envelope
       (format_response []
          (error_body "Internal server error: Employee ID not found in the request")
          500)
     = true.
Proof.
  split; [reflexivity|]. split; [reflexivity|].
  exact (proj2 (handler_envelope_kind (client_replying (Ok None)) (PStr "12345")
                  _ eq_refl)).
Defined.

(** An answer of status 200 comes from a found item that was decoded. *)
Lemma success_inversion (client : Client) (event : dict pyval)
  (response : pyval) (calls : list call) :
  invoke_handler client event = (Ok response, calls) ->
  status_of response = Some 200 ->
  exists uid item readable,
    resolve event = Ok uid
    /\ isdigit uid = true
    /\ get_item client table_name (lookup_key uid) = Ok (Some item)
    /\ item <> []
    /\ decode item = Ok readable
    /\ response = format_response event (PDict readable) 200.
Proof.
  rewrite invoke_handler_cases. intros H S.
  destruct (resolve event) as [uid|e].
  - destruct (isdigit uid) eqn:D.
    + destruct (get_item client table_name (lookup_key uid))
        as [[[|f fs]|]|err] eqn:G; injection H as <- _.
      * unfold empty_item_response in S.
        rewrite status_format_response in S. discriminate.
      * destruct (decode (f :: fs)) as [readable|e] eqn:Dc.
        -- exists uid, (f :: fs), readable. repeat split; try assumption.
           discriminate.
        -- unfold internal_error_response in S.
           rewrite status_format_response in S. discriminate.
      * unfold not_found_response in S.
        rewrite status_format_response in S. discriminate.
      * destruct (store_failure_cases client event err) as [msg [st [E I]]].
        rewrite E, status_format_response in S. injection S as ->.
        cbn in I. repeat (destruct I as [I|I]; [discriminate I|]). destruct I.
    + injection H as <- _. unfold invalid_format_response in S.
      rewrite status_format_response in S. discriminate.
  - injection H as <- _. unfold internal_error_response in S.
    rewrite status_format_response in S. discriminate.
Qed.

(** X4: on an event that is an object the handler answers with status 200
    exactly when the identifier was resolved and validated, the point read
    found an item with at least one field, and the item was decoded; the
    answer is then the envelope of the decoded record, after the two probes
    and the point read. *)
Theorem success_exactly_when_decoded (client : Client) (event : dict pyval)
  (response : pyval) (calls : list call) :
  invoke_handler client event = (Ok response, calls) ->
  (status_of response = Some 200
   <-> exists uid item readable,
         resolve event = Ok uid
         /\ isdigit uid = true
         /\ get_item client table_name (lookup_key uid) = Ok (Some item)
         /\ item <> []
         /\ decode item = Ok readable)
  /\ (forall uid item readable,
        resolve event = Ok uid ->
        isdigit uid = true ->
        get_item client table_name (lookup_key uid) = Ok (Some item) ->
        item <> [] ->
        decode item = Ok readable ->
        response = format_response event (PDict readable) 200
        /\ calls = calls_of_lookup uid).
Proof.
  intros H.
  assert (F : forall uid item readable,
             resolve event = Ok uid ->
             isdigit uid = true ->
             get_item client table_name (lookup_key uid) = Ok (Some item) ->
             item <> [] ->
             decode item = Ok readable ->
             response = format_response event (PDict readable) 200
             /\ calls = calls_of_lookup uid).
  { intros uid item readable R D G Hne Dc.
    rewrite invoke_handler_cases, R, D, G in H.
    destruct item as [|f fs]; [congruence|].
    rewrite Dc in H. now injection H as <- <-. }
  split; [split|exact F].
  - intros S.
    destruct (success_inversion client event response calls H S)
      as [uid [item [readable [R [D [G [Hne [Dc _]]]]]]]].
    now exists uid, item, readable.
  - intros [uid [item [readable [R [D [G [Hne Dc]]]]]]].
    destruct (F uid item readable R D G Hne Dc) as [-> _].
    apply status_format_response.
Qed.

Lemma success_exactly_when_decoded_witness :
  exists response calls,
    invoke_handler (client_replying (Ok (Some ana_item)))
      (event_direct (PStr "12345")) = (Ok response, calls)
    /\ status_of response = Some 200
    /\ response
       = format_response (event_direct (PStr "12345")) (PDict ana_record) 200
    /\ calls = calls_of_lookup "12345".
Proof.
  eexists. eexists. split; [vm_compute; reflexivity|].
  split; [reflexivity|].
  exact (proj2 (success_exactly_when_decoded
                  (client_replying (Ok (Some ana_item)))
                  (event_direct (PStr "12345")) _ _ eq_refl)
           "12345" ana_item ana_record eq_refl eq_refl eq_refl
           ltac:(discriminate) eq_refl).
Defined.

(** ** The decoded record *)

Lemma In_keys_dict_set {A : Type} (k k' : string) (v : A) (d : dict A) :
  In k' (keys (dict_set k v d)) <-> k' = k \/ In k' (keys d).
Proof.
  induction d as [|[k0 v0] d IH]; cbn.
  - intuition.
  - destruct (String.eqb_spec k k0) as [->|Hne]; cbn.
    + intuition.
    + rewrite IH. intuition.
Qed.

Lemma NoDup_keys_dict_set {A : Type} (k : string) (v : A) (d : dict A) :
  NoDup (keys d) -> NoDup (keys (dict_set k v d)).
Proof.
  induction d as [|[k0 v0] d IH]; cbn; intros N.
  - repeat constructor. intros [].
  - inversion N as [|? ? Hk N']; subst.
    destruct (String.eqb_spec k k0) as [->|Hne]; cbn.
    + now constructor.
    + constructor; [|now apply IH].
      intros Hin. apply In_keys_dict_set in Hin as [->|Hin]; [congruence|].
      now apply Hk.
Qed.

Lemma In_dict_set {A : Type} (k k' : string) (v v' : A) (d : dict A) :
  In (k', v') (dict_set k v d) -> (k', v') = (k, v) \/ In (k', v') d.
Proof.
  induction d as [|[k0 v0] d IH]; cbn.
  - intuition.
  - destruct (String.eqb k k0); cbn; intuition.
Qed.

Lemma native_value_scalar (tag raw : string) : is_scalar (native_value tag raw) = true.
Proof.
  unfold native_value.
  destruct (String.eqb tag "N"); [|reflexivity].
  destruct (negb (str_contains "." raw));
    [destruct (py_int raw)|destruct (float_of_str raw)]; reflexivity.
Qed.

Lemma decode_value_scalar (tv : tagged) (v : pyval) :
  decode_value tv = Ok v -> is_scalar v = true.
Proof.
  destruct tv as [|[tag raw] others]; [discriminate|].
  rewrite decode_value_cons. intros [= <-]. apply native_value_scalar.
Qed.

Lemma decode_fields_invariant (items : StoredRecord) :
  forall (acc out : dict pyval),
    decode_fields items acc = Ok out ->
    NoDup (keys acc) ->
    (forall k v, In (k, v) acc -> is_scalar v = true) ->
    NoDup (keys out)
    /\ (forall k v, In (k, v) out -> is_scalar v = true)
    /\ (forall k, In k (keys out) <-> In k (keys acc) \/ In k (keys items)).
Proof.
  induction items as [|[k tv] items IH]; intros acc out D N Sc.
  - cbn in D. injection D as <-. cbn. intuition.
  - cbn in D. destruct (decode_value tv) as [v|e] eqn:V; [|discriminate].
    cbn in D.
    destruct (IH (dict_set k v acc) out D) as [N' [Sc' K']].
    + now apply NoDup_keys_dict_set.
    + intros k0 v0 Hin. apply In_dict_set in Hin as [[= -> ->]|Hin].
      * now apply (decode_value_scalar tv).
      * now apply (Sc k0).
    + split; [exact N'|]. split; [exact Sc'|].
      intros k0. rewrite K', In_keys_dict_set. cbn. intuition.
Qed.

(** X7: whatever record the store hands over, a record the decoder returns
    is a flat mapping: its field names are distinct, they are the field names
    of the stored record, and every value is an integer, a float or a
    text. *)
Theorem decoded_record_is_flat (item : StoredRecord) (readable : dict pyval) :
  decode item = Ok readable ->
  NoDup (keys readable)
  /\ (forall k, In k (keys readable) <-> In k (keys item))
  /\ (forall k v, In (k, v) readable -> is_scalar v = true).
Proof.
  intros D.
  destruct (decode_fields_invariant item [] readable D) as [N [Sc K]].
  - constructor.
  - intros k v [].
  - split; [exact N|]. split; [|exact Sc].
    intros k. rewrite K. cbn. intuition.
Qed.

Lemma decoded_record_is_flat_witness :
  decode ana_item = Ok ana_record
  /\ NoDup (keys ana_record)
  /\ forall k v, In (k, v) ana_record -> is_scalar v = true.
Proof.
  split; [reflexivity|].
  destruct (decoded_record_is_flat ana_item ana_record eq_refl) as [N [_ Sc]].
  split; [exact N|exact Sc].
Defined.

Lemma decode_fields_ok_tagged (items : StoredRecord) :
  forall (acc out : dict pyval),
    decode_fields items acc = Ok out ->
    forall k tv, In (k, tv) items -> tv <> [].
Proof.
  induction items as [|[k0 tv0] items IH]; intros acc out D k tv Hin.
  - destruct Hin.
  - cbn in D. destruct (decode_value tv0) as [v|e] eqn:V; [|discriminate].
    cbn in D. destruct Hin as [[= <- <-]|Hin].
    + intros ->. discriminate.
    + exact (IH _ _ D k tv Hin).
Qed.

Lemma decode_fields_raise (items : StoredRecord) :
  forall (acc : dict pyval) (e : exn),
    decode_fields items acc = Raise e ->
    e = Exn IndexError "list index out of range".
Proof.
  induction items as [|[k0 tv0] items IH]; intros acc e D; [discriminate|].
  cbn in D. destruct (decode_value tv0) as [v|e0] eqn:V; cbn in D.
  - exact (IH _ _ D).
  - injection D as <-. now apply decode_value_raises in V.
Qed.

(** X8: decoding a stored record succeeds exactly when every field carries at
    least one tag; the one exception it can raise is the IndexError of the
    empty list of tags.  No payload, whatever its text, makes it fail. *)
Theorem decode_succeeds_iff_tagged (item : StoredRecord) :
  ((exists readable, decode item = Ok readable)
   <-> forall k tv, In (k, tv) item -> tv <> [])
  /\ forall e, decode item = Raise e ->
               e = Exn IndexError "list index out of range".
Proof.
  split; [split|].
  - intros [readable D]. exact (decode_fields_ok_tagged item [] readable D).
  - apply decode_fields_tagged.
  - apply decode_fields_raise.
Qed.

Lemma no_point_no_contains (s : string) :
  string_forall (fun c => negb (Ascii.eqb c ".")) s = true ->
  str_contains "." s = false.
Proof.
  induction s as [|c s IH]; [reflexivity|].
  cbn [string_forall str_contains prefix].
  intros E. apply andb_true_iff in E as [E1 E2]. rewrite (IH E2).
  apply negb_true_iff in E1.
  destruct (ascii_dec "." c) as [<-|_]; [discriminate E1|reflexivity].
Qed.

Lemma digit_no_point (c : ascii) :
  is_ascii_digit c = true -> negb (Ascii.eqb c ".") = true.
Proof.
  destruct c as [[] [] [] [] [] [] [] []]; try discriminate; reflexivity.
Qed.

Lemma numeral_no_point (z : Z) : str_contains "." (str_of_Z z) = false.
Proof.
  apply no_point_no_contains.
  assert (G : forall n, string_forall (fun c => negb (Ascii.eqb c "."))
                          (str_of_N n) = true).
  { intros n. destruct (str_of_N_shape n) as [d0 [ds [E [H0 [Hs _]]]]].
    rewrite E. cbn. rewrite (digit_no_point _ H0).
    exact (string_forall_impl _ _ _ digit_no_point Hs). }
  destruct z as [|p|p]; unfold str_of_Z; [reflexivity|apply G|].
  cbn [string_forall]. now rewrite G.
Qed.

(** X9: a numeric field whose payload is the decimal numeral of an integer
    of either sign and of at most 4300 digits (the most [int] converts)
    decodes to that integer, whatever tags follow the first. *)
Theorem integer_payload_decodes_to_integer (z : Z) (others : tagged) :
  Z.abs z < 10 ^ max_str_digits ->
  decode_value (("N", str_of_Z z) :: others) = Ok (PInt z).
Proof.
  intros B.
  rewrite decode_value_cons. unfold native_value. cbn [String.eqb].
  change (String.eqb "N" "N") with true. cbv iota.
  now rewrite numeral_no_point, (py_int_numeral z B).
Qed.

Lemma integer_payload_decodes_to_integer_witness :
  str_of_Z (-42) = "-42"
  /\ decode_value [("N", "-42"); ("S", "forty-two")] = Ok (PInt (-42)).
Proof.
  split; [reflexivity|].
  apply (integer_payload_decodes_to_integer (-42) [("S", "forty-two")]).
  vm_compute; reflexivity.
Defined.

(** ** The payload as a JSON document *)

Lemma json_char_plain (c : ascii) :
  string_forall is_plain_ascii (json_char c) = true.
Proof.
  destruct c as [[] [] [] [] [] [] [] []]; reflexivity.
Qed.

Lemma json_string_plain (s : string) :
  string_forall is_plain_ascii (json_string s) = true.
Proof.
  unfold json_string. cbn [string_forall].
  change (is_plain_ascii dquote) with true. cbn [andb].
  rewrite string_forall_app. cbn [string_forall].
  change (is_plain_ascii dquote) with true. rewrite andb_true_r.
  induction s as [|c s IH]; [reflexivity|].
  cbn [json_chars]. now rewrite string_forall_app, json_char_plain, IH.
Qed.

(** The payload of an error: it reads back as the object with the one
    field [error], and its text is printable ASCII whatever the message. *)
Lemma error_body_document (msg : string) :
  json_loads (json_dumps (error_body msg)) = Ok (error_body msg)
  /\ string_forall is_plain_ascii (json_dumps (error_body msg)) = true.
Proof.
  split.
  - apply loads_dumps_flat.
    + repeat constructor. intros [].
    + intros k v [[= <- <-]|[]]. reflexivity.
    + intros k z [H|[]]. discriminate H.
    + intros k f [H|[]]. discriminate H.
  - change (json_dumps (error_body msg))
      with ("{" ++ (json_string "error" ++ ": " ++ json_string msg) ++ "}").
    rewrite !string_forall_app, !json_string_plain. reflexivity.
Qed.

(** X5: whenever the handler answers with a status other than 200, the
    payload is the JSON text of an object with the single field [error]
    holding a message; whatever the message (the identifier echoed, the text
    of a store failure or of an exception), that text is printable ASCII and
    [json.loads] reads it back as that object. *)
Theorem error_payload_is_one_message (client : Client) (event : dict pyval)
  (response : pyval) (calls : list call) :
  invoke_handler client event = (Ok response, calls) ->
  status_of response <> Some 200 ->
  exists msg,
    payload_of response = Some (json_dumps (PDict [("error", PStr msg)]))
    /\ json_loads (json_dumps (PDict [("error", PStr msg)]))
       = Ok (PDict [("error", PStr msg)])
    /\ string_forall is_plain_ascii (json_dumps (PDict [("error", PStr msg)]))
       = true.
Proof.
  assert (K : forall msg st,
             exists msg',
               payload_of (format_response event (error_body msg) st)
               = Some (json_dumps (PDict [("error", PStr msg')]))
               /\ json_loads (json_dumps (PDict [("error", PStr msg')]))
                  = Ok (PDict [("error", PStr msg')])
               /\ string_forall is_plain_ascii
                    (json_dumps (PDict [("error", PStr msg')])) = true).
  { intros msg st. exists msg. split; [apply payload_format_response|].
    apply (error_body_document msg). }
  rewrite invoke_handler_cases. intros H S.
  destruct (resolve event) as [uid|e].
  - destruct (isdigit uid).
    + destruct (get_item client table_name (lookup_key uid))
        as [[[|f fs]|]|err]; injection H as <- _.
      * apply K.
      * destruct (decode (f :: fs)); [|apply K].
        exfalso. apply S. apply status_format_response.
      * apply K.
      * destruct (store_failure_cases client event err) as [msg [st [-> _]]].
        apply K.
    + injection H as <- _. apply K.
  - injection H as <- _. apply K.
Qed.

Lemma error_payload_is_one_message_witness :
  exists response msg,
    invoke_handler
      (client_replying (Raise (Exn (OtherException "ClientError") "boom")))
      (event_direct (PStr "12345"))
    = (Ok response, calls_of_lookup "12345")
    /\ status_of response = Some 500
    /\ payload_of response = Some (json_dumps (PDict [("error", PStr msg)]))
    /\ json_loads (json_dumps (PDict [("error", PStr msg)]))
       = Ok (PDict [("error", PStr msg)]).
Proof.
  eexists.
  destruct (error_payload_is_one_message
              (client_replying (Raise (Exn (OtherException "ClientError") "boom")))
              (event_direct (PStr "12345")) _ _ eq_refl)
    as [msg [P [L _]]].
  - vm_compute. discriminate.
  - exists msg. split; [reflexivity|]. split; [reflexivity|].
    split; [exact P|exact L].
Defined.

Lemma native_value_within_limit (tag raw : string) (z : Z) :
  native_value tag raw = PInt z -> Z.abs z < 10 ^ max_str_digits.
Proof.
  unfold native_value.
  destruct (String.eqb tag "N"); [|discriminate].
  destruct (negb (str_contains "." raw)).
  - destruct (py_int raw) as [z'|] eqn:E; [|discriminate].
    intros [= <-]. exact (py_int_bound raw z' E).
  - destruct (float_of_str raw); discriminate.
Qed.

(** The ints of a decoded record have at most [max_str_digits] digits. *)
Lemma decode_fields_within_limit (items : StoredRecord) :
  forall (acc out : dict pyval),
    decode_fields items acc = Ok out ->
    (forall k z, In (k, PInt z) acc -> Z.abs z < 10 ^ max_str_digits) ->
    forall k z, In (k, PInt z) out -> Z.abs z < 10 ^ max_str_digits.
Proof.
  induction items as [|[k0 tv] items IH]; intros acc out D B.
  - cbn in D. now injection D as <-.
  - cbn in D. destruct (decode_value tv) as [v|e] eqn:V; [|discriminate].
    cbn in D. apply (IH _ _ D).
    intros k z Hin. apply In_dict_set in Hin as [[= _ E]|Hin].
    + subst v. destruct tv as [|[tag raw] others]; [discriminate|].
      rewrite decode_value_cons in V. injection V as V.
      exact (native_value_within_limit tag raw z V).
    + exact (B k z Hin).
Qed.

(** X12: whenever the handler, on an object, answers with status 200, the
    payload is the JSON text of the record decoded from the item that the
    point read found under the resolved identifier; and when that record
    holds no float other than a zero or an infinity, [json.loads] reads the
    payload back as the same record, names, order, types and values. *)
Theorem success_payload_reads_back (client : Client) (event : dict pyval)
  (response : pyval) (calls : list call) :
  invoke_handler client event = (Ok response, calls) ->
  status_of response = Some 200 ->
  exists uid item readable,
    resolve event = Ok uid
    /\ get_item client table_name (lookup_key uid) = Ok (Some item)
    /\ decode item = Ok readable
    /\ payload_of response = Some (json_dumps (PDict readable))
    /\ ((forall k f, In (k, PFloat f) readable -> is_zero_or_infinity f = true) ->
        json_loads (json_dumps (PDict readable)) = Ok (PDict readable)).
Proof.
  intros H S.
  destruct (success_inversion client event response calls H S)
    as [uid [item [readable [R [_ [G [_ [D ->]]]]]]]].
  exists uid, item, readable.
  split; [exact R|]. split; [exact G|]. split; [exact D|].
  split; [apply payload_format_response|].
  intros F.
  destruct (decode_fields_invariant item [] readable D) as [N [Sc _]].
  - constructor.
  - intros k v [].
  - apply (loads_dumps_flat readable N Sc).
    + apply (decode_fields_within_limit item [] readable D). intros k z [].
    + intros k f Hin. apply special_float_reads_back.
      apply zero_or_infinity_special. now apply (F k).
Qed.

Lemma success_payload_reads_back_witness :
  invoke_handler (client_replying (Ok (Some ana_item)))
    (event_direct (PStr "12345"))
  = (Ok (format_response (event_direct (PStr "12345")) (PDict ana_record) 200),
     calls_of_lookup "12345")
  /\ decode ana_item = Ok ana_record
  /\ json_loads (json_dumps (PDict ana_record)) = Ok (PDict ana_record).
Proof.
  split; [vm_compute; reflexivity|]. split; [reflexivity|].
  destruct (success_payload_reads_back (client_replying (Ok (Some ana_item)))
              (event_direct (PStr "12345")) _ (calls_of_lookup "12345")
              eq_refl eq_refl)
    as [uid [item [readable [R [G [D [_ L]]]]]]].
  injection G as <-. injection D as <-. apply L.
  intros k f Hin. cbn in Hin.
  repeat (destruct Hin as [Hin|Hin]; [discriminate Hin|]). destruct Hin.
Defined.

(** ** An identifier that is no text *)

Lemma not_digits_not_identifier (s : string) :
  string_forall isdigit_char s = false ->
  isdigit s = false /\ String.eqb s "" = false.
Proof.
  destruct s as [|c s]; [discriminate|]. intros H. split; [exact H|reflexivity].
Qed.

Lemma digit_isdigit (c : ascii) : is_ascii_digit c = true -> isdigit_char c = true.
Proof. unfold isdigit_char. now intros ->. Qed.

Lemma natural_numeral_isdigit (n : N) : isdigit (str_of_N n) = true.
Proof.
  destruct (str_of_N_shape n) as [d0 [ds [E [H0 [Hs _]]]]].
  rewrite E. cbn. rewrite (digit_isdigit _ H0).
  exact (string_forall_impl _ _ _ digit_isdigit Hs).
Qed.

Lemma format_short_not_digits (ds : string) (decpt : Z) :
  string_forall isdigit_char (format_short ds decpt) = false.
Proof.
  unfold format_short.
  destruct ((-4 <? decpt) && (decpt <=? 16)).
  - destruct (decpt <=? 0); [reflexivity|].
    destruct (Z.of_nat (String.length ds) <=? decpt).
    + rewrite !string_forall_app. cbn [string_forall].
      change (isdigit_char ".") with false. cbn [andb].
      now rewrite !andb_false_r.
    + rewrite !string_forall_app. cbn [string_forall].
      change (isdigit_char ".") with false. cbn [andb].
      now rewrite !andb_false_r.
  - rewrite !string_forall_app. cbn [string_forall].
    change (isdigit_char "e") with false. cbn [andb].
    now rewrite !andb_false_r.
Qed.

Lemma float_repr_not_digits (f : float) :
  string_forall isdigit_char (float_repr f) = false.
Proof.
  unfold float_repr.
  destruct (Prim2SF f) as [[]|[]| |s m e]; try reflexivity.
  destruct (shortest_digits m e) as [ds decpt].
  now rewrite string_forall_app, format_short_not_digits, andb_false_r.
Qed.

Lemma refused_value_not_digits (v : pyval) :
  refused_value v -> string_forall isdigit_char (py_str v) = false.
Proof.
  destruct v as [|b|z|f|s|l|d]; cbn [refused_value]; try contradiction.
  - now destruct b.
  - intros [_ Hz]. destruct z as [|p|p]; try lia. reflexivity.
  - intros _. apply float_repr_not_digits.
  - reflexivity.
  - reflexivity.
Qed.

(** X10: when the value found for the identifier is no text, [str] makes it
    one before validation.  A natural number (of at most 4300 digits, the
    most [str] converts) resolves to its decimal numeral, which passes
    validation, and the store is read under that numeral.  A negative
    integer (of at most 4300 digits), a float, a boolean, a list and an
    object are answered with status 400, and the store is not called. *)
Theorem identifier_given_as_value (client : Client) (event : dict pyval)
  (v : pyval) :
  extract_raw event = Ok v ->
  (forall z, v = PInt z -> 0 <= z < 10 ^ max_str_digits ->
     resolve event = Ok (str_of_Z z)
     /\ isdigit (str_of_Z z) = true
     /\ snd (invoke_handler client event)
        = [DescribeTable "leaveBalanceHRTable"; Scan "leaveBalanceHRTable" 5;
           GetItem "leaveBalanceHRTable" [("empID", [("N", str_of_Z z)])]])
  /\ (refused_value v ->
      resolve event = Ok (py_str v)
      /\ exists response,
           invoke_handler client event = (Ok response, [])
           /\ status_of response = Some 400).
Proof.
  intros X. pose proof (resolve_of_raw event v X) as R. split.
  - intros z -> [Hz _].
    assert (D : isdigit (str_of_Z z) = true).
    { destruct z as [|p|p]; try lia; [reflexivity|].
      exact (natural_numeral_isdigit (Npos p)). }
    assert (E : String.eqb (py_str (PInt z)) "" = false).
    { cbn [py_str py_repr]. destruct (str_of_Z z); [discriminate D|reflexivity]. }
    rewrite E in R. cbn [py_str py_repr] in R.
    split; [exact R|]. split; [exact D|].
    now rewrite invoke_handler_cases, R, D.
  - intros Hv.
    destruct (not_digits_not_identifier _ (refused_value_not_digits v Hv))
      as [D E].
    rewrite E in R.
    assert (R' : resolve event = Ok (py_str v)).
    { destruct v; try exact R. destruct Hv. }
    split; [exact R'|].
    eexists. rewrite invoke_handler_cases, R', D. split; [reflexivity|].
    apply status_format_response.
Qed.

Lemma identifier_given_as_value_witness :
  extract_raw (event_direct (PInt 12345)) = Ok (PInt 12345)
  /\ resolve (event_direct (PInt 12345)) = Ok "12345"
  /\ extract_raw (event_direct (PInt (-5))) = Ok (PInt (-5))
  /\ exists response,
       invoke_handler (client_replying (Ok None)) (event_direct (PInt (-5)))
       = (Ok response, [])
       /\ status_of response = Some 400.
Proof.
  split; [reflexivity|]. split.
  - refine (proj1 (proj1 (identifier_given_as_value (client_replying (Ok None))
                            (event_direct (PInt 12345)) (PInt 12345) eq_refl)
                     12345 eq_refl _)).
    split; [discriminate|vm_compute; reflexivity].
  - split; [reflexivity|].
    refine (proj2 (proj2 (identifier_given_as_value (client_replying (Ok None))
                            (event_direct (PInt (-5))) (PInt (-5)) eq_refl)
                     _)).
    split; vm_compute; reflexivity.
Defined.

(** ** A body sent as JSON text *)

Lemma dict_get_set_same {A : Type} (k : string) (v : A) (d : dict A) :
  dict_get k (dict_set k v d) = Some v.
Proof.
  induction d as [|[k0 v0] d IH]; cbn.
  - now rewrite String.eqb_refl.
  - destruct (String.eqb_spec k k0) as [->|Hne]; cbn.
    + now rewrite String.eqb_refl.
    + destruct (String.eqb_spec k k0); [contradiction|exact IH].
Qed.

Lemma dict_get_set_other {A : Type} (k k' : string) (v : A) (d : dict A) :
  k' <> k -> dict_get k' (dict_set k v d) = dict_get k' d.
Proof.
  intros Hne. induction d as [|[k0 v0] d IH]; cbn.
  - destruct (String.eqb_spec k' k); [contradiction|reflexivity].
  - destruct (String.eqb_spec k k0) as [->|Hk]; cbn.
    + destruct (String.eqb_spec k' k0); [contradiction|reflexivity].
    + destruct (String.eqb k' k0); [reflexivity|exact IH].
Qed.

(** The formatter reads the markers of the event and not its body. *)
Lemma format_response_set_body (event : dict pyval) (b : pyval)
  (body : pyval) (status : Z) :
  format_response (dict_set "body" b event) body status
  = format_response event body status.
Proof.
  unfold format_response, dict_has, get_default.
  now rewrite !(dict_get_set_other "body") by discriminate.
Qed.

Lemma extract_raw_set_body (event : dict pyval) (b : pyval) :
  extract_raw (dict_set "body" b event)
  = let? agent := has_agent_shape event in
    let? found :=
      if agent : bool then agent_value event
      else
        let? body_content :=
          match b with
          | PStr s => json_loads s
          | _ => Ok b
          end in
        py_get body_content "empID" PNone in
    Ok (or_top_level event found).
Proof.
  unfold extract_raw.
  assert (Hs : has_agent_shape (dict_set "body" b event) = has_agent_shape event).
  { unfold has_agent_shape, py_in, py_getitem, dict_has.
    now rewrite !(dict_get_set_other "body") by discriminate. }
  assert (Ha : agent_value (dict_set "body" b event) = agent_value event).
  { unfold agent_value, py_getitem.
    now rewrite !(dict_get_set_other "body") by discriminate. }
  rewrite Hs, Ha.
  destruct (has_agent_shape event) as [agent|e]; [|reflexivity].
  cbn [res_bind].
  assert (T : forall found,
             (let? direct :=
                match found with
                | PNone => py_in "empID" (PDict (dict_set "body" b event))
                | _ => Ok false
                end in
              if direct : bool
              then py_getitem (PDict (dict_set "body" b event)) "empID"
              else Ok found)
             = Ok (or_top_level event found)).
  { intros found. rewrite <- (top_level_step event found).
    unfold py_in, py_getitem, dict_has.
    now rewrite !(dict_get_set_other "body") by discriminate. }
  destruct agent.
  - destruct (agent_value event) as [found|e]; [|reflexivity].
    cbn [res_bind]. apply T.
  - unfold py_in, dict_has, body_value, py_getitem.
    rewrite !dict_get_set_same. cbn [res_bind].
    destruct (match b with PStr s => json_loads s | _ => Ok b end)
      as [body_content|e]; [|reflexivity].
    cbn [res_bind].
    destruct (py_get body_content "empID" PNone) as [found|e]; [|reflexivity].
    cbn [res_bind]. apply T.
Qed.

(** X11: an event whose [body] is the text [json.dumps] gives for a flat
    record of scalars gets, from every store, the very answer and the very
    calls of the same event with the record itself as [body]: parsing the
    text adds nothing and loses nothing.  The integers of the record have at
    most 4300 digits, and its floats other than zero, infinity and NaN are
    taken to read back on their own. *)
Theorem json_text_body_same_answer (client : Client) (event doc : dict pyval) :
  NoDup (keys doc) ->
  (forall k v, In (k, v) doc -> is_scalar v = true) ->
  (forall k z, In (k, PInt z) doc -> Z.abs z < 10 ^ max_str_digits) ->
  (forall k f, In (k, PFloat f) doc ->
               is_finite_nonzero f = true ->
               json_loads (json_dumps (PFloat f)) = Ok (PFloat f)) ->
  invoke_handler client (dict_set "body" (PStr (json_dumps (PDict doc))) event)
  = invoke_handler client (dict_set "body" (PDict doc) event).
Proof.
  intros N Sc B F.
  assert (L : json_loads (json_dumps (PDict doc)) = Ok (PDict doc)).
  { apply (loads_dumps_flat doc N Sc B).
    intros k f Hin. destruct (is_finite_nonzero f) eqn:E.
    - now apply (F k).
    - now apply special_float_reads_back. }
  assert (R : resolve (dict_set "body" (PStr (json_dumps (PDict doc))) event)
              = resolve (dict_set "body" (PDict doc) event)).
  { unfold resolve. rewrite !extract_raw_set_body. now rewrite L. }
  rewrite !invoke_handler_cases, R.
  unfold internal_error_response, invalid_format_response, not_found_response,
    empty_item_response.
  destruct (resolve (dict_set "body" (PDict doc) event)) as [uid|e];
    [|now rewrite !format_response_set_body].
  destruct (isdigit uid); [|now rewrite !format_response_set_body].
  f_equal. f_equal.
  destruct (get_item client table_name (lookup_key uid)) as [[[|f fs]|]|err];
    try now rewrite !format_response_set_body.
  - destruct (decode (f :: fs)); now rewrite !format_response_set_body.
  - unfold store_failure_response, store_error_response,
      internal_error_response.
    rewrite !format_response_set_body.
    destruct (exceptions client "ResourceNotFoundException") as [c1|e1];
      cbn [res_bind]; [|now rewrite !format_response_set_body].
    destruct (isinstance err c1); [reflexivity|].
    destruct (exceptions client "ProvisionedThroughputExceededException")
      as [c2|e2]; cbn [res_bind]; [|now rewrite !format_response_set_body].
    destruct (isinstance err c2); [reflexivity|].
    destruct (exceptions client "AccessDeniedException") as [c3|e3];
      cbn [res_bind]; [|now rewrite !format_response_set_body].
    now destruct (isinstance err c3).
Qed.

Lemma json_text_body_same_answer_witness :
  dict_set "body" (PStr (json_dumps (PDict [("empID", PInt 12345)]))) []
  = [("body", PStr ("{" ++ quoted "empID" ++ ": 12345}"))]
  /\ invoke_handler (client_replying (Ok (Some ana_item)))
       [("body", PStr ("{" ++ quoted "empID" ++ ": 12345}"))]
     = invoke_handler (client_replying (Ok (Some ana_item)))
         [("body", PDict [("empID", PInt 12345)])].
Proof.
  split; [reflexivity|].
  apply (json_text_body_same_answer (client_replying (Ok (Some ana_item))) []
           [("empID", PInt 12345)]).
  - repeat constructor. intros [].
  - intros k v [[= <- <-]|[]]. reflexivity.
  - intros k z [[= _ <-]|[]]. vm_compute; reflexivity.
  - intros k f [H|[]]. discriminate H.
Defined.

(** ** A flat record of ints and texts as a JSON document *)

(** X14: a flat record with distinct names whose values are texts, ints of
    at most 4300 digits, and no float other than a zero or an infinity,
    comes back from [json.loads] of its [json.dumps] as the same record: the
    same names in the same order, each with a value of the same type and the
    same value. *)
Theorem flat_record_reads_back (record : dict pyval) :
  NoDup (keys record) ->
  (forall k v, In (k, v) record -> is_scalar v = true) ->
  (forall k z, In (k, PInt z) record -> Z.abs z < 10 ^ max_str_digits) ->
  (forall k f, In (k, PFloat f) record -> is_zero_or_infinity f = true) ->
  json_loads (json_dumps (PDict record)) = Ok (PDict record).
Proof.
  intros N Sc B F. apply (loads_dumps_flat record N Sc B).
  intros k f Hin. apply special_float_reads_back.
  apply zero_or_infinity_special. now apply (F k).
Qed.

Lemma flat_record_reads_back_witness :
  json_dumps (PDict ana_record)
  = "{" ++ quoted "empID" ++ ": 12345, " ++ quoted "balance" ++ ": 15, "
    ++ quoted "name" ++ ": " ++ quoted "Ana" ++ "}"
  /\ json_loads (json_dumps (PDict ana_record)) = Ok (PDict ana_record).
Proof.
  split; [vm_compute; reflexivity|].
  apply (flat_record_reads_back ana_record).
  - cbn. repeat constructor; cbn; intros H;
      repeat (destruct H as [H|H]; [discriminate H|]); exact H.
  - intros k v H. cbn in H.
    repeat (destruct H as [H|H]; [injection H as _ <-; reflexivity|]).
    destruct H.
  - intros k z H. cbn in H.
    repeat (destruct H as [H|H];
            [try discriminate H; injection H as _ <-; vm_compute; reflexivity|]).
    destruct H.
  - intros k f H. cbn in H.
    repeat (destruct H as [H|H]; [discriminate H|]). destruct H.
Defined.

(** ** A failure of the point read of a class the namespace has not *)

Lemma not_instance (e : exn) (cls : exn_class) :
  exn_kind e <> cls -> isinstance e cls = false.
Proof.
  unfold isinstance. intros H.
  destruct (exn_class_eqb (exn_kind e) cls) eqn:E; [|reflexivity].
  exfalso. apply H.
  destruct (exn_kind e), cls; try discriminate E; try reflexivity.
  f_equal. now apply String.eqb_eq.
Qed.

(** X15: on a client whose namespace has the two classes of a missing table
    and of throughput exhaustion and has no [AccessDeniedException], a
    failure of the point read of any other class, access denial among them,
    never reaches the third and fourth [except] clauses: naming the missing
    class raises, and the handler answers with status 500 and the text of
    that [AttributeError] as an internal server error, not with 403 and not
    with the text of the failure. *)
Theorem unknown_class_ends_in_internal_error (client : Client)
  (event : dict pyval) (uid : string) (e a : exn) :
  resolve event = Ok uid ->
  isdigit uid = true ->
  get_item client table_name (lookup_key uid) = Raise e ->
  exceptions client "ResourceNotFoundException" = Ok ResourceNotFoundException ->
  exceptions client "ProvisionedThroughputExceededException"
  = Ok ProvisionedThroughputExceededException ->
  exceptions client "AccessDeniedException" = Raise a ->
  exn_kind e <> ResourceNotFoundException ->
  exn_kind e <> ProvisionedThroughputExceededException ->
  exists response,
    invoke_handler client event = (Ok response, calls_of_lookup uid)
    /\ status_of response = Some 500
    /\ payload_of response
       = Some (json_dumps
                 (PDict [("error", PStr ("Internal server error: " ++ exn_text a))])).
Proof.
  intros R D G N T A K1 K2. eexists.
  rewrite invoke_handler_cases, R, D, G. split; [reflexivity|].
  unfold store_failure_response, store_error_response.
  rewrite N. cbn [res_bind]. rewrite (not_instance e _ K1).
  rewrite T. cbn [res_bind]. rewrite (not_instance e _ K2).
  rewrite A. cbn [res_bind]. unfold internal_error_response.
  now rewrite status_format_response, payload_format_response.
Qed.

Lemma unknown_class_ends_in_internal_error_witness :
  exists response,
    invoke_handler
      (client_replying
         (Raise (Exn (OtherException "ClientError")
                   "An error occurred (AccessDeniedException)")))
      (event_direct (PStr "12345"))
    = (Ok response, calls_of_lookup "12345")
    /\ status_of response = Some 500
    /\ payload_of response
       = Some (error_text
                 "Internal server error: DynamoDBExceptions object has no attribute AccessDeniedException").
Proof.
  exact (unknown_class_ends_in_internal_error
           (client_replying
              (Raise (Exn (OtherException "ClientError")
                        "An error occurred (AccessDeniedException)")))
           (event_direct (PStr "12345")) "12345" _ _
           eq_refl eq_refl eq_refl eq_refl eq_refl eq_refl
           ltac:(discriminate) ltac:(discriminate)).
Defined.
